(** * Scam Dunk AI: the risk-scoring core, embedded and verified

    A shallow embedding of the Python package [packages/ai/app]:
    - [scoring/ensemble_scorer.py]   the ensemble combiner, its prediction
                                     pipeline, explanations and calibration,
    - [models/pattern_matcher.py]    the regex risk taxonomy and its risk score,
    - [models/bert_classifier.py]    the BERT classifier and its fallback
                                     ([ScamPatternSimulator]),
    - [models/sentiment_analyzer.py] the sentiment, urgency and manipulation
                                     analyses,
    - [utils/model_simulator.py]     the seeded model simulator,
    - [workers/scan_processor.py]    the scan queue workers and the retry
                                     handler,
    - [services/redis_service.py]    the cache and the queues,
    - [services/detection_service.py] the cached analysis and its metrics,
    - [api/routes/scan.py]           the quick scan and its request model.

    Conventions of the embedding.
    - A Python [float] is an exact rational ([Q]); equality of scores is
      [Qeq] ([==]).  Rounding is not modelled: an identity holds of the
      program up to the rounding of its doubles, and a comparison with a
      threshold can fall on the other side when the exact value is the
      threshold itself.
    - A Python [str] is a [string] of 8-bit characters; the character
      classes of [re] ([\s], [\d], [\w], case folding) are the ASCII ones.
    - A [dict] with string keys is a [gmap string _]; where the iteration
      order of the dict is observable (the pattern catalogue) it is an
      association list in insertion order.
    - [try/except] is an explicit [outcome]; mutable objects, the Redis
      server and NumPy's global generator are threaded as explicit state.
    - What the package only calls is a parameter: the loaded classifier
      ([predict_single]), the transformer pipelines, TextBlob (class
      [TextBlob]), SHA-256 (class [Hashlib]), what [_perform_analysis] does
      for a request, the clock readings, and NumPy's generator and [np.exp]
      (class [Numpy]).

    Part I embeds the program, Part II holds the definitions that only
    the statements need, Part III the theorems. *)

From Stdlib Require Import ZArith QArith Qminmax Qabs Lqa Lia List String Ascii.
From Stdlib Require Import DecimalString Qround.
From stdpp Require Import base option list strings gmap.

(* ===================================================================== *)
(** * Part I: the program                                                 *)
(* ===================================================================== *)

(** ** Python values, exceptions, NumPy reductions *)

Module Py.

(** The JSON-like values that the dictionaries of the program hold.
    [VTime t] is the string [datetime.isoformat()] renders for the instant
    [t] (seconds), kept as the instant. *)
Inductive pyval : Type :=
| VNone
| VBool (b : bool)
| VInt (z : Z)
| VFloat (q : Q)
| VStr (s : string)
| VTime (t : Z).

(** [dict.get(key, default)] *)
Definition get (d : gmap string pyval) (key : string) (dflt : pyval) : pyval :=
  default dflt (d !! key).

(** The float a numeric value stands for ([None] for the others). *)
Definition as_float (v : pyval) : option Q :=
  match v with
  | VFloat q => Some q
  | VInt z => Some (inject_Z z)
  | VBool b => Some (if b then 1 else 0)%Q
  | _ => None
  end.

(** The exceptions the modelled code raises, with their message. *)
Inductive exn : Type :=
| AttributeError (msg : string)
| KeyError (key : string)
| ValueError (msg : string)
| TypeError (msg : string)
| Exception (msg : string).

(** [str(e)] *)
Definition str (e : exn) : string :=
  match e with
  | AttributeError m | ValueError m | TypeError m | Exception m => m
  | KeyError k => ("'" ++ k ++ "'")%string
  end.

(** The result of a computation that may raise. *)
Inductive outcome (A : Type) : Type :=
| Return (a : A)
| Raise (e : exn).
Arguments Return {A} a.
Arguments Raise {A} e.

Definition bind {A B : Type} (m : outcome A) (k : A -> outcome B) : outcome B :=
  match m with
  | Return a => k a
  | Raise e => Raise e
  end.

(** [try: body  except Exception as e: handler(e)] *)
Definition try_except {A : Type} (body : outcome A) (handler : exn -> A) : A :=
  match body with
  | Return a => a
  | Raise e => handler e
  end.

(** [d[key]] *)
Definition getitem {V : Type} (d : gmap string V) (key : string) : outcome V :=
  match d !! key with
  | Some v => Return v
  | None => Raise (KeyError key)
  end.

End Py.

Module Np.
Open Scope Q_scope.

(** [a < b] on floats. *)
Definition Qltb (a b : Q) : bool := negb (Qle_bool b a).

(** [sum(xs)] *)
Definition sum (xs : list Q) : Q := fold_left Qplus xs 0.

(** [np.mean(xs)] on a non-empty list. *)
Definition mean (xs : list Q) : Q := sum xs / inject_Z (Z.of_nat (length xs)).

(** [np.var(xs)]: the population variance, mean(|x - mean(xs)|^2). *)
Definition var (xs : list Q) : Q :=
  let m := mean xs in
  mean (map (fun x => (x - m) * (x - m)) xs).

(** [np.clip(x, lo, hi)] *)
Definition clip (x lo hi : Q) : Q := Qmin (Qmax x lo) hi.

End Np.

(** ** The fragment of Python's [re] that the pattern catalogues use

    Patterns are kept as the source writes them and parsed by [parse].  The
    matcher is a backtracking matcher: [rmatch r p] lists, in the order the
    [sre] engine tries them (first alternative first, greedy repeats longest
    first), the positions at which a match of [r] started at [p] can end.
    Supported syntax: literals, [\d \s \w \b], escaped punctuation, [.],
    classes [[...]] with ranges and negation, groups [(?:...)], [|], and
    the greedy quantifiers [* + ? {n} {n,} {n,m}].  Capturing groups, lazy
    quantifiers and anchors do not occur in the catalogues and are refused
    by the parser ([None]). *)

Module Regex.

(** An item of a character class: a character, a range [a-z], or one of
    the classes [\d], [\s], [\w]. *)
Inductive citem : Type :=
| CChar (c : ascii)
| CRange (lo hi : ascii)
| CDigit
| CSpace
| CWord.

(** A compiled pattern.  A literal is the class of its one character;
    [Rep r lo hi] is the greedy repeat of [r], at least [lo] and at most
    [hi] times ([*] is [Rep r 0 None], [+] is [Rep r 1 None], [?] is
    [Rep r 0 (Some 1)]). *)
Inductive regex : Type :=
| Eps
| Cls (neg : bool) (items : list citem)
| AnyChar
| WordBoundary
| Seq (r1 r2 : regex)
| Alt (r1 r2 : regex)
| Rep (r : regex) (lo : nat) (hi : option nat).

(** Character tests, on the code of the character.  [is_space] is what
    [str.isspace] and [\s] accept below 128: tab to carriage return, the
    four separators 28 to 31, and the space. *)
Definition code (c : ascii) : nat := nat_of_ascii c.
Definition between (lo hi : nat) (c : ascii) : bool :=
  (lo <=? code c)%nat && (code c <=? hi)%nat.

Definition is_digit (c : ascii) : bool := between 48 57 c.
Definition is_upper (c : ascii) : bool := between 65 90 c.
Definition is_lower (c : ascii) : bool := between 97 122 c.
Definition is_space (c : ascii) : bool := between 9 13 c || between 28 32 c.
Definition is_word (c : ascii) : bool :=
  is_digit c || is_upper c || is_lower c || (code c =? 95)%nat.

(** Case mapping of a letter, as [str.lower] and [re.IGNORECASE] do it. *)
Definition lower (c : ascii) : ascii :=
  if is_upper c then ascii_of_nat (code c + 32) else c.
Definition upper (c : ascii) : ascii :=
  if is_lower c then ascii_of_nat (code c - 32) else c.

(** Membership in a class; under [re.IGNORECASE] a character is in the
    class when it or one of its case variants is. *)
Definition citem_mem (i : citem) (c : ascii) : bool :=
  match i with
  | CChar a => Ascii.eqb a c
  | CRange lo hi => between (code lo) (code hi) c
  | CDigit => is_digit c
  | CSpace => is_space c
  | CWord => is_word c
  end.

Definition cls_mem (ignorecase neg : bool) (items : list citem) (c : ascii) : bool :=
  let hit x := existsb (fun i => citem_mem i x) items in
  xorb neg (hit c || (ignorecase && (hit (lower c) || hit (upper c)))).

(** A position in the subject: the character just before it and the rest. *)
Definition pos : Type := option ascii * list ascii.

(** [\b] holds where exactly one neighbour is a word character. *)
Definition word_before (p : pos) : bool :=
  match p.1 with Some c => is_word c | None => false end.
Definition word_after (p : pos) : bool :=
  match p.2 with c :: _ => is_word c | [] => false end.

(** The ends of a greedy repeat started at [p]: one more round of [step]
    first, stopping here last.  A round that consumes nothing is cut, so
    [S (length rest)] rounds of fuel are never used up. *)
Fixpoint rep_loop (step : pos -> list pos) (fuel lo : nat) (hi : option nat)
    (p : pos) : list pos :=
  match fuel with
  | O => []
  | S fuel' =>
      let again :=
        match hi with
        | Some O => []
        | _ =>
            flat_map
              (fun q =>
                 if (length q.2 <? length p.2)%nat
                 then rep_loop step fuel' (Nat.pred lo) (Nat.pred <$> hi) q
                 else [])
              (step p)
        end in
      again ++ (match lo with O => [p] | S _ => [] end)
  end.

(** The ends of the matches of [r] started at [p], the one the engine
    finds first at the head. *)
Fixpoint rmatch (ignorecase : bool) (r : regex) (p : pos) : list pos :=
  match r with
  | Eps => [p]
  | Cls neg items =>
      match p.2 with
      | c :: s => if cls_mem ignorecase neg items c then [(Some c, s)] else []
      | [] => []
      end
  | AnyChar =>
      match p.2 with
      | c :: s => if (code c =? 10)%nat then [] else [(Some c, s)]
      | [] => []
      end
  | WordBoundary => if xorb (word_before p) (word_after p) then [p] else []
  | Seq r1 r2 => flat_map (rmatch ignorecase r2) (rmatch ignorecase r1 p)
  | Alt r1 r2 => rmatch ignorecase r1 p ++ rmatch ignorecase r2 p
  | Rep r lo hi => rep_loop (rmatch ignorecase r) (S (length p.2)) lo hi p
  end.

(** One character further in the subject. *)
Definition step_pos (p : pos) : option pos :=
  match p.2 with
  | c :: s => Some (Some c, s)
  | [] => None
  end.

(** The text between two positions. *)
Definition consumed (p q : pos) : list ascii :=
  take (length p.2 - length q.2) p.2.

(** The scanner behind [findall]: the leftmost match from [p] on, then
    on from its end; after an empty match the next one at the same place
    must be non-empty ([must_advance]).  Every round advances the position
    or clears [must_advance], so the fuel of [findall_re] suffices. *)
Fixpoint scan (fuel : nat) (ignorecase : bool) (r : regex) (must_advance : bool)
    (p : pos) : list (list ascii) :=
  match fuel with
  | O => []
  | S fuel' =>
      let ends := rmatch ignorecase r p in
      let ends := if must_advance
                  then filter (fun q => (length q.2 <? length p.2)%nat = true) ends
                  else ends in
      match ends with
      | q :: _ =>
          consumed p q
            :: scan fuel' ignorecase r (length p.2 =? length q.2)%nat q
      | [] =>
          match step_pos p with
          | Some p' => scan fuel' ignorecase r false p'
          | None => []
          end
      end
  end.

(** [compiled.findall(text)] for a pattern without capturing groups: the
    non-overlapping matches, left to right. *)
Definition findall_re (ignorecase : bool) (r : regex) (text : string) : list string :=
  let s := list_ascii_of_string text in
  map string_of_list_ascii (scan (2 * length s + 2) ignorecase r false (None, s)).

(** The parser of the pattern syntax.  [isch c "x"] tests a character
    against a one-character string. *)
Definition isch (c : ascii) (s : string) : bool :=
  match s with String a EmptyString => Ascii.eqb a c | _ => false end.

(** The item an escape [\c] stands for; escaped letters and digits other
    than [d], [s], [w] are not supported. *)
Definition escape_item (c : ascii) : option citem :=
  if isch c "d" then Some CDigit
  else if isch c "s" then Some CSpace
  else if isch c "w" then Some CWord
  else if is_word c then None
  else Some (CChar c).

(** The items of a class up to its closing bracket. *)
Fixpoint parse_items (s : list ascii) (acc : list citem)
    : option (list citem * list ascii) :=
  match s with
  | [] => None
  | a :: s1 =>
      if isch a "]" then Some (rev acc, s1)
      else if isch a "\" then
        match s1 with
        | c :: s2 => it ← escape_item c; parse_items s2 (it :: acc)
        | [] => None
        end
      else
        match s1 with
        | m :: b :: s2 =>
            if isch m "-" && negb (isch b "]") then
              if isch b "\" then None else parse_items s2 (CRange a b :: acc)
            else parse_items s1 (CChar a :: acc)
        | _ => parse_items s1 (CChar a :: acc)
        end
  end.

Definition parse_class (s : list ascii) : option (regex * list ascii) :=
  match s with
  | c :: s1 =>
      if isch c "^" then '(items, rest) ← parse_items s1 []; Some (Cls true items, rest)
      else '(items, rest) ← parse_items s []; Some (Cls false items, rest)
  | [] => None
  end.

(** A decimal number, if one starts here. *)
Fixpoint parse_nat (s : list ascii) (acc : option nat) : option nat * list ascii :=
  match s with
  | c :: s1 =>
      if is_digit c
      then parse_nat s1 (Some (10 * default 0%nat acc + (code c - 48))%nat)
      else (acc, s)
  | [] => (acc, s)
  end.

(** The quantifiers [{n}], [{n,}], [{n,m}] after the opening brace. *)
Definition parse_braces (a : regex) (s : list ascii) : option (regex * list ascii) :=
  match parse_nat s None with
  | (Some lo, c :: s1) =>
      if isch c "}" then Some (Rep a lo (Some lo), s1)
      else if isch c "," then
        match parse_nat s1 None with
        | (hi, d :: s2) => if isch d "}" then Some (Rep a lo hi, s2) else None
        | _ => None
        end
      else None
  | _ => None
  end.

(** A quantifier followed by another quantifier character (lazy,
    possessive or repeated) is refused. *)
Definition no_suffix (r : option (regex * list ascii)) : option (regex * list ascii) :=
  '(q, s) ← r;
  match s with
  | c :: _ => if isch c "?" || isch c "+" || isch c "*" || isch c "{" then None else Some (q, s)
  | [] => Some (q, s)
  end.

Definition parse_quant (a : regex) (s : list ascii) : option (regex * list ascii) :=
  match s with
  | c :: s1 =>
      if isch c "*" then no_suffix (Some (Rep a 0 None, s1))
      else if isch c "+" then no_suffix (Some (Rep a 1 None, s1))
      else if isch c "?" then no_suffix (Some (Rep a 0 (Some 1%nat), s1))
      else if isch c "{" then no_suffix (parse_braces a s1)
      else Some (a, s)
  | [] => Some (a, s)
  end.

Definition parse_escape (c : ascii) : option regex :=
  if isch c "b" then Some WordBoundary
  else it ← escape_item c; Some (Cls false [it]).

(** Recursive descent: alternatives, sequences of quantified atoms, atoms.
    Each call spends one unit of fuel. *)
Fixpoint parse_alt (fuel : nat) (s : list ascii) : option (regex * list ascii) :=
  match fuel with
  | O => None
  | S fuel' =>
      '(r1, s1) ← parse_seq fuel' s;
      match s1 with
      | c :: s2 =>
          if isch c "|" then '(r2, s3) ← parse_alt fuel' s2; Some (Alt r1 r2, s3)
          else Some (r1, s1)
      | [] => Some (r1, s1)
      end
  end
with parse_seq (fuel : nat) (s : list ascii) : option (regex * list ascii) :=
  match fuel with
  | O => None
  | S fuel' =>
      match s with
      | [] => Some (Eps, s)
      | c :: _ =>
          if isch c "|" || isch c ")" then Some (Eps, s)
          else
            '(a, s1) ← parse_atom fuel' s;
            '(q, s2) ← parse_quant a s1;
            '(r, s3) ← parse_seq fuel' s2;
            Some (Seq q r, s3)
      end
  end
with parse_atom (fuel : nat) (s : list ascii) : option (regex * list ascii) :=
  match fuel with
  | O => None
  | S fuel' =>
      match s with
      | [] => None
      | c :: s1 =>
          if isch c "(" then
            match s1 with
            | q :: k :: s2 =>
                if isch q "?" && isch k ":" then
                  '(r, s3) ← parse_alt fuel' s2;
                  match s3 with
                  | d :: s4 => if isch d ")" then Some (r, s4) else None
                  | [] => None
                  end
                else None
            | _ => None
            end
          else if isch c "[" then parse_class s1
          else if isch c "\" then
            match s1 with
            | e :: s2 => r ← parse_escape e; Some (r, s2)
            | [] => None
            end
          else if isch c "." then Some (AnyChar, s1)
          else if isch c "*" || isch c "+" || isch c "?" || isch c "{" || isch c "^" || isch c "$"
          then None
          else Some (Cls false [CChar c], s1)
      end
  end.

(** [re.compile(pattern)]; [None] for a pattern outside the fragment. *)
Definition parse (pattern : string) : option regex :=
  let s := list_ascii_of_string pattern in
  match parse_alt (2 * length s + 2) s with
  | Some (r, []) => Some r
  | _ => None
  end.

End Regex.

(** ** [models/pattern_matcher.py] *)

Module PatternMatcher.
Import Regex.
Open Scope Q_scope.

(** [class RiskLevel(Enum)] *)
Inductive RiskLevel : Type := CRITICAL | HIGH | MEDIUM | LOW.

Definition RiskLevel_value (r : RiskLevel) : string :=
  match r with
  | CRITICAL => "critical"
  | HIGH => "high"
  | MEDIUM => "medium"
  | LOW => "low"
  end.

(** [@dataclass class PatternMatch] *)
Record PatternMatch : Type := {
  pattern : string;
  matches : list string;
  risk_level : RiskLevel;
  confidence : Q;
  category : string;
  description : string
}.

(** One entry of the catalogue: the dict with keys [patterns] and
    [description]. *)
Record CategoryInfo : Type := {
  info_patterns : list (string * RiskLevel);
  info_description : string
}.

(** A compiled rule: [(compiled_pattern, original_pattern, risk_level)]. *)
Definition rule : Type := regex * string * RiskLevel.

(** [class ScamPatternMatcher]: both attributes are dicts keyed by the
    category, iterated in insertion order. *)
Record ScamPatternMatcher : Type := {
  patterns : list (string * CategoryInfo);
  compiled_patterns : list (string * list rule)
}.

(** [ScamPatternMatcher._initialize_patterns] *)
Definition _initialize_patterns : list (string * CategoryInfo) :=
  [ ("investment_scams",
     {| info_patterns :=
          [ ("guaranteed\s+(?:returns?|profits?|income)", CRITICAL);
            ("risk\s*-?\s*free\s+(?:investment|trading|opportunity)", CRITICAL);
            ("double\s+your\s+money\s+in\s+\d+\s+(?:days?|weeks?|months?)", CRITICAL);
            ("(?:200|300|500|1000)%\s+(?:return|profit|guaranteed)", CRITICAL);
            ("ponzi\s+scheme", CRITICAL);
            ("pyramid\s+scheme", CRITICAL);
            ("binary\s+options\s+trading", HIGH);
            ("forex\s+trading\s+(?:robot|bot|system)", HIGH);
            ("insider\s+(?:trading|information)", HIGH);
            ("stock\s+pump\s+and\s+dump", HIGH) ];
        info_description := "Investment and trading scams" |});
    ("crypto_scams",
     {| info_patterns :=
          [ ("bitcoin\s+(?:giveaway|doubler|investment)", CRITICAL);
            ("ethereum\s+(?:giveaway|doubler)", CRITICAL);
            ("crypto\s+(?:mining|investment)\s+(?:guaranteed|profits?)", HIGH);
            ("send\s+(?:bitcoin|btc|ethereum|eth)\s+get\s+(?:double|triple)", CRITICAL);
            ("elon\s+musk\s+(?:bitcoin|crypto)\s+giveaway", CRITICAL);
            ("rug\s+pull\s+(?:crypto|token)", HIGH);
            ("pump\s+and\s+dump\s+(?:crypto|coin)", HIGH);
            ("defi\s+(?:guaranteed|risk-free)", HIGH);
            ("nft\s+(?:guaranteed|investment|profits?)", MEDIUM) ];
        info_description := "Cryptocurrency-related scams" |});
    ("romance_scams",
     {| info_patterns :=
          [ ("need\s+money\s+for\s+(?:emergency|medical|travel)", HIGH);
            ("western\s+union\s+(?:transfer|money)", HIGH);
            ("money\s*gram\s+transfer", HIGH);
            ("gift\s+cards?\s+(?:payment|money|transfer)", HIGH);
            ("i\s+love\s+you\s+(?:but|and)\s+need", MEDIUM);
            ("military\s+(?:deployment|overseas)\s+money", MEDIUM);
            ("stranded\s+(?:abroad|overseas)\s+need\s+money", HIGH);
            ("inheritance\s+money\s+(?:help|transfer)", MEDIUM) ];
        info_description := "Romance and social engineering scams" |});
    ("phishing_scams",
     {| info_patterns :=
          [ ("verify\s+your\s+(?:account|identity)\s+(?:immediately|now)", CRITICAL);
            ("account\s+(?:suspended|locked|compromised)", HIGH);
            ("confirm\s+your\s+(?:details|information|payment)", HIGH);
            ("update\s+your\s+(?:password|payment|billing)", HIGH);
            ("click\s+here\s+to\s+(?:verify|confirm|update)", HIGH);
            ("suspicious\s+activity\s+detected", HIGH);
            ("unauthorized\s+(?:access|transaction|login)", MEDIUM);
            ("security\s+alert\s+(?:urgent|immediate)", MEDIUM) ];
        info_description := "Phishing and account verification scams" |});
    ("tech_support_scams",
     {| info_patterns :=
          [ ("microsoft\s+(?:support|security|windows)", HIGH);
            ("apple\s+support\s+(?:urgent|security)", HIGH);
            ("computer\s+(?:infected|virus|malware)", HIGH);
            ("call\s+(?:this\s+number|immediately)\s+\+?[\d\-\(\)\s]+", HIGH);
            ("remote\s+access\s+(?:required|needed)", HIGH);
            ("firewall\s+(?:breach|compromised)", MEDIUM);
            ("trojan\s+(?:detected|virus|malware)", MEDIUM) ];
        info_description := "Tech support scams" |});
    ("lottery_scams",
     {| info_patterns :=
          [ ("you\s+(?:have\s+)?won\s+\$?[\d,]+", HIGH);
            ("lottery\s+(?:winner|prize|jackpot)", HIGH);
            ("congratulations\s+you\s+(?:won|selected)", MEDIUM);
            ("claim\s+your\s+(?:prize|winnings|reward)", MEDIUM);
            ("processing\s+fee\s+(?:required|needed)", HIGH);
            ("tax\s+(?:payment|fee)\s+(?:required|needed)", HIGH) ];
        info_description := "Lottery and prize scams" |});
    ("job_scams",
     {| info_patterns :=
          [ ("work\s+from\s+home\s+(?:\$\d+|\d+\$)", MEDIUM);
            ("easy\s+money\s+(?:guaranteed|opportunity)", MEDIUM);
            ("envelope\s+stuffing\s+(?:job|work)", MEDIUM);
            ("mystery\s+shopper\s+(?:job|opportunity)", MEDIUM);
            ("data\s+entry\s+(?:\$\d+|\d+\$)\s+(?:per\s+hour|daily)", MEDIUM);
            ("no\s+experience\s+(?:required|needed)\s+high\s+pay", MEDIUM) ];
        info_description := "Employment and job scams" |});
    ("urgency_tactics",
     {| info_patterns :=
          [ ("act\s+now\s+or\s+(?:miss\s+out|lose)", HIGH);
            ("limited\s+time\s+offer\s+expires?", MEDIUM);
            ("urgent\s+(?:action\s+)?required", MEDIUM);
            ("expires?\s+(?:today|tonight|in\s+\d+\s+hours?)", MEDIUM);
            ("last\s+(?:chance|opportunity)", MEDIUM);
            ("immediate\s+(?:action\s+)?required", MEDIUM);
            ("don\'?t\s+(?:delay|wait|hesitate)", LOW) ];
        info_description := "Urgency and pressure tactics" |});
    ("contact_pressure",
     {| info_patterns :=
          [ ("call\s+(?:me\s+)?(?:now|immediately|asap)", MEDIUM);
            ("text\s+(?:me\s+)?(?:back|now|asap)", MEDIUM);
            ("respond\s+(?:immediately|asap|now)", MEDIUM);
            ("reply\s+(?:immediately|asap|now)", MEDIUM);
            ("contact\s+(?:me\s+)?(?:immediately|asap)", MEDIUM) ];
        info_description := "Contact and response pressure" |}) ].

(** [re.compile(pattern, re.IGNORECASE | re.MULTILINE)]; a pattern that
    does not compile ([re.error]) is logged and left out. *)
Definition compile_rule (pr : string * RiskLevel) : list rule :=
  match parse pr.1 with
  | Some compiled => [(compiled, pr.1, pr.2)]
  | None => []
  end.

(** [ScamPatternMatcher._compile_patterns] *)
Definition _compile_patterns (pats : list (string * CategoryInfo))
    : list (string * list rule) :=
  map (fun '(cat, data) => (cat, flat_map compile_rule (info_patterns data))) pats.

(** [ScamPatternMatcher.__init__] *)
Definition __init__ : ScamPatternMatcher :=
  {| patterns := _initialize_patterns;
     compiled_patterns := _compile_patterns _initialize_patterns |}.

(** The global instance [pattern_matcher = ScamPatternMatcher()]. *)
Definition pattern_matcher : ScamPatternMatcher := __init__.

(** [compiled_pattern.findall(text)]: the patterns are compiled with
    [re.IGNORECASE]; [re.MULTILINE] only affects anchors, which no pattern
    has.  Without capturing groups [findall] returns the matched texts. *)
Definition findall (compiled : regex) (text : string) : list string :=
  findall_re true compiled text.

(** The dict literal [base_confidence] of [find_matches]. *)
Definition base_confidence (r : RiskLevel) : Q :=
  match r with
  | CRITICAL => 0.9
  | HIGH => 0.8
  | MEDIUM => 0.6
  | LOW => 0.4
  end.

(** The confidence of a rule that matched [match_count] times. *)
Definition match_confidence (r : RiskLevel) (match_count : Z) : Q :=
  Qmin 0.95 (base_confidence r + inject_Z (match_count - 1) * 0.05).

(** The body of the inner loop of [find_matches] for one compiled rule. *)
Definition match_rule (text category : string) (category_info : CategoryInfo)
    (r : rule) : list PatternMatch :=
  let '(compiled_pattern, original_pattern, level) := r in
  let found_matches := findall compiled_pattern text in
  match found_matches with
  | [] => []
  | _ :: _ =>
      let match_count := Z.of_nat (length found_matches) in
      [ {| pattern := original_pattern;
           matches := found_matches;
           risk_level := level;
           confidence := match_confidence level match_count;
           category := category;
           description := info_description category_info |} ]
  end.

(** [self.patterns[category]] on the association list. *)
Definition lookup_category (pats : list (string * CategoryInfo)) (cat : string)
    : option CategoryInfo :=
  snd <$> List.find (fun e => String.eqb e.1 cat) pats.

(** The outer loop of [find_matches].  The whole loop stands in one [try]:
    a [KeyError] on [self.patterns[category]] ends it, and the matches
    appended so far are returned. *)
Fixpoint find_matches_loop (pats : list (string * CategoryInfo))
    (compiled : list (string * list rule)) (text : string) : list PatternMatch :=
  match compiled with
  | [] => []
  | (cat, pattern_list) :: rest =>
      match lookup_category pats cat with
      | None => []
      | Some category_info =>
          flat_map (match_rule text cat category_info) pattern_list
            ++ find_matches_loop pats rest text
      end
  end.

(** [ScamPatternMatcher.find_matches] *)
Definition find_matches (self : ScamPatternMatcher) (text : string)
    : list PatternMatch :=
  find_matches_loop (patterns self) (compiled_patterns self) text.

(** The dict literal [risk_weights] of [calculate_risk_score]. *)
Definition risk_weights (r : RiskLevel) : Q :=
  match r with
  | CRITICAL => 1.0
  | HIGH => 0.8
  | MEDIUM => 0.6
  | LOW => 0.4
  end.

(** The dict [category_multipliers], in insertion order, and the statement
    [if cat not in d: d[cat] = 1.0  else: d[cat] *= 0.8] followed by the
    read of [d[cat]]: the updated dict and the value read. *)
Fixpoint bump_multiplier (category_multipliers : list (string * Q)) (cat : string)
    : list (string * Q) * Q :=
  match category_multipliers with
  | [] => ([(cat, 1.0)], 1.0)
  | (k, v) :: rest =>
      if String.eqb k cat then ((k, v * 0.8) :: rest, v * 0.8)
      else let '(rest', m) := bump_multiplier rest cat in ((k, v) :: rest', m)
  end.

(** One round of the loop of [calculate_risk_score] over the accumulators
    [(total_weight, total_score, category_multipliers)]. *)
Definition risk_step (acc : Q * Q * list (string * Q)) (match_ : PatternMatch)
    : Q * Q * list (string * Q) :=
  let '(total_weight, total_score, category_multipliers) := acc in
  let weight := risk_weights (risk_level match_) in
  let score := confidence match_ * weight in
  let '(category_multipliers, multiplier) :=
    bump_multiplier category_multipliers (category match_) in
  let effective_weight := weight * multiplier in
  (total_weight + effective_weight,
   total_score + score * multiplier,
   category_multipliers).

(** [sorted(xs, key=key, reverse=True)]: stable, descending. *)
Fixpoint insert_by_key_desc {A : Type} (key : A -> Q) (x : A) (l : list A) : list A :=
  match l with
  | [] => [x]
  | y :: l' =>
      if Np.Qltb (key y) (key x) then x :: l else y :: insert_by_key_desc key x l'
  end.
Definition sorted_desc {A : Type} (key : A -> Q) (l : list A) : list A :=
  fold_left (fun sorted x => insert_by_key_desc key x sorted) l [].

(** [sep.join(parts)] *)
Fixpoint join (sep : string) (parts : list string) : string :=
  match parts with
  | [] => ""
  | [p] => p
  | p :: rest => p ++ sep ++ join sep rest
  end.

(** [str(n)] for a length. *)
Definition str_of_nat (n : nat) : string :=
  NilZero.string_of_uint (Nat.to_uint n).

(** The dict [calculate_risk_score] returns; [match_count] and
    [categories_detected] are the keys only one of its dict literals has. *)
Record RiskAnalysis : Type := {
  ra_risk_score : Q;
  ra_confidence : Q;
  ra_risk_level : string;
  ra_explanation : string;
  ra_match_count : option nat;
  ra_categories_detected : option (list string)
}.

(** [ScamPatternMatcher.calculate_risk_score].  On [PatternMatch] values
    no statement of the [try] block raises (the keys of [risk_weights] are
    the four levels, the division is guarded, [np.mean] gets a non-empty
    list), so its [except] clause is not reached. *)
Definition calculate_risk_score (matches_ : list PatternMatch) : RiskAnalysis :=
  match matches_ with
  | [] =>
      {| ra_risk_score := 0.1;
         ra_confidence := 0.5;
         ra_risk_level := "low";
         ra_explanation := "No suspicious patterns detected";
         ra_match_count := None;
         ra_categories_detected := None |}
  | _ :: _ =>
      let '(total_weight, total_score, category_multipliers) :=
        fold_left risk_step matches_ (0.0, 0.0, []) in
      let risk_score :=
        if Np.Qltb 0 total_weight then Qmin 0.95 (total_score / total_weight)
        else 0.1 in
      let avg_confidence := Np.mean (map confidence matches_) in
      let match_diversity := length (remove_dups (map category matches_)) in
      let confidence_ :=
        Qmin 0.95 (avg_confidence * (1 + inject_Z (Z.of_nat match_diversity) * 0.1)) in
      let risk_level_ :=
        if Qle_bool 0.8 risk_score then "critical"
        else if Qle_bool 0.6 risk_score then "high"
        else if Qle_bool 0.4 risk_score then "medium"
        else "low" in
      let top_categories :=
        take 3 (sorted_desc
                  (fun x => Np.sum (map confidence
                                      (List.filter (fun m => String.eqb (category m) x)
                                                   matches_)))
                  (map fst category_multipliers)) in
      let explanation :=
        ("Detected " ++ str_of_nat (length matches_)
         ++ " suspicious patterns across "
         ++ str_of_nat (length category_multipliers) ++ " categories")%string in
      let explanation :=
        match top_categories with
        | [] => explanation
        | _ :: _ =>
            (explanation ++ ". Primary concerns: " ++ join ", " top_categories)%string
        end in
      {| ra_risk_score := risk_score;
         ra_confidence := confidence_;
         ra_risk_level := risk_level_;
         ra_explanation := explanation;
         ra_match_count := Some (length matches_);
         ra_categories_detected := Some (map fst category_multipliers) |}
  end.

(** One entry of a list of [matches_by_category]. *)
Record CategoryMatch : Type := {
  cm_pattern : string;
  cm_matches : list string;
  cm_risk_level : string;
  cm_confidence : Q;
  cm_description : string
}.

(** [if cat not in d: d[cat] = []] followed by [d[cat].append(entry)] on
    the dict [matches_by_category], in insertion order. *)
Fixpoint append_to_category (matches_by_category : list (string * list CategoryMatch))
    (cat : string) (entry : CategoryMatch) : list (string * list CategoryMatch) :=
  match matches_by_category with
  | [] => [(cat, [entry])]
  | (k, entries) :: rest =>
      if String.eqb k cat then (k, entries ++ [entry]) :: rest
      else (k, entries) :: append_to_category rest cat entry
  end.

(** The dict [analyze_text] returns. *)
Record Analysis : Type := {
  risk_analysis : RiskAnalysis;
  matches_by_category : list (string * list CategoryMatch);
  total_matches : nat;
  unique_categories : nat;
  processing_successful : bool
}.

(** [ScamPatternMatcher.analyze_text]: [find_matches] catches its own
    errors and [calculate_risk_score] does not raise, so the [except]
    clause is not reached. *)
Definition analyze_text (self : ScamPatternMatcher) (text : string) : Analysis :=
  let matches_ := find_matches self text in
  let risk_analysis_ := calculate_risk_score matches_ in
  let matches_by_category_ :=
    fold_left
      (fun by_category match_ =>
         append_to_category by_category (category match_)
           {| cm_pattern := pattern match_;
              cm_matches := matches match_;
              cm_risk_level := RiskLevel_value (risk_level match_);
              cm_confidence := confidence match_;
              cm_description := description match_ |})
      matches_ [] in
  {| risk_analysis := risk_analysis_;
     matches_by_category := matches_by_category_;
     total_matches := length matches_;
     unique_categories := length matches_by_category_;
     processing_successful := true |}.

(** [ScamPatternMatcher.get_pattern_categories] *)
Definition get_pattern_categories (self : ScamPatternMatcher) : list string :=
  map fst (patterns self).

(** [ScamPatternMatcher.get_pattern_count] *)
Definition get_pattern_count (self : ScamPatternMatcher) : list (string * nat) :=
  map (fun '(category_, data) => (category_, length (info_patterns data)))
      (patterns self).

End PatternMatcher.

(** ** [models/bert_classifier.py]: the fallback [ScamPatternSimulator]

    The module is taken as imported, with [re] and [Any] bound (the file
    uses both without importing them). *)

Module BertClassifier.
Import Py Regex.
Open Scope Q_scope.

(** What an attribute of a simulator object holds: a list of pattern
    sources, a list of compiled patterns with their weights, or an object
    that offers a [simulate_bert_prediction] method. *)
Inductive attr : Type :=
| AStrings (l : list string)
| ACompiled (l : list (regex * Q))
| ASimulator (run : string -> outcome (gmap string pyval)).

(** The instance dictionary of a [ScamPatternSimulator]. *)
Abbreviation object := (gmap string attr).

(** The names the class itself defines (its methods); the names every
    object inherits are not listed. *)
Definition class_attributes : list string :=
  [ "__init__"; "_get_pattern_weight"; "simulate_bert_prediction" ]%string.

(** [self.scam_patterns] *)
Definition scam_patterns : list string :=
  [ "guaranteed\s+(?:returns?|profit|money)";
    "risk\s*-?\s*free\s+investment";
    "double\s+your\s+money";
    "act\s+now\s+or\s+lose\s+out";
    "limited\s+time\s+offer\s+expires?";
    "urgent\s+action\s+required";
    "verify\s+your\s+account\s+immediately";
    "suspended\s+account\s+warning";
    "click\s+here\s+to\s+claim";
    "you\s+(?:have\s+)?won\s+\$?\d+";
    "make\s+money\s+(?:fast|quickly|easy)";
    "work\s+from\s+home\s+opportunity";
    "investment\s+opportunity";
    "bitcoin\s+(?:investment|trading|giveaway)";
    "cryptocurrency\s+offer";
    "need\s+money\s+for\s+emergency";
    "western\s+union\s+transfer";
    "gift\s+card\s+payment";
    "confirm\s+your\s+(?:identity|details)";
    "update\s+your\s+payment\s+method";
    "special\s+offer\s+for\s+you";
    "exclusive\s+deal";
    "congratulations\s+you\s+qualify";
    "pre\s*-?\s*approved";
    "no\s+credit\s+check";
    "call\s+(?:now|today)";
    "limited\s+(?:spots|availability)";
    "don\'?t\s+miss\s+out" ].

(** [ScamPatternSimulator._get_pattern_weight]; [u] is the unit draw behind
    [np.random.uniform(lo, hi) = lo + (hi - lo) * u]. *)
Definition _get_pattern_weight (pattern_index : nat) (u : Q) : Q :=
  if (pattern_index <? 10)%nat then 0.8 + (0.95 - 0.8) * u
  else if (pattern_index <? 20)%nat then 0.6 + (0.79 - 0.6) * u
  else 0.4 + (0.59 - 0.4) * u.

(** The list comprehension of [__init__]: [re.compile] raises on a pattern
    it cannot compile. *)
Fixpoint compile_all (uniform : nat -> Q) (i : nat) (ps : list string)
    : outcome (list (regex * Q)) :=
  match ps with
  | [] => Return []
  | p :: ps' =>
      match parse p with
      | None => Raise (Exception "re.error")
      | Some r =>
          bind (compile_all uniform (S i) ps')
               (fun rest => Return ((r, _get_pattern_weight i (uniform i)) :: rest))
      end
  end.

(** [ScamPatternSimulator.__init__]: the only attributes it ever sets are
    [scam_patterns] and [compiled_patterns]. *)
Definition __init__ (uniform : nat -> Q) : outcome object :=
  bind (compile_all uniform 0 scam_patterns)
       (fun compiled =>
          Return (<["compiled_patterns"%string := ACompiled compiled]>
                    (<["scam_patterns"%string := AStrings scam_patterns]> ∅))).

(** [self.name]: instance dictionary, then the class; else
    [AttributeError]. *)
Definition getattr (self : object) (name : string) : outcome (option attr) :=
  match self !! name with
  | Some a => Return (Some a)
  | None =>
      if existsb (String.eqb name) class_attributes then Return None
      else Raise (AttributeError
                    ("'ScamPatternSimulator' object has no attribute '" ++ name ++ "'"))
  end.

(** [obj.simulate_bert_prediction(text)] on the value of an attribute. *)
Definition call_simulate (a : option attr) (text : string)
    : outcome (gmap string pyval) :=
  match a with
  | Some (ASimulator run) => run text
  | Some (AStrings _) | Some (ACompiled _) =>
      Raise (AttributeError "'list' object has no attribute 'simulate_bert_prediction'")
  | None =>
      Raise (AttributeError "'function' object has no attribute 'simulate_bert_prediction'")
  end.

(** [ScamPatternSimulator.simulate_bert_prediction] *)
Definition simulate_bert_prediction (self : object) (text : string)
    : gmap string pyval :=
  try_except
    (bind (getattr self "advanced_simulator")
          (fun sim => call_simulate sim text))
    (fun e =>
       <["scam_probability"%string := VFloat 0.1]>
         (<["confidence"%string := VFloat 0.5]>
            (<["prediction"%string := VStr "not_scam"]> ∅))).

(** *** [class BERTScamClassifier]

    The transformer pipeline is a parameter: [classifier text] is what
    [self.classifier(text)] returns, a list whose first element is either
    the list of all [{label, score}] results or a single one. *)

(** A dict from labels to scores, in insertion order: [label in scores],
    [scores[label]] and the assignment [scores[label] = score]. *)
Definition dict_get (scores : list (string * Q)) (label : string) : option Q :=
  snd <$> List.find (fun e => String.eqb e.1 label) scores.

Fixpoint dict_set (scores : list (string * Q)) (label : string) (score : Q)
    : list (string * Q) :=
  match scores with
  | [] => [(label, score)]
  | (k, v) :: rest =>
      if String.eqb k label then (k, score) :: rest
      else (k, v) :: dict_set rest label score
  end.

(** [{result['label']: result['score'] for result in results}] *)
Definition dict_of_results (results : list (string * Q)) : list (string * Q) :=
  fold_left (fun scores result => dict_set scores result.1 result.2) results [].

(** The loop [for label in labels: if label in scores: ...; break]: the
    score of the first label that is a key of [scores]. *)
Fixpoint first_label (labels : list string) (scores : list (string * Q)) : option Q :=
  match labels with
  | [] => None
  | label :: rest =>
      match dict_get scores label with
      | Some s => Some s
      | None => first_label rest scores
      end
  end.

Definition scam_labels : list string :=
  [ "LABEL_1"; "scam"; "SCAM"; "1"; "positive"; "POSITIVE" ].
Definition not_scam_labels : list string :=
  [ "LABEL_0"; "not_scam"; "NOT_SCAM"; "0"; "negative"; "NEGATIVE" ].

(** [BERTScamClassifier._extract_scam_probability] *)
Definition _extract_scam_probability (scores : list (string * Q)) : Q :=
  let scam_prob := 0.0 in
  let scam_prob :=
    match first_label scam_labels scores with
    | Some s => s
    | None => scam_prob
    end in
  let scam_prob :=
    if Qeq_bool scam_prob 0.0 then
      match first_label not_scam_labels scores with
      | Some s => 1.0 - s
      | None => scam_prob
      end
    else scam_prob in
  let scam_prob :=
    if Qeq_bool scam_prob 0.0 then
      match scores with
      | (_, first_score) :: _ => first_score
      | [] => scam_prob
      end
    else scam_prob in
  scam_prob.

(** One element of the list the pipeline returns. *)
Inductive pipeline_result : Type :=
| AllScores (results : list (string * Q))
| OneScore (label : string) (score : Q).

(** The attributes of a [BERTScamClassifier] that prediction reads. *)
Record BERTScamClassifier : Type := {
  is_loaded : bool;
  classifier : string -> outcome (list pipeline_result)
}.

(** The dict [predict_single] returns; [raw_scores] is the key only one of
    its dict literals has. *)
Record BertPrediction : Type := {
  bp_scam_probability : Q;
  bp_confidence : Q;
  bp_prediction : string;
  bp_raw_scores : option (list (string * Q))
}.

Definition not_scam_prediction : BertPrediction :=
  {| bp_scam_probability := 0.0;
     bp_confidence := 0.0;
     bp_prediction := "not_scam";
     bp_raw_scores := None |}.

(** [max(xs)] *)
Definition py_max (xs : list Q) : outcome Q :=
  match xs with
  | [] => Raise (ValueError "max() arg is an empty sequence")
  | x :: rest => Return (fold_left (fun m y => if Np.Qltb m y then y else m) rest x)
  end.

(** [text[:n]] *)
Definition str_take (n : nat) (text : string) : string :=
  string_of_list_ascii (take n (list_ascii_of_string text)).

(** [settings.BERT_MAX_LENGTH] and [settings.SCAM_THRESHOLD] *)
Definition BERT_MAX_LENGTH : nat := 512.
Definition SCAM_THRESHOLD : Q := 0.7.

(** The scores and the prediction made from one element of the pipeline's
    results. *)
Definition scores_of (result : pipeline_result) : list (string * Q) :=
  match result with
  | AllScores results => dict_of_results results
  | OneScore label score_ => [(label, score_)]
  end.

Definition prediction_of_scores (scores : list (string * Q)) : outcome BertPrediction :=
  let scam_prob := _extract_scam_probability scores in
  bind (py_max (map snd scores)) (fun confidence_ =>
  Return {| bp_scam_probability := scam_prob;
            bp_confidence := confidence_;
            bp_prediction := if Np.Qltb SCAM_THRESHOLD scam_prob then "scam" else "not_scam";
            bp_raw_scores := Some scores |}).

(** [BERTScamClassifier.predict_single] *)
Definition predict_single (self : BERTScamClassifier) (text : string) : BertPrediction :=
  if negb (is_loaded self) then not_scam_prediction
  else
    try_except
      (let text :=
         if (BERT_MAX_LENGTH * 4 <? String.length text)%nat
         then str_take (BERT_MAX_LENGTH * 4) text else text in
       bind (classifier self text) (fun results =>
       match results with
       | [] => Raise (Exception "list index out of range")
       | first :: _ => prediction_of_scores (scores_of first)
       end))
      (fun e => not_scam_prediction).

End BertClassifier.

(** ** [scoring/ensemble_scorer.py] and [core/config.py] *)

Module Ensemble.
Import Py.
Open Scope Q_scope.

(** [@dataclass class ModelPrediction] *)
Record ModelPrediction : Type := {
  model_name : string;
  score : Q;
  confidence : Q;
  metadata : gmap string pyval;
  processing_time : Q
}.

(** [Settings.ENSEMBLE_WEIGHTS] of [core/config.py]. *)
Definition ENSEMBLE_WEIGHTS : gmap string Q :=
  <["bert"%string := 0.4]>
    (<["pattern"%string := 0.3]>
       (<["sentiment"%string := 0.15]>
          (<["ner"%string := 0.15]> ∅))).

(** The attributes of an [EnsembleScorer]. *)
Record EnsembleScorer : Type := {
  model_weights : gmap string Q;
  risk_thresholds : gmap string Q;
  models_loaded : gmap string bool
}.

(** [EnsembleScorer.__init__] followed by [_initialize_models];
    [bert_loaded] is what [bert_classifier.load_model()] returned. *)
Definition __init__ (bert_loaded : bool) : EnsembleScorer :=
  {| model_weights := ENSEMBLE_WEIGHTS;
     risk_thresholds :=
       <["critical"%string := 0.9]>
         (<["high"%string := 0.7]>
            (<["medium"%string := 0.5]>
               (<["low"%string := 0.3]> ∅)));
     models_loaded :=
       <["bert"%string := bert_loaded]>
         (<["bert"%string := false]>
            (<["pattern"%string := true]>
               (<["sentiment"%string := true]>
                  (<["ner"%string := false]> ∅)))) |}.

(** The float behind [result.get(key, 0.0)]. *)
Definition get_float (result : gmap string pyval) (key : string) : Q :=
  default 0 (as_float (get result key (VFloat 0.0))).

(** [EnsembleScorer._get_bert_prediction].  [predict_single] is the loaded
    classifier ([bert_classifier.predict_single], which catches its own
    errors), [pattern_simulator] the global fallback object and [elapsed]
    the wall-clock time of the call. *)
Definition _get_bert_prediction (self : EnsembleScorer)
    (predict_single : string -> gmap string pyval)
    (pattern_simulator : BertClassifier.object)
    (text : string) (elapsed : Q) : ModelPrediction :=
  try_except
    (bind (getitem (models_loaded self) "bert")
          (fun loaded =>
             let result :=
               if (loaded : bool) then predict_single text
               else BertClassifier.simulate_bert_prediction pattern_simulator text in
             Return {| model_name := "bert";
                       score := get_float result "scam_probability";
                       confidence := get_float result "confidence";
                       metadata := result;
                       processing_time := elapsed |}))
    (fun e =>
       {| model_name := "bert";
          score := 0.0;
          confidence := 0.0;
          metadata := <["error"%string := VStr (str e)]> ∅;
          processing_time := elapsed |}).

(** [self.model_weights.get(pred.model_name, 0.1)] *)
Definition weight_of (self : EnsembleScorer) (name : string) : Q :=
  default 0.1 (model_weights self !! name).

(** The accumulators of the loop of [_calculate_ensemble_score]:
    [(total_weighted_score, total_weight, confidence_scores)]. *)
Definition accumulate (self : EnsembleScorer) (acc : Q * Q * list Q)
    (pred : ModelPrediction) : Q * Q * list Q :=
  let '(total_weighted_score, total_weight, confidence_scores) := acc in
  let model_weight := weight_of self (model_name pred) in
  let effective_weight := model_weight * confidence pred in
  (total_weighted_score + score pred * effective_weight,
   total_weight + effective_weight,
   confidence_scores ++ [confidence pred]).

(** [EnsembleScorer._calculate_ensemble_score]; no step of the body raises
    on rationals, so the [except] clause is not reached. *)
Definition _calculate_ensemble_score (self : EnsembleScorer)
    (predictions : list ModelPrediction) : Q * Q :=
  match predictions with
  | [] => (0.0, 0.0)
  | _ :: _ =>
      let '(total_weighted_score, total_weight, confidence_scores) :=
        fold_left (accumulate self) predictions (0.0, 0.0, []) in
      let final_score :=
        if Np.Qltb 0 total_weight
        then total_weighted_score / total_weight
        else Np.mean (map score predictions) in
      let avg_confidence :=
        match confidence_scores with
        | [] => 0.0
        | _ :: _ => Np.mean confidence_scores
        end in
      let confidence_variance :=
        if (1 <? length confidence_scores)%nat
        then Np.var confidence_scores
        else 0.0 in
      let disagreement_penalty := Qmin 0.3 (confidence_variance * 2) in
      let ensemble_confidence := Qmax 0.1 (avg_confidence - disagreement_penalty) in
      (final_score, ensemble_confidence)
  end.

(** [EnsembleScorer._determine_risk_level]: each threshold is read from
    the dict when its comparison is reached. *)
Definition _determine_risk_level (self : EnsembleScorer) (score : Q)
    : outcome string :=
  bind (getitem (risk_thresholds self) "critical") (fun critical =>
  if Qle_bool critical score then Return "critical"%string else
  bind (getitem (risk_thresholds self) "high") (fun high =>
  if Qle_bool high score then Return "high"%string else
  bind (getitem (risk_thresholds self) "medium") (fun medium =>
  if Qle_bool medium score then Return "medium"%string else
  bind (getitem (risk_thresholds self) "low") (fun low =>
  if Qle_bool low score then Return "low"%string else
  Return "minimal"%string)))).

(** [new_weights.values()] and [sum] over them. *)
Definition values (d : gmap string Q) : list Q := (map_to_list d).*2.

(** [EnsembleScorer.update_weights]: the new state and the returned flag.
    [dict.update] overwrites the keys of [normalized_weights] and keeps
    every other stored key. *)
Definition update_weights (self : EnsembleScorer) (new_weights : gmap string Q)
    : EnsembleScorer * bool :=
  try_except
    (bind (if forallb (fun weight => Qle_bool 0 weight && Qle_bool weight 1)
                      (values new_weights)
           then Return tt
           else Raise (ValueError "Weights must be between 0 and 1"))
          (fun _ =>
             let total_weight := Np.sum (values new_weights) in
             if Np.Qltb 0 total_weight then
               let normalized_weights := (fun v => v / total_weight) <$> new_weights in
               Return ({| model_weights := normalized_weights ∪ model_weights self;
                          risk_thresholds := risk_thresholds self;
                          models_loaded := models_loaded self |}, true)
             else Raise (ValueError "Total weight must be greater than 0")))
    (fun e => (self, false)).

End Ensemble.

(** ** [utils/model_simulator.py] *)

Module ModelSimulator.
Import Py Regex.
Open Scope Q_scope.

(** What the simulator uses of NumPy: the process-wide generator behind
    [np.random] (its state, the state [np.random.seed(n)] installs, one
    standard-normal draw) and [np.exp]. *)
Class Numpy : Type := {
  rng : Type;
  seed : Z -> rng;
  standard_normal : rng -> Q * rng;
  exp : Q -> Q
}.

(** [np.random.normal(loc, scale)] *)
Definition normal `{Numpy} (loc scale : Q) (g : rng) : Q * rng :=
  let '(z, g') := standard_normal g in (loc + scale * z, g').

Definition Qnat (n : nat) : Q := inject_Z (Z.of_nat n).

(** One entry of [matched_patterns]. *)
Record MatchedPattern : Type := {
  mp_pattern : string;
  mp_matches : list string;
  mp_probability : Q;
  mp_category : string;
  mp_risk_level : string;
  mp_match_count : nat
}.

(** The [processing_metadata] entry of a prediction. *)
Record Metadata : Type := {
  md_text_length : nat;
  md_base_score : Q;
  md_pattern_score : Q;
  md_context_score : Q;
  md_combined_score : Q
}.

(** The dictionary a prediction returns; [processing_metadata] and [error]
    are the keys only some of the three dict literals have. *)
Record Prediction : Type := {
  scam_probability : Q;
  confidence : Q;
  prediction : string;
  model_type : string;
  matched_patterns : nat;
  pattern_details : list MatchedPattern;
  processing_metadata : option Metadata;
  error : option string
}.

(** A compiled entry:
    [(compiled, pattern, prob, category, risk_level)]. *)
Definition compiled_entry : Type := regex * string * Q * string * string.

(** The attributes of a [ScamModelSimulator]. *)
Record ScamModelSimulator : Type := {
  compiled_patterns : list compiled_entry;
  model_confidence : gmap string Q;
  base_probabilities : gmap string Q
}.

(** The pattern tables of [load_simulation_data]. *)
Definition high_risk_patterns : list (string * Q * string) :=
  [ ("guaranteed\s+(?:returns?|profits?|money)", 0.92, "investment_scam");
    ("risk\s*-?\s*free\s+investment", 0.88, "investment_scam");
    ("double\s+your\s+money", 0.89, "investment_scam");
    ("make\s+\$\d+\s+(?:daily|per\s+day|a\s+day)", 0.85, "get_rich_quick");
    ("work\s+from\s+home\s+\$\d+", 0.78, "job_scam");
    ("bitcoin\s+(?:giveaway|doubler)", 0.94, "crypto_scam");
    ("send\s+\d+\s+btc\s+get\s+\d+\s+back", 0.96, "crypto_scam");
    ("elon\s+musk\s+(?:bitcoin|crypto)", 0.91, "crypto_scam");
    ("verify\s+your\s+account\s+immediately", 0.87, "phishing");
    ("account\s+(?:suspended|locked|compromised)", 0.84, "phishing");
    ("click\s+here\s+to\s+(?:verify|confirm)", 0.82, "phishing");
    ("urgent\s+action\s+required", 0.79, "phishing");
    ("need\s+money\s+for\s+(?:emergency|medical)", 0.83, "romance_scam");
    ("western\s+union\s+transfer", 0.86, "romance_scam");
    ("gift\s+card\s+payment", 0.88, "social_engineering");
    ("microsoft\s+support\s+(?:urgent|security)", 0.85, "tech_support_scam");
    ("computer\s+(?:infected|virus|malware)", 0.81, "tech_support_scam");
    ("call\s+this\s+number\s+immediately", 0.83, "tech_support_scam");
    ("you\s+(?:have\s+)?won\s+\$?[\d,]+", 0.86, "lottery_scam");
    ("claim\s+your\s+(?:prize|winnings)", 0.84, "lottery_scam");
    ("congratulations\s+you\s+(?:won|selected)", 0.79, "lottery_scam") ].

Definition medium_risk_patterns : list (string * Q * string) :=
  [ ("limited\s+time\s+offer", 0.65, "pressure_tactics");
    ("act\s+now\s+or\s+miss\s+out", 0.68, "pressure_tactics");
    ("exclusive\s+(?:offer|deal)", 0.58, "marketing");
    ("pre\s*-?\s*approved", 0.62, "financial");
    ("no\s+credit\s+check", 0.63, "financial");
    ("call\s+(?:now|today)", 0.55, "telemarketing");
    ("don\'?t\s+miss\s+(?:out|this)", 0.57, "pressure_tactics");
    ("special\s+offer\s+for\s+you", 0.54, "marketing") ].

Definition low_risk_patterns : list (string * Q * string) :=
  [ ("newsletter\s+subscription", 0.25, "legitimate_marketing");
    ("unsubscribe", 0.15, "legitimate_marketing");
    ("contact\s+us", 0.20, "legitimate_business");
    ("privacy\s+policy", 0.18, "legitimate_business");
    ("terms\s+(?:and\s+conditions|of\s+service)", 0.16, "legitimate_business") ].

(** The compilation loop of [load_simulation_data]; a pattern that raises
    [re.error] is logged and left out. *)
Definition compile_table (table : list (string * Q * string)) (risk_level : string)
    : list compiled_entry :=
  flat_map
    (fun '(pat, prob, category) =>
       match parse pat with
       | Some compiled => [(compiled, pat, prob, category, risk_level)]
       | None => []
       end)
    table.

(** [ScamModelSimulator.__init__]: [load_simulation_data], then
    [initialize_models], whose last statement [np.random.seed(42)] replaces
    the state of the global generator. *)
Definition __init__ `{Numpy} (g : rng) : ScamModelSimulator * rng :=
  ({| compiled_patterns :=
        compile_table high_risk_patterns "high"
          ++ compile_table medium_risk_patterns "medium"
          ++ compile_table low_risk_patterns "low";
      model_confidence :=
        <["pattern_matching"%string := 0.85]>
          (<["bert_simulation"%string := 0.78]>
             (<["sentiment_analysis"%string := 0.72]>
                (<["entity_extraction"%string := 0.80]> ∅)));
      base_probabilities :=
        <["empty"%string := 0.01]>
          (<["very_short"%string := 0.15]>
             (<["short"%string := 0.25]>
                (<["medium"%string := 0.35]>
                   (<["long"%string := 0.30]> ∅)))) |},
   seed 42).

(** [str.strip()], [str.lower()], [str.count(sub)], [c.isupper()], as they
    act on ASCII characters.  Python's own are Unicode: outside ASCII a
    letter can stay upper-case after [lower()], and [lower()] can change
    the length of a string. *)
Fixpoint lstrip (s : list ascii) : list ascii :=
  match s with
  | c :: s' => if is_space c then lstrip s' else s
  | [] => []
  end.
Definition strip (s : string) : string :=
  string_of_list_ascii (rev (lstrip (rev (lstrip (list_ascii_of_string s))))).

Definition str_lower (s : string) : string :=
  string_of_list_ascii (map lower (list_ascii_of_string s)).

Fixpoint starts_with (sub s : list ascii) : bool :=
  match sub, s with
  | [], _ => true
  | a :: sub', b :: s' => Ascii.eqb a b && starts_with sub' s'
  | _ :: _, [] => false
  end.

Fixpoint count_from (fuel : nat) (sub s : list ascii) : nat :=
  match fuel with
  | O => O
  | S fuel' =>
      match s with
      | [] => O
      | _ :: s' =>
          if starts_with sub s
          then S (count_from fuel' sub (drop (length sub) s))
          else count_from fuel' sub s'
      end
  end.

(** [text.count(word)] for a non-empty [word]. *)
Definition str_count (text word : string) : nat :=
  let s := list_ascii_of_string text in
  count_from (length s) (list_ascii_of_string word) s.

Definition count_upper (text : string) : nat :=
  length (List.filter is_upper (list_ascii_of_string text)).

(** [ScamModelSimulator._empty_prediction] *)
Definition _empty_prediction : Prediction :=
  {| scam_probability := 0.01;
     confidence := 0.95;
     prediction := "not_scam";
     model_type := "empty_text_handler";
     matched_patterns := 0;
     pattern_details := [];
     processing_metadata := None;
     error := None |}.

(** [ScamModelSimulator._error_prediction] *)
Definition _error_prediction (error_msg : string) : Prediction :=
  {| scam_probability := 0.0;
     confidence := 0.0;
     prediction := "error";
     model_type := "error_handler";
     matched_patterns := 0;
     pattern_details := [];
     processing_metadata := None;
     error := Some error_msg |}.

(** [ScamModelSimulator._get_base_score_by_length] *)
Definition _get_base_score_by_length (self : ScamModelSimulator) (text_length : nat)
    : outcome Q :=
  if (text_length =? 0)%nat then getitem (base_probabilities self) "empty"
  else if (text_length <? 20)%nat then getitem (base_probabilities self) "very_short"
  else if (text_length <? 100)%nat then getitem (base_probabilities self) "short"
  else if (text_length <? 500)%nat then getitem (base_probabilities self) "medium"
  else getitem (base_probabilities self) "long".

(** [list.sort(key=probability, reverse=True)]: stable, descending. *)
Fixpoint insert_desc (x : MatchedPattern) (l : list MatchedPattern)
    : list MatchedPattern :=
  match l with
  | [] => [x]
  | y :: l' =>
      if Np.Qltb (mp_probability y) (mp_probability x)
      then x :: l
      else y :: insert_desc x l'
  end.
Definition sort_desc (l : list MatchedPattern) : list MatchedPattern :=
  fold_left (fun sorted x => insert_desc x sorted) l [].

(** One round of the loop of [_calculate_pattern_score]; the patterns are
    compiled with [re.IGNORECASE]. *)
Definition pattern_step (text_lower : string) (acc : Q * list MatchedPattern)
    (entry : compiled_entry) : Q * list MatchedPattern :=
  let '(max_score, matched) := acc in
  let '(compiled_pattern, original_pattern, prob, category, risk_level) := entry in
  let found := findall_re true compiled_pattern text_lower in
  match found with
  | [] => acc
  | _ :: _ =>
      let boosted_prob := Qmin 0.98 (prob + Qnat (length found) * 0.02) in
      (if Np.Qltb max_score boosted_prob then boosted_prob else max_score,
       matched ++ [ {| mp_pattern := original_pattern;
                       mp_matches := found;
                       mp_probability := boosted_prob;
                       mp_category := category;
                       mp_risk_level := risk_level;
                       mp_match_count := length found |} ])
  end.

(** [ScamModelSimulator._calculate_pattern_score] *)
Definition _calculate_pattern_score (self : ScamModelSimulator) (text_lower : string)
    : Q * list MatchedPattern :=
  let '(max_score, matched) :=
    fold_left (pattern_step text_lower) (compiled_patterns self) (0.0, []) in
  (max_score, sort_desc matched).

(** [len(re.findall(pattern, text))]; [re.findall] compiles the pattern
    and raises [re.error] if it cannot. *)
Definition re_count (pat text : string) : outcome nat :=
  match parse pat with
  | Some r => Return (length (findall_re false r text))
  | None => Raise (Exception "re.error")
  end.

(** [sum(len(re.findall(pattern, text)) for pattern in patterns)] *)
Fixpoint re_count_all (pats : list string) (text : string) : outcome nat :=
  match pats with
  | [] => Return O
  | p :: pats' =>
      bind (re_count p text) (fun n =>
      bind (re_count_all pats' text) (fun m => Return (n + m)%nat))
  end.

(** [ScamModelSimulator._calculate_context_score] *)
Definition _calculate_context_score (text_lower : string) : outcome Q :=
  let context_score := 0.0 in
  bind (re_count_all ["http[s]?://"; "bit\.ly"; "tinyurl"; "goo\.gl"]%string text_lower)
  (fun url_count =>
  let context_score :=
    if (0 <? url_count)%nat
    then context_score + Qmin 0.3 (Qnat url_count * 0.1) else context_score in
  bind (re_count "\b[a-z0-9._%+-]+@[a-z0-9.-]+\.[a-z]{2,}\b" text_lower)
  (fun email_count =>
  let context_score :=
    if (1 <? email_count)%nat then context_score + 0.15 else context_score in
  bind (re_count_all ["\d{3}-\d{3}-\d{4}"; "\(\d{3}\)\s*\d{3}-\d{4}"]%string text_lower)
  (fun phone_count =>
  let context_score :=
    if (0 <? phone_count)%nat
    then context_score + Qmin 0.2 (Qnat phone_count * 0.1) else context_score in
  bind (re_count_all ["\$\d+"; "\d+\s*dollars?"; "\d+\s*usd"]%string text_lower)
  (fun money_count =>
  let context_score :=
    if (0 <? money_count)%nat
    then context_score + Qmin 0.25 (Qnat money_count * 0.08) else context_score in
  let urgency_words := ["urgent"; "asap"; "immediately"; "now"; "hurry"]%string in
  let urgency_count := list_sum (map (str_count text_lower) urgency_words) in
  let context_score :=
    if (0 <? urgency_count)%nat
    then context_score + Qmin 0.3 (Qnat urgency_count * 0.1) else context_score in
  let context_score :=
    if (10 <? String.length text_lower)%nat then
      let caps_ratio := Qnat (count_upper text_lower) / Qnat (String.length text_lower) in
      if Np.Qltb 0.3 caps_ratio then context_score + 0.15 else context_score
    else context_score in
  Return (Qmin 1.0 context_score))))).

(** [ScamModelSimulator._combine_scores_neural_style] *)
Definition _combine_scores_neural_style `{Numpy}
    (base_score pattern_score context_score : Q) : Q :=
  let linear_combination :=
    base_score * 0.2 + pattern_score * 0.6 + context_score * 0.2 in
  let activated := 1 / (1 + exp (- (5) * (linear_combination - 0.5))) in
  Np.clip activated 0.0 1.0.

(** [ScamModelSimulator._add_model_uncertainty]: one draw from the global
    generator. *)
Definition _add_model_uncertainty `{Numpy} (score : Q) (g : rng) : Q * Q * rng :=
  let noise_std := 0.05 in
  let '(noise, g') := normal 0 noise_std g in
  let noisy_score := score + noise in
  let final_score := Np.clip noisy_score 0.0 1.0 in
  let distance_from_boundary := Qabs (final_score - 0.5) in
  let confidence := Qmin 0.95 (0.5 + distance_from_boundary) in
  (final_score, confidence, g').

(** The statements of [simulate_bert_prediction] between the guard and the
    noise: everything that is computed from the text alone. *)
Definition text_scores `{Numpy} (self : ScamModelSimulator) (text : string)
    : outcome (Metadata * list MatchedPattern) :=
  let text_length := String.length text in
  let text_lower := str_lower text in
  bind (_get_base_score_by_length self text_length) (fun base_score =>
  let '(pattern_score, matched) := _calculate_pattern_score self text_lower in
  bind (_calculate_context_score text_lower) (fun context_score =>
  let combined_score :=
    _combine_scores_neural_style base_score pattern_score context_score in
  Return ({| md_text_length := text_length;
             md_base_score := base_score;
             md_pattern_score := pattern_score;
             md_context_score := context_score;
             md_combined_score := combined_score |}, matched))).

(** The guard [not text or len(text.strip()) < 5]. *)
Definition too_short (text : string) : bool :=
  String.eqb text "" || (String.length (strip text) <? 5)%nat.

(** [ScamModelSimulator.simulate_bert_prediction]: the prediction and the
    state in which the call leaves the global generator. *)
Definition simulate_bert_prediction `{Numpy} (self : ScamModelSimulator)
    (text : string) (g : rng) : Prediction * rng :=
  if too_short text then (_empty_prediction, g)
  else
    match text_scores self text with
    | Raise e => (_error_prediction (str e), g)
    | Return (md, matched) =>
        let '(final_score, conf, g') :=
          _add_model_uncertainty (md_combined_score md) g in
        ({| scam_probability := final_score;
            confidence := conf;
            prediction := if Np.Qltb 0.5 final_score then "scam" else "not_scam";
            model_type := "bert_simulation";
            matched_patterns := length matched;
            pattern_details := take 3 matched;
            processing_metadata := Some md;
            error := None |}, g')
    end.

(** *** The simulated ensemble *)

(** What the four simulated models return: the keys they share, and the
    ones each adds. *)
Inductive ModelDetail : Type :=
| BertDetail (result : Prediction)
| PatternDetail (matched_count : nat) (details : list MatchedPattern)
| SentimentFeatures (negative_indicators positive_indicators : nat)
| EntitiesDetected (entities : list string).

Record ModelOutput : Type := {
  out_scam_probability : Q;
  out_confidence : Q;
  out_model_type : string;
  out_detail : ModelDetail
}.

(** The result of [simulate_bert_prediction] as an entry of
    [individual_predictions]. *)
Definition bert_output (p : Prediction) : ModelOutput :=
  {| out_scam_probability := scam_probability p;
     out_confidence := confidence p;
     out_model_type := model_type p;
     out_detail := BertDetail p |}.

(** [ScamModelSimulator._simulate_pattern_model] *)
Definition _simulate_pattern_model (self : ScamModelSimulator) (text : string)
    : outcome ModelOutput :=
  let '(pattern_score, matched) := _calculate_pattern_score self (str_lower text) in
  bind (getitem (model_confidence self) "pattern_matching") (fun confidence_ =>
  let confidence_ :=
    match matched with
    | [] => confidence_
    | _ :: _ => Qmin 0.95 (confidence_ + Qnat (length matched) * 0.05)
    end in
  Return {| out_scam_probability := pattern_score;
            out_confidence := confidence_;
            out_model_type := "pattern_matching";
            out_detail := PatternDetail (length matched) (take 5 matched) |}).

(** [ScamModelSimulator._simulate_sentiment_model] *)
Definition _simulate_sentiment_model (self : ScamModelSimulator) (text : string)
    : outcome ModelOutput :=
  let text_lower := str_lower text in
  let negative_words := ["urgent"; "warning"; "danger"; "risk"; "lose"; "miss"]%string in
  let positive_words := ["guaranteed"; "win"; "profit"; "money"; "earn"]%string in
  let negative_count := list_sum (map (str_count text_lower) negative_words) in
  let positive_count := list_sum (map (str_count text_lower) positive_words) in
  let sentiment_risk :=
    Qmin 1.0 (Qnat positive_count * 0.15 + Qnat negative_count * 0.1) in
  bind (getitem (model_confidence self) "sentiment_analysis") (fun confidence_ =>
  Return {| out_scam_probability := sentiment_risk;
            out_confidence := confidence_;
            out_model_type := "sentiment_analysis";
            out_detail := SentimentFeatures negative_count positive_count |}).

(** [re.search(pattern, text)] as a truth value. *)
Definition re_search (pat text : string) : outcome bool :=
  match parse pat with
  | Some r =>
      Return (match findall_re false r text with
              | [] => false
              | _ :: _ => true
              end)
  | None => Raise (Exception "re.error")
  end.

(** [ScamModelSimulator._simulate_entity_model] *)
Definition _simulate_entity_model (self : ScamModelSimulator) (text : string)
    : outcome ModelOutput :=
  let text_lower := str_lower text in
  let entity_risk := 0.0 in
  let entities_found := [] in
  bind (re_search "\$\d+|bitcoin|cryptocurrency|bank|account" text_lower)
  (fun financial =>
  let '(entity_risk, entities_found) :=
    if (financial : bool)
    then (entity_risk + 0.3, entities_found ++ ["financial"%string])
    else (entity_risk, entities_found) in
  bind (re_search "@|\d{3}[-.\s]?\d{3}[-.\s]?\d{4}|call|email" text_lower)
  (fun contact =>
  let '(entity_risk, entities_found) :=
    if (contact : bool)
    then (entity_risk + 0.2, entities_found ++ ["contact"%string])
    else (entity_risk, entities_found) in
  bind (re_search "nigeria|ukraine|ghana|philippines" text_lower)
  (fun location =>
  let '(entity_risk, entities_found) :=
    if (location : bool)
    then (entity_risk + 0.25, entities_found ++ ["suspicious_location"%string])
    else (entity_risk, entities_found) in
  bind (getitem (model_confidence self) "entity_extraction") (fun confidence_ =>
  Return {| out_scam_probability := Qmin 1.0 entity_risk;
            out_confidence := confidence_;
            out_model_type := "entity_extraction";
            out_detail := EntitiesDetected entities_found |})))).

(** The dict literal [weights] of [_combine_ensemble_predictions]. *)
Definition ensemble_weights : gmap string Q :=
  <["bert"%string := 0.4]>
    (<["pattern"%string := 0.3]>
       (<["sentiment"%string := 0.2]>
          (<["entity"%string := 0.1]> ∅))).

(** [ScamModelSimulator._combine_ensemble_predictions] over the dict
    [individual_predictions], in insertion order. *)
Definition _combine_ensemble_predictions
    (individual_predictions : list (string * ModelOutput)) : Q :=
  let '(weighted_sum, total_weight) :=
    fold_left
      (fun acc entry =>
         let '(weighted_sum, total_weight) := acc in
         match ensemble_weights !! entry.1 with
         | Some weight =>
             let score := out_scam_probability entry.2 in
             let confidence_ := out_confidence entry.2 in
             let effective_weight := weight * confidence_ in
             (weighted_sum + score * effective_weight, total_weight + effective_weight)
         | None => acc
         end)
      individual_predictions (0.0, 0.0) in
  if Np.Qltb 0 total_weight then weighted_sum / total_weight else 0.5.

(** [ScamModelSimulator._calculate_ensemble_confidence] *)
Definition _calculate_ensemble_confidence
    (individual_predictions : list (string * ModelOutput)) : Q :=
  match individual_predictions with
  | [] => 0.5
  | _ :: _ =>
      let confidences := map (fun e => out_confidence e.2) individual_predictions in
      let avg_confidence := Np.mean confidences in
      let scores := map (fun e => out_scam_probability e.2) individual_predictions in
      if (1 <? length scores)%nat then
        let score_variance := Np.var scores in
        let disagreement_penalty := Qmin 0.3 (score_variance * 2) in
        Qmax 0.1 (avg_confidence - disagreement_penalty)
      else avg_confidence
  end.

(** The dict an ensemble simulation returns. *)
Record EnsembleSimulation : Type := {
  es_final_score : Q;
  es_risk_level : string;
  es_confidence : Q;
  es_prediction : string;
  es_model_type : string;
  es_individual_predictions : list (string * ModelOutput);
  es_timestamp : Z
}.

(** What [simulate_ensemble_prediction] returns: the ensemble dict, or the
    error prediction of its handler. *)
Inductive SimulationResult : Type :=
| EnsembleDict (result : EnsembleSimulation)
| PredictionDict (result : Prediction).

(** The tiers of [simulate_ensemble_prediction]. *)
Definition risk_level_of (final_score : Q) : string :=
  if Qle_bool 0.9 final_score then "critical"
  else if Qle_bool 0.7 final_score then "high"
  else if Qle_bool 0.5 final_score then "medium"
  else if Qle_bool 0.3 final_score then "low"
  else "minimal".

(** [ScamModelSimulator.simulate_ensemble_prediction] at the instant
    [now]: the result and the state of the generator after the call.  In
    both modes [simulate_bert_prediction] is called once, and the draw it
    makes stays made when a later statement raises. *)
Definition simulate_ensemble_prediction `{Numpy} (self : ScamModelSimulator)
    (text : string) (include_individual : bool) (now : Z) (g : rng)
    : SimulationResult * rng :=
  let '(bert, g') := simulate_bert_prediction self text g in
  (try_except
     (bind (if include_individual then
              bind (_simulate_pattern_model self text) (fun pattern =>
              bind (_simulate_sentiment_model self text) (fun sentiment_ =>
              bind (_simulate_entity_model self text) (fun entity =>
              Return [ ("bert"%string, bert_output bert);
                       ("pattern"%string, pattern);
                       ("sentiment"%string, sentiment_);
                       ("entity"%string, entity) ])))
            else Return [])
           (fun individual_predictions =>
              let ensemble_score :=
                match individual_predictions with
                | _ :: _ => _combine_ensemble_predictions individual_predictions
                | [] => scam_probability bert
                end in
              let ensemble_confidence :=
                _calculate_ensemble_confidence individual_predictions in
              let final_score := Np.clip ensemble_score 0.0 1.0 in
              Return
                (EnsembleDict
                   {| es_final_score := final_score;
                      es_risk_level := risk_level_of final_score;
                      es_confidence := ensemble_confidence;
                      es_prediction :=
                        if Np.Qltb 0.5 final_score then "scam" else "not_scam";
                      es_model_type := "ensemble_simulation";
                      es_individual_predictions := individual_predictions;
                      es_timestamp := now |})))
     (fun e => PredictionDict (_error_prediction (str e))),
   g').

(** One result of a batch: the dict with the keys [batch_index] and
    [estimated_processing_time] added. *)
Record BatchResult : Type := {
  batch_result : SimulationResult;
  batch_index : nat;
  estimated_processing_time : Q
}.

(** The loop of [simulate_batch_predictions] from index [i] on; [now i]
    is the clock reading during the [i]-th round. *)
Fixpoint batch_loop `{Numpy} (self : ScamModelSimulator) (include_individual : bool)
    (now : nat -> Z) (i : nat) (texts : list string) (g : rng)
    : list BatchResult * rng :=
  match texts with
  | [] => ([], g)
  | text :: rest =>
      let '(processing_delay, g1) := normal 0.1 0.02 g in
      let '(result, g2) :=
        if include_individual
        then simulate_ensemble_prediction self text true (now i) g1
        else let '(p, g') := simulate_bert_prediction self text g1 in
             (PredictionDict p, g') in
      let item :=
        {| batch_result := result;
           batch_index := i;
           estimated_processing_time := Qmax 0.05 processing_delay |} in
      let '(results, g3) := batch_loop self include_individual now (S i) rest g2 in
      (item :: results, g3)
  end.

(** [ScamModelSimulator.simulate_batch_predictions]: both predictions
    catch their own errors, so the [except] clause is not reached. *)
Definition simulate_batch_predictions `{Numpy} (self : ScamModelSimulator)
    (texts : list string) (include_individual : bool) (now : nat -> Z) (g : rng)
    : list BatchResult * rng :=
  batch_loop self include_individual now 0 texts g.

End ModelSimulator.

(** ** [services/redis_service.py] and the methods of
    [workers/scan_processor.py] that call nothing else *)

Module ScanProcessor.
Import Py.

(** A queued scan request: the typed view of the JSON object, with the
    keys the worker reads or writes ([None]: the key is absent).  The
    remaining keys of a request are only handed to the analysis. *)
Record ScanItem : Type := {
  request_id : option string;
  text : option string;
  callback_url : option string;
  priority : option string;
  queued_at : option Z;
  retry_count : option Z;
  last_error : option string;
  retry_at : option Z
}.

(** The Redis server as the worker sees it, and the counters of the
    [ScanProcessor].  A Redis list has its left end at the head; [store]
    maps a key to the value and the expiry (seconds) it was set with;
    [writes] lists the keys of the SET commands issued, oldest first, and
    [callbacks] the URLs posted to. *)
Record World : Type := {
  is_connected : bool;
  queues : gmap string (list ScanItem);
  store : gmap string (gmap string pyval * Z);
  writes : list string;
  callbacks : list string;
  processed_count : Z;
  error_count : Z
}.

(** The queue names of [ScanProcessor.__init__]. *)
Definition scan_queue : string := "scan_requests".
Definition batch_queue : string := "batch_requests".
Definition priority_queue : string := "priority_requests".

Definition queue_of (w : World) (queue_name : string) : list ScanItem :=
  default [] (queues w !! queue_name).

(** [RedisService.set_cache] *)
Definition set_cache (key : string) (value : gmap string pyval) (expire : Z)
    (w : World) : World * bool :=
  if is_connected w then
    ({| is_connected := is_connected w;
        queues := queues w;
        store := <[key := (value, expire)]> (store w);
        writes := writes w ++ [key];
        callbacks := callbacks w;
        processed_count := processed_count w;
        error_count := error_count w |}, true)
  else (w, false).

(** [RedisService.get_cache] *)
Definition get_cache (key : string) (w : World) : option (gmap string pyval) :=
  if is_connected w then fst <$> store w !! key else None.

(** [RedisService.add_to_queue]: LPUSH. *)
Definition add_to_queue (queue_name : string) (item : ScanItem) (w : World)
    : World * bool :=
  if is_connected w then
    ({| is_connected := is_connected w;
        queues := <[queue_name := item :: queue_of w queue_name]> (queues w);
        store := store w;
        writes := writes w;
        callbacks := callbacks w;
        processed_count := processed_count w;
        error_count := error_count w |}, true)
  else (w, false).

(** [RedisService.get_from_queue]: BRPOP, which gives up on an empty
    list when its timeout has passed. *)
Definition get_from_queue (queue_name : string) (w : World)
    : option ScanItem * World :=
  if is_connected w then
    match reverse (queue_of w queue_name) with
    | [] => (None, w)
    | item :: rest =>
        (Some item,
         {| is_connected := is_connected w;
            queues := <[queue_name := reverse rest]> (queues w);
            store := store w;
            writes := writes w;
            callbacks := callbacks w;
            processed_count := processed_count w;
            error_count := error_count w |})
    end
  else (None, w).

(** [ScanProcessor.add_scan_request] at the instant [now]. *)
Definition add_scan_request (request_data : ScanItem) (prio : string) (now : Z)
    (w : World) : World * bool :=
  let enhanced_request :=
    {| request_id := request_id request_data;
       text := text request_data;
       callback_url := callback_url request_data;
       priority := Some prio;
       queued_at := Some now;
       retry_count := Some 0%Z;
       last_error := last_error request_data;
       retry_at := retry_at request_data |} in
  let queue_name := if String.eqb prio "high" then priority_queue else scan_queue in
  add_to_queue queue_name enhanced_request w.

(** [ScanProcessor._store_scan_result] *)
Definition _store_scan_result (rid : string) (result : gmap string pyval)
    (w : World) : World :=
  let cache_key := ("scan_result:" ++ rid)%string in
  (set_cache cache_key result 3600 w).1.

(** [ScanProcessor._send_callback]: the post leaves the store alone. *)
Definition _send_callback (url : string) (w : World) : World :=
  {| is_connected := is_connected w;
     queues := queues w;
     store := store w;
     writes := writes w;
     callbacks := callbacks w ++ [url];
     processed_count := processed_count w;
     error_count := error_count w |}.

(** The dict literal [error_result] of [_handle_scan_retry]. *)
Definition error_result (error : string) (retries : Z) (now : Z)
    : gmap string pyval :=
  <["status"%string := VStr "failed"]>
    (<["error"%string := VStr error]>
       (<["retry_count"%string := VInt retries]>
          (<["failed_at"%string := VTime now]> ∅))).

(** [ScanProcessor._handle_scan_retry] at the instant [now]. *)
Definition _handle_scan_retry (item : ScanItem) (error : string) (now : Z)
    (w : World) : World :=
  let retries := default 0%Z (retry_count item) in
  let max_retries := 3%Z in
  if (retries <? max_retries)%Z then
    let item' :=
      {| request_id := request_id item;
         text := text item;
         callback_url := callback_url item;
         priority := priority item;
         queued_at := queued_at item;
         retry_count := Some (retries + 1)%Z;
         last_error := Some error;
         retry_at := Some (now + 60 * (retries + 1))%Z |} in
    let queue_name :=
      if bool_decide (priority item = Some "high"%string)
      then priority_queue else scan_queue in
    (add_to_queue queue_name item' w).1
  else
    match request_id item with
    | Some rid =>
        if String.eqb rid "" then w
        else _store_scan_result rid (error_result error retries now) w
    | None => w
    end.

Definition count_error (w : World) : World :=
  {| is_connected := is_connected w;
     queues := queues w;
     store := store w;
     writes := writes w;
     callbacks := callbacks w;
     processed_count := processed_count w;
     error_count := error_count w + 1 |}.

Definition count_processed (w : World) : World :=
  {| is_connected := is_connected w;
     queues := queues w;
     store := store w;
     writes := writes w;
     callbacks := callbacks w;
     processed_count := processed_count w + 1;
     error_count := error_count w |}.

End ScanProcessor.

(** ** [models/sentiment_analyzer.py]

    TextBlob and the transformer pipeline are parameters: [sentiment text]
    is [TextBlob(text).sentiment], the pair (polarity, subjectivity), and
    the attribute [transformer_analyzer] holds the pipeline, whose call
    returns a list of [(label, score)] results. *)

Module SentimentAnalyzer.
Import Py Regex.
Open Scope Q_scope.

Class TextBlob : Type := {
  sentiment : string -> outcome (Q * Q)
}.

(** The attributes of a [SentimentAnalyzer]. *)
Record SentimentAnalyzer : Type := {
  transformer_analyzer : option (string -> outcome (list (string * Q)));
  urgency_keywords : list string;
  fear_keywords : list string;
  greed_keywords : list string;
  trust_keywords : list string
}.

(** [SentimentAnalyzer.__init__] with [_initialize_transformer];
    [pipeline_] is the outcome of the call of [pipeline(...)]. *)
Definition __init__ (pipeline_ : outcome (string -> outcome (list (string * Q))))
    : SentimentAnalyzer :=
  {| transformer_analyzer :=
       try_except (bind pipeline_ (fun analyzer => Return (Some analyzer)))
                  (fun e => None);
     urgency_keywords :=
       [ "urgent"; "immediately"; "asap"; "hurry"; "quickly"; "fast";
         "now"; "today"; "tonight"; "deadline"; "expires"; "limited";
         "last chance"; "final warning"; "don't delay"; "act now";
         "time running out"; "while supplies last"; "limited time" ];
     fear_keywords :=
       [ "danger"; "risk"; "threat"; "warning"; "alert"; "emergency";
         "security"; "breach"; "compromised"; "hacked"; "virus";
         "malware"; "suspended"; "locked"; "frozen"; "terminated";
         "lose"; "loss"; "miss out"; "regret"; "disaster" ];
     greed_keywords :=
       [ "money"; "cash"; "profit"; "earn"; "rich"; "wealthy";
         "millionaire"; "fortune"; "jackpot"; "win"; "winner";
         "prize"; "reward"; "bonus"; "guaranteed"; "easy money";
         "get rich"; "financial freedom"; "passive income" ];
     trust_keywords :=
       [ "trust"; "honest"; "legitimate"; "legal"; "authorized";
         "certified"; "verified"; "official"; "government";
         "bank"; "secure"; "safe"; "protected"; "confidential" ] |}.

(** [str.upper()] and [len(text.split())]. *)
Definition str_upper (s : string) : string :=
  string_of_list_ascii (map upper (list_ascii_of_string s)).

Fixpoint count_words (in_word : bool) (s : list ascii) : nat :=
  match s with
  | [] => 0
  | c :: s' =>
      if is_space c then count_words false s'
      else ((if in_word then 0 else 1) + count_words true s')%nat
  end.
Definition word_count_of (text : string) : nat :=
  count_words false (list_ascii_of_string text).

(** [len(re.findall(pattern, text, re.IGNORECASE))] and its sum over a
    list of patterns; [re.findall] raises [re.error] on a pattern it cannot
    compile. *)
Definition re_count_ignorecase (pat text : string) : outcome nat :=
  match parse pat with
  | Some r => Return (length (findall_re true r text))
  | None => Raise (Exception "re.error")
  end.

Fixpoint re_count_sum (pats : list string) (text : string) : outcome nat :=
  match pats with
  | [] => Return O
  | p :: pats' =>
      bind (re_count_ignorecase p text) (fun n =>
      bind (re_count_sum pats' text) (fun m => Return (n + m)%nat))
  end.

(** [rf'\b{keyword}\b'] *)
Definition keyword_pattern (keyword : string) : string :=
  ("\b" ++ keyword ++ "\b")%string.

Definition Qnat (n : nat) : Q := inject_Z (Z.of_nat n).

(** The dicts the analyses return. *)
Record BasicSentiment : Type := {
  polarity : Q;
  subjectivity : Q;
  sentiment_label : string
}.

Record TransformerSentiment : Type := {
  ts_label : string;
  ts_score : Q;
  ts_normalized_score : option Q
}.

Record UrgencyAnalysis : Type := {
  urgency_score : Q;
  urgency_level : string;
  urgency_keyword_count : nat;
  urgency_density : Q;
  urgency_pattern_matches : nat
}.

Record ManipulationAnalysis : Type := {
  manipulation_score : Q;
  manipulation_level : string;
  fear_indicators : nat * Q;
  greed_indicators : nat * Q;
  false_trust_indicators : nat * Q;
  manipulation_patterns : list (string * nat)
}.

Record CompleteSentiment : Type := {
  basic_sentiment : BasicSentiment;
  transformer_sentiment : TransformerSentiment;
  urgency_analysis : UrgencyAnalysis;
  manipulation_analysis : ManipulationAnalysis;
  composite_risk_score : Q;
  processing_successful : bool
}.

(** [SentimentAnalyzer._get_sentiment_label] *)
Definition _get_sentiment_label (polarity_ : Q) : string :=
  if Np.Qltb 0.1 polarity_ then "positive"
  else if Np.Qltb polarity_ (- 0.1) then "negative"
  else "neutral".

(** [SentimentAnalyzer.analyze_basic_sentiment] *)
Definition analyze_basic_sentiment `{TextBlob} (text : string) : BasicSentiment :=
  try_except
    (bind (sentiment text) (fun '(polarity_, subjectivity_) =>
     Return {| polarity := polarity_;
               subjectivity := subjectivity_;
               sentiment_label := _get_sentiment_label polarity_ |}))
    (fun e => {| polarity := 0.0; subjectivity := 0.0; sentiment_label := "neutral" |}).

(** [SentimentAnalyzer._normalize_transformer_score] *)
Definition _normalize_transformer_score (result : string * Q) : Q :=
  let label := str_upper result.1 in
  let score := result.2 in
  if String.eqb label "POSITIVE" then score
  else if String.eqb label "NEGATIVE" then - score
  else 0.0.

(** [SentimentAnalyzer.analyze_transformer_sentiment] *)
Definition analyze_transformer_sentiment (self : SentimentAnalyzer) (text : string)
    : TransformerSentiment :=
  match transformer_analyzer self with
  | None => {| ts_label := "unknown"; ts_score := 0.0; ts_normalized_score := None |}
  | Some analyzer =>
      try_except
        (let text :=
           if (512 <? String.length text)%nat then BertClassifier.str_take 512 text else text in
         bind (analyzer text) (fun results =>
         match results with
         | [] => Raise (Exception "list index out of range")
         | result :: _ =>
             Return {| ts_label := ModelSimulator.str_lower result.1;
                       ts_score := result.2;
                       ts_normalized_score := Some (_normalize_transformer_score result) |}
         end))
        (fun e => {| ts_label := "unknown"; ts_score := 0.0;
                     ts_normalized_score := Some 0.0 |})
  end.

(** The list [urgency_patterns] of [analyze_urgency]. *)
Definition urgency_patterns : list string :=
  [ "act\s+now";
    "limited\s+time";
    "expires?\s+(?:today|soon|tonight)";
    "hurry\s+up";
    "don\'?t\s+(?:delay|wait|hesitate)";
    "immediately\s+(?:required|needed)";
    "urgent\s+(?:action|response)";
    "time\s+(?:is\s+)?running\s+out";
    "while\s+(?:supplies|stocks?)\s+last";
    "last\s+(?:chance|opportunity)" ].

(** The levels both analyses read off their score. *)
Definition level_of (score : Q) : string :=
  if Qle_bool 0.7 score then "high"
  else if Qle_bool 0.4 score then "medium"
  else if Qle_bool 0.1 score then "low"
  else "none".

(** [count / word_count if word_count > 0 else 0] *)
Definition density (count word_count : nat) : Q :=
  if (0 <? word_count)%nat then Qnat count / Qnat word_count else 0.

(** [SentimentAnalyzer.analyze_urgency] *)
Definition analyze_urgency (self : SentimentAnalyzer) (text : string) : UrgencyAnalysis :=
  try_except
    (let text_lower := ModelSimulator.str_lower text in
     let word_count := word_count_of text in
     bind (re_count_sum (map keyword_pattern (urgency_keywords self)) text_lower)
     (fun urgency_count =>
     let urgency_density_ := density urgency_count word_count in
     bind (re_count_sum urgency_patterns text_lower) (fun pattern_matches =>
     let urgency_score_ :=
       Qmin 1.0 (urgency_density_ * 10 + Qnat pattern_matches * 0.2) in
     Return {| urgency_score := urgency_score_;
               urgency_level := level_of urgency_score_;
               urgency_keyword_count := urgency_count;
               urgency_density := urgency_density_;
               urgency_pattern_matches := pattern_matches |})))
    (fun e =>
       {| urgency_score := 0.0;
          urgency_level := "unknown";
          urgency_keyword_count := 0;
          urgency_density := 0.0;
          urgency_pattern_matches := 0 |}).

(** The dict [manipulation_patterns] of [analyze_emotional_manipulation],
    in insertion order. *)
Definition manipulation_pattern_table : list (string * list string) :=
  [ ("authority",
     [ "government\s+(?:official|agency)";
       "bank\s+(?:official|representative)";
       "microsoft\s+support";
       "apple\s+support";
       "authorized\s+(?:agent|representative)";
       "certified\s+(?:professional|expert)" ]);
    ("scarcity",
     [ "limited\s+(?:time|quantity|availability)";
       "only\s+\d+\s+(?:left|remaining|available)";
       "exclusive\s+offer";
       "rare\s+opportunity";
       "while\s+supplies\s+last";
       "limited\s+spots?" ]);
    ("social_proof",
     [ "thousands\s+of\s+(?:people|customers)";
       "everyone\s+is\s+(?:doing|buying)";
       "most\s+popular";
       "trending\s+now";
       "recommended\s+by";
       "#1\s+(?:choice|rated)" ]) ].

(** The loop that fills [pattern_counts]. *)
Fixpoint count_categories (table : list (string * list string)) (text : string)
    : outcome (list (string * nat)) :=
  match table with
  | [] => Return []
  | (category, patterns) :: rest =>
      bind (re_count_sum patterns text) (fun count =>
      bind (count_categories rest text) (fun counts =>
      Return ((category, count) :: counts)))
  end.

(** [SentimentAnalyzer.analyze_emotional_manipulation] *)
Definition analyze_emotional_manipulation (self : SentimentAnalyzer) (text : string)
    : ManipulationAnalysis :=
  try_except
    (let text_lower := ModelSimulator.str_lower text in
     let word_count := word_count_of text in
     bind (re_count_sum (map keyword_pattern (fear_keywords self)) text_lower)
     (fun fear_count =>
     bind (re_count_sum (map keyword_pattern (greed_keywords self)) text_lower)
     (fun greed_count =>
     bind (re_count_sum (map keyword_pattern (trust_keywords self)) text_lower)
     (fun trust_count =>
     let fear_density := density fear_count word_count in
     let greed_density := density greed_count word_count in
     let trust_density := density trust_count word_count in
     bind (count_categories manipulation_pattern_table text_lower)
     (fun pattern_counts =>
     let emotion_score := (fear_density + greed_density) * 2 - trust_density in
     let pattern_score := Qnat (list_sum (map snd pattern_counts)) * 0.1 in
     let manipulation_score_ := Qmin 1.0 (Qmax 0.0 (emotion_score + pattern_score)) in
     Return {| manipulation_score := manipulation_score_;
               manipulation_level := level_of manipulation_score_;
               fear_indicators := (fear_count, fear_density);
               greed_indicators := (greed_count, greed_density);
               false_trust_indicators := (trust_count, trust_density);
               manipulation_patterns := pattern_counts |})))))
    (fun e =>
       {| manipulation_score := 0.0;
          manipulation_level := "unknown";
          fear_indicators := (O, 0.0);
          greed_indicators := (O, 0.0);
          false_trust_indicators := (O, 0.0);
          manipulation_patterns := [] |}).

(** [SentimentAnalyzer._calculate_sentiment_risk]: the three dicts have the
    keys that are read, and nothing in the [try] block raises. *)
Definition _calculate_sentiment_risk (basic_sentiment_ : BasicSentiment)
    (urgency_analysis_ : UrgencyAnalysis)
    (manipulation_analysis_ : ManipulationAnalysis) : Q :=
  let urgency_weight := 0.4 in
  let manipulation_weight := 0.4 in
  let sentiment_weight := 0.2 in
  let urgency_score_ := urgency_score urgency_analysis_ in
  let manipulation_score_ := manipulation_score manipulation_analysis_ in
  let sentiment_polarity := polarity basic_sentiment_ in
  let sentiment_risk := Qmax 0.0 (- sentiment_polarity * 0.5 + 0.5) in
  let composite_risk :=
    urgency_score_ * urgency_weight
    + manipulation_score_ * manipulation_weight
    + sentiment_risk * sentiment_weight in
  Qmin 1.0 (Qmax 0.0 composite_risk).

(** [SentimentAnalyzer.analyze_complete_sentiment]: each of the five calls
    catches its own errors, so the [except] clause is not reached. *)
Definition analyze_complete_sentiment `{TextBlob} (self : SentimentAnalyzer)
    (text : string) : CompleteSentiment :=
  let basic_sentiment_ := analyze_basic_sentiment text in
  let transformer_sentiment_ := analyze_transformer_sentiment self text in
  let urgency_analysis_ := analyze_urgency self text in
  let manipulation_analysis_ := analyze_emotional_manipulation self text in
  let sentiment_risk_score :=
    _calculate_sentiment_risk basic_sentiment_ urgency_analysis_ manipulation_analysis_ in
  {| basic_sentiment := basic_sentiment_;
     transformer_sentiment := transformer_sentiment_;
     urgency_analysis := urgency_analysis_;
     manipulation_analysis := manipulation_analysis_;
     composite_risk_score := sentiment_risk_score;
     processing_successful := true |}.

End SentimentAnalyzer.

(** ** The prediction pipeline of [scoring/ensemble_scorer.py]

    The global objects the scorer calls are gathered in [Models]: the
    loaded classifier ([bert_classifier.predict_single]), the fallback
    object [pattern_simulator] and the [sentiment_analyzer]; the pattern
    matcher is the global [PatternMatcher.pattern_matcher].  The readings
    of the clock are parameters ([Clock]). *)

Module EnsemblePipeline.
Import Py Ensemble.
Open Scope Q_scope.

Record Models : Type := {
  bert_predict_single : string -> gmap string pyval;
  pattern_simulator : BertClassifier.object;
  sentiment_analyzer : SentimentAnalyzer.SentimentAnalyzer
}.

(** The durations measured during one call of [predict_single], and the
    instant of its [timestamp]. *)
Record Clock : Type := {
  bert_seconds : Q;
  pattern_seconds : Q;
  sentiment_seconds : Q;
  total_seconds : Q;
  timestamp_now : Z
}.

(** The result dict that a prediction keeps as its [metadata].  In the
    program [metadata=result] is the whole dict, with its nested dicts.
    The values of [pyval] are scalars, so a prediction of the pipeline is a
    pair: the [ModelPrediction] whose [metadata] field holds the top-level
    scalar entries of the dict only, and the dict itself, typed.  The
    Python object is the pair: two predictions are the same only if both
    components are. *)
Inductive ResultDict : Type :=
| BertResult (result : gmap string pyval)
| PatternResult (result : PatternMatcher.Analysis)
| SentimentResult (result : SentimentAnalyzer.CompleteSentiment)
| ErrorResult (msg : string).

Definition Prediction : Type := ModelPrediction * ResultDict.

(** [@dataclass class EnsembleResult] *)
Record EnsembleResult : Type := {
  final_score : Q;
  risk_level : string;
  result_confidence : Q;
  explanation : list string;
  model_predictions : list Prediction;
  result_processing_time : Q;
  timestamp : Z
}.

(** [_get_bert_prediction] with its result dict: the [error] dict when the
    lookup of [models_loaded["bert"]] raised, else the result of the
    classifier or of its fallback. *)
Definition get_bert_prediction (self : EnsembleScorer) (models : Models)
    (text : string) (elapsed : Q) : Prediction :=
  let pred :=
    _get_bert_prediction self (bert_predict_single models) (pattern_simulator models)
                         text elapsed in
  (pred,
   match getitem (models_loaded self) "bert" with
   | Return _ => BertResult (metadata pred)
   | Raise e => ErrorResult (str e)
   end).

(** [EnsembleScorer._get_pattern_prediction]: [analyze_text] catches its
    own errors and its result has both keys, so the [except] clause is not
    reached. *)
Definition _get_pattern_prediction (text : string) (elapsed : Q) : Prediction :=
  let result := PatternMatcher.analyze_text PatternMatcher.pattern_matcher text in
  let score_ := PatternMatcher.ra_risk_score (PatternMatcher.risk_analysis result) in
  let confidence_ := PatternMatcher.ra_confidence (PatternMatcher.risk_analysis result) in
  ({| model_name := "pattern";
      score := score_;
      confidence := confidence_;
      metadata :=
        <["total_matches"%string :=
            VInt (Z.of_nat (PatternMatcher.total_matches result))]>
          (<["unique_categories"%string :=
               VInt (Z.of_nat (PatternMatcher.unique_categories result))]>
             (<["processing_successful"%string :=
                  VBool (PatternMatcher.processing_successful result)]> ∅));
      processing_time := elapsed |},
   PatternResult result).

(** [EnsembleScorer._get_sentiment_prediction]: as for the pattern
    prediction, the [except] clause is not reached. *)
Definition _get_sentiment_prediction `{SentimentAnalyzer.TextBlob} (models : Models)
    (text : string) (elapsed : Q) : Prediction :=
  let result :=
    SentimentAnalyzer.analyze_complete_sentiment (sentiment_analyzer models) text in
  let score_ := SentimentAnalyzer.composite_risk_score result in
  let urgency_conf :=
    SentimentAnalyzer.urgency_score (SentimentAnalyzer.urgency_analysis result) in
  let manip_conf :=
    SentimentAnalyzer.manipulation_score
      (SentimentAnalyzer.manipulation_analysis result) in
  let confidence_ := (urgency_conf + manip_conf) / 2 in
  ({| model_name := "sentiment";
      score := score_;
      confidence := confidence_;
      metadata :=
        <["composite_risk_score"%string := VFloat score_]>
          (<["processing_successful"%string :=
               VBool (SentimentAnalyzer.processing_successful result)]> ∅);
      processing_time := elapsed |},
   SentimentResult result).

(** Formatting of floats: [f"{x:.2f}"] and [f"{x:.1%}"], with the exact
    value rounded half to even.  Python rounds the double nearest to the
    value, so on a value half-way between two results, such as 0.545, its
    last digit can differ. *)
Definition round_half_even (x : Q) : Z :=
  let f := Qfloor x in
  let r := x - inject_Z f in
  if Np.Qltb r 0.5 then f
  else if Np.Qltb 0.5 r then (f + 1)%Z
  else if Z.even f then f else (f + 1)%Z.

Definition str_of_Z (z : Z) : string :=
  NilZero.string_of_uint (N.to_uint (Z.to_N z)).

Definition zero_pad (width : nat) (digits : string) : string :=
  (string_of_list_ascii (replicate (width - String.length digits) "0"%char)
   ++ digits)%string.

Definition format_fixed (digits : nat) (x : Q) : string :=
  let scale := (10 ^ Z.of_nat digits)%Z in
  let n := round_half_even (Qabs x * inject_Z scale) in
  ((if Np.Qltb x 0 then "-" else "")
   ++ str_of_Z (n / scale) ++ "." ++ zero_pad digits (str_of_Z (n mod scale)))%string.

Definition format_percent (digits : nat) (x : Q) : string :=
  (format_fixed digits (x * 100) ++ "%")%string.

(** [sub in s] *)
Fixpoint contains_from (sub s : list ascii) : bool :=
  ModelSimulator.starts_with sub s
  || match s with
     | [] => false
     | _ :: s' => contains_from sub s'
     end.
Definition str_contains (sub s : string) : bool :=
  contains_from (list_ascii_of_string sub) (list_ascii_of_string s).

(** The reads of [pred.metadata] in [_generate_explanations].  A result
    dict of the classifier or of its fallback has none of the three keys,
    and neither has the [error] dict, so [get] gives the default there. *)
Definition metadata_total_matches (d : ResultDict) : nat :=
  match d with
  | PatternResult result => PatternMatcher.total_matches result
  | _ => O
  end.

Definition metadata_urgency_level (d : ResultDict) : string :=
  match d with
  | SentimentResult result =>
      SentimentAnalyzer.urgency_level (SentimentAnalyzer.urgency_analysis result)
  | _ => "unknown"
  end.

Definition metadata_categories (d : ResultDict) : list string :=
  match d with
  | PatternResult result => map fst (PatternMatcher.matches_by_category result)
  | _ => []
  end.

(** The first loop of [_generate_explanations]: what one prediction adds. *)
Definition explain_contribution (pred : Prediction) : list string :=
  if Np.Qltb 0.5 (score pred.1) then
    if String.eqb (model_name pred.1) "bert" then
      [ ("AI language model detected " ++ format_percent 1 (score pred.1)
         ++ " scam probability")%string ]
    else if String.eqb (model_name pred.1) "pattern" then
      let match_count := metadata_total_matches pred.2 in
      if (0 <? match_count)%nat then
        [ ("Pattern analysis found " ++ PatternMatcher.str_of_nat match_count
           ++ " suspicious indicators")%string ]
      else []
    else if String.eqb (model_name pred.1) "sentiment" then
      let urgency_level_ := metadata_urgency_level pred.2 in
      if String.eqb urgency_level_ "high" || String.eqb urgency_level_ "medium"
      then [ "High urgency/pressure tactics detected"%string ]
      else []
    else []
  else [].

(** The second loop: the warnings read off the pattern categories. *)
Definition explain_categories (pred : Prediction) : list string :=
  if String.eqb (model_name pred.1) "pattern" && Np.Qltb 0.6 (score pred.1) then
    let high_risk_categories :=
      List.filter (fun cat => str_contains "scam" cat || str_contains "phishing" cat)
                  (metadata_categories pred.2) in
    match high_risk_categories with
    | [] => []
    | _ :: _ =>
        [ ("Contains " ++ PatternMatcher.join ", " (take 2 high_risk_categories)
           ++ " indicators")%string ]
    end
  else [].

(** [EnsembleScorer._generate_explanations]: the lookup of a threshold is
    the only statement of the [try] block that can raise, and it comes
    first. *)
Definition _generate_explanations (self : EnsembleScorer)
    (predictions : list Prediction) (final_score_ : Q) : list string :=
  try_except
    (bind (_determine_risk_level self final_score_) (fun risk_level_ =>
     let explanations :=
       [ ("Overall risk level: " ++ SentimentAnalyzer.str_upper risk_level_
          ++ " (" ++ format_fixed 2 final_score_ ++ ")")%string ] in
     let explanations := explanations ++ flat_map explain_contribution predictions in
     let explanations := explanations ++ flat_map explain_categories predictions in
     let confidences := map (fun pred => confidence pred.1) predictions in
     let avg_confidence :=
       match confidences with
       | [] => 0.0
       | _ :: _ => Np.mean confidences
       end in
     Return
       (if Np.Qltb avg_confidence 0.5 then
          explanations ++ [ "Low confidence prediction - manual review recommended"%string ]
        else if Np.Qltb 0.8 final_score_ && Np.Qltb 0.8 avg_confidence then
          explanations
            ++ [ "High confidence scam detection - immediate action recommended"%string ]
        else explanations)))
    (fun e => [ "Unable to generate detailed explanation"%string ]).

(** [EnsembleScorer.predict_single].  The three predictions are made
    inside the [try] block; each catches its own errors, so they are
    complete when the handler runs. *)
Definition predict_single `{SentimentAnalyzer.TextBlob} (self : EnsembleScorer)
    (models : Models) (text : string) (explain : bool) (clock : Clock)
    : EnsembleResult :=
  let bert_prediction := get_bert_prediction self models text (bert_seconds clock) in
  let pattern_prediction := _get_pattern_prediction text (pattern_seconds clock) in
  let sentiment_prediction :=
    _get_sentiment_prediction models text (sentiment_seconds clock) in
  let model_predictions_ :=
    [bert_prediction; pattern_prediction; sentiment_prediction] in
  try_except
    (let '(final_score_, confidence_) :=
       _calculate_ensemble_score self (map fst model_predictions_) in
     bind (_determine_risk_level self final_score_) (fun risk_level_ =>
     let explanations :=
       if explain then _generate_explanations self model_predictions_ final_score_
       else [] in
     Return {| final_score := final_score_;
               risk_level := risk_level_;
               result_confidence := confidence_;
               explanation := explanations;
               model_predictions := model_predictions_;
               result_processing_time := total_seconds clock;
               timestamp := timestamp_now clock |}))
    (fun e =>
       {| final_score := 0.0;
          risk_level := "error";
          result_confidence := 0.0;
          explanation := [ ("Prediction failed: " ++ str e)%string ];
          model_predictions := model_predictions_;
          result_processing_time := total_seconds clock;
          timestamp := timestamp_now clock |}).

(** [EnsembleScorer.predict_batch]: [predict_single] catches its own
    errors; [clocks i] are the readings during the call on the [i]-th
    text. *)
Definition predict_batch `{SentimentAnalyzer.TextBlob} (self : EnsembleScorer)
    (models : Models) (texts : list string) (explain : bool) (clocks : nat -> Clock)
    : list EnsembleResult :=
  imap (fun i text => predict_single self models text explain (clocks i)) texts.

(** [np.arange(0.1, 0.95, 0.05)]: 17 values. *)
Definition candidate_thresholds : list Q :=
  map (fun i => 0.1 + inject_Z (Z.of_nat i) * 0.05) (seq 0 17).

(** [sum(1 for p, l in zip(predictions, labels) if p == a and l == b)] *)
Definition count_pairs (a b : Z) (predictions labels : list Z) : nat :=
  length (List.filter (fun pl => Z.eqb pl.1 a && Z.eqb pl.2 b)
                      (combine predictions labels)).

(** The F1 score of one threshold. *)
Definition f1_score (scores : list Q) (labels : list Z) (threshold : Q) : Q :=
  let predictions := map (fun s => if Qle_bool threshold s then 1%Z else 0%Z) scores in
  let tp := count_pairs 1 1 predictions labels in
  let fp := count_pairs 1 0 predictions labels in
  let fn := count_pairs 0 1 predictions labels in
  let precision :=
    if (0 <? tp + fp)%nat
    then inject_Z (Z.of_nat tp) / inject_Z (Z.of_nat (tp + fp)) else 0 in
  let recall :=
    if (0 <? tp + fn)%nat
    then inject_Z (Z.of_nat tp) / inject_Z (Z.of_nat (tp + fn)) else 0 in
  if Np.Qltb 0 (precision + recall)
  then 2 * precision * recall / (precision + recall) else 0.

(** The sweep over the thresholds: [(best_threshold, best_f1)]. *)
Definition sweep_step (scores : list Q) (labels : list Z) (best : Q * Q)
    (threshold : Q) : Q * Q :=
  let f1 := f1_score scores labels threshold in
  if Np.Qltb best.2 f1 then (threshold, f1) else best.

Definition best_threshold_of (scores : list Q) (labels : list Z) : Q :=
  (fold_left (sweep_step scores labels) candidate_thresholds (0.5, 0.0)).1.

(** The dict literal [optimized_thresholds]. *)
Definition optimized_thresholds (best_threshold : Q) : gmap string Q :=
  <["critical"%string := Qmin 0.95 (best_threshold + 0.2)]>
    (<["high"%string := best_threshold]>
       (<["medium"%string := Qmax 0.3 (best_threshold - 0.2)]>
          (<["low"%string := Qmax 0.1 (best_threshold - 0.4)]> ∅))).

(** [EnsembleScorer.calibrate_thresholds] on validation items that carry a
    text and an integer label.  The method returns the thresholds; it does
    not assign them to the scorer. *)
Definition calibrate_thresholds `{SentimentAnalyzer.TextBlob} (self : EnsembleScorer)
    (models : Models) (validation_data : list (string * Z)) (clocks : nat -> Clock)
    : gmap string Q :=
  match validation_data with
  | [] => risk_thresholds self
  | _ :: _ =>
      let texts := map fst validation_data in
      let labels := map snd validation_data in
      let results := predict_batch self models texts false clocks in
      let scores := map final_score results in
      optimized_thresholds (best_threshold_of scores labels)
  end.

(** [EnsembleScorer.get_model_status] *)
Definition get_model_status (self : EnsembleScorer)
    : gmap string bool * gmap string Q * gmap string Q * bool :=
  (models_loaded self, model_weights self, risk_thresholds self,
   existsb (fun b => b) (map_to_list (models_loaded self)).*2).

End EnsemblePipeline.

(** ** The quick scan of [api/routes/scan.py] *)

Module ScanRoutes.
Import Py.
Open Scope Q_scope.

(** [class QuickScanResponse(BaseModel)]: [risk_score] and [confidence]
    are declared with [ge=0.0, le=1.0]. *)
Record QuickScanResponse : Type := {
  risk_score : Q;
  risk_level : string;
  is_suspicious : bool;
  confidence : Q;
  processing_time : Q
}.

(** What the handler ends with: the response, or an [HTTPException] with
    its status code (the text of [detail] is not kept). *)
Inductive http (A : Type) : Type :=
| Ok (response : A)
| HTTPException (status_code : Z).
Arguments Ok {A} response.
Arguments HTTPException {A} status_code.

(** [value * 0.3] and [max(confidence, value)] on a value read from a
    dict: a [TypeError] on a value that is not a number. *)
Definition number (v : pyval) : outcome Q :=
  match as_float v with
  | Some q => Return q
  | None => Raise (TypeError "unsupported operand type")
  end.

Definition py_max2 (a b : Q) : Q := if Np.Qltb a b then b else a.

(** The constructor of the response model: pydantic raises a
    [ValidationError] on a field outside its bounds. *)
Definition make_response (risk_score_ : Q) (risk_level_ : string) (confidence_ : Q)
    (elapsed : Q) : outcome QuickScanResponse :=
  if Qle_bool 0.0 risk_score_ && Qle_bool risk_score_ 1.0
     && Qle_bool 0.0 confidence_ && Qle_bool confidence_ 1.0
  then Return {| risk_score := risk_score_;
                 risk_level := risk_level_;
                 is_suspicious := Np.Qltb 0.5 risk_score_;
                 confidence := confidence_;
                 processing_time := elapsed |}
  else Raise (ValueError "validation error for QuickScanResponse").

(** [class QuickScanRequest(BaseModel)]: [text] is declared with
    [min_length=1, max_length=5000]. *)
Record QuickScanRequest : Type := {
  text : string
}.

(** The validation of the request body: a request whose text is outside
    the declared lengths does not reach the handler. *)
Definition validate (body : string) : option QuickScanRequest :=
  if (1 <=? String.length body)%nat && (String.length body <=? 5000)%nat
  then Some {| text := body |}
  else None.

(** The handler [quick_scan]; [pattern_simulator] is the global fallback
    object of [bert_classifier.py] and [elapsed] the measured duration. *)
Definition quick_scan (pattern_simulator : BertClassifier.object)
    (request : QuickScanRequest) (elapsed : Q) : http QuickScanResponse :=
  if (5000 <? String.length (text request))%nat then HTTPException 413
  else
    let pattern_result :=
      PatternMatcher.analyze_text PatternMatcher.pattern_matcher (text request) in
    let risk_score_ :=
      PatternMatcher.ra_risk_score (PatternMatcher.risk_analysis pattern_result) in
    let confidence_ :=
      PatternMatcher.ra_confidence (PatternMatcher.risk_analysis pattern_result) in
    let risk_level_ :=
      PatternMatcher.ra_risk_level (PatternMatcher.risk_analysis pattern_result) in
    match
      bind (if Np.Qltb 0.6 risk_score_ then
              let bert_sim :=
                BertClassifier.simulate_bert_prediction pattern_simulator
                  (text request) in
              bind (getitem bert_sim "scam_probability") (fun p =>
              bind (number p) (fun scam_probability =>
              let risk_score_ := risk_score_ * 0.7 + scam_probability * 0.3 in
              bind (getitem bert_sim "confidence") (fun c =>
              bind (number c) (fun bert_confidence =>
              Return (risk_score_, py_max2 confidence_ bert_confidence)))))
            else Return (risk_score_, confidence_))
           (fun '(risk_score_, confidence_) =>
              make_response risk_score_ risk_level_ confidence_ elapsed)
    with
    | Return response => Ok response
    | Raise e => HTTPException 500
    end.

(** The route [POST /quick-scan] on a request body: the framework answers
    422 to a body that fails the validation, and calls the handler on the
    others. *)
Definition post_quick_scan (pattern_simulator : BertClassifier.object)
    (body : string) (elapsed : Q) : http QuickScanResponse :=
  match validate body with
  | Some request => quick_scan pattern_simulator request elapsed
  | None => HTTPException 422
  end.

End ScanRoutes.

(** ** The caching and the metrics of [services/detection_service.py]

    [analyze_text] works on the Redis store of [ScanProcessor.World].  The
    hash of the text ([_generate_text_hash]), what [_perform_analysis]
    does on it, and the readings of the clock are parameters. *)

Module DetectionService.
Import Py ScanProcessor.
Open Scope Q_scope.

(** The dict [performance_metrics]. *)
Record Metrics : Type := {
  total_requests : Z;
  cache_hits : Z;
  cache_misses : Z;
  avg_response_time : Q;
  metrics_error_count : Z
}.

(** [DetectionService.__init__] *)
Definition __init__ : Metrics :=
  {| total_requests := 0;
     cache_hits := 0;
     cache_misses := 0;
     avg_response_time := 0.0;
     metrics_error_count := 0 |}.

(** [settings.MODEL_UPDATE_INTERVAL] *)
Definition MODEL_UPDATE_INTERVAL : Z := 3600.

(** [RedisService.get_cached_analysis] *)
Definition get_cached_analysis (text_hash : string) (w : World)
    : option (gmap string pyval) :=
  get_cache ("analysis:" ++ text_hash)%string w.

(** [RedisService.cache_analysis_result] at the instant [now]. *)
Definition cache_analysis_result (text_hash : string) (result : gmap string pyval)
    (expire : Z) (now : Z) (w : World) : World * bool :=
  let cache_key := ("analysis:" ++ text_hash)%string in
  let cached_result :=
    <["expires_at"%string := VTime (now + expire)]>
      (<["cached_at"%string := VTime now]> result) in
  set_cache cache_key cached_result expire w.

(** [DetectionService._update_performance_metrics] *)
Definition _update_performance_metrics (m : Metrics) (processing_time : Q)
    : outcome Metrics :=
  let total_requests_ := total_requests m in
  let current_avg := avg_response_time m in
  if (total_requests_ =? 0)%Z then Raise (Exception "float division by zero")
  else
    let new_avg :=
      (current_avg * inject_Z (total_requests_ - 1) + processing_time)
      / inject_Z total_requests_ in
    Return {| total_requests := total_requests m;
              cache_hits := cache_hits m;
              cache_misses := cache_misses m;
              avg_response_time := new_avg;
              metrics_error_count := metrics_error_count m |}.

Definition count_request (m : Metrics) : Metrics :=
  {| total_requests := total_requests m + 1;
     cache_hits := cache_hits m;
     cache_misses := cache_misses m;
     avg_response_time := avg_response_time m;
     metrics_error_count := metrics_error_count m |}.

Definition count_hit (m : Metrics) : Metrics :=
  {| total_requests := total_requests m;
     cache_hits := cache_hits m + 1;
     cache_misses := cache_misses m;
     avg_response_time := avg_response_time m;
     metrics_error_count := metrics_error_count m |}.

Definition count_miss (m : Metrics) : Metrics :=
  {| total_requests := total_requests m;
     cache_hits := cache_hits m;
     cache_misses := cache_misses m + 1;
     avg_response_time := avg_response_time m;
     metrics_error_count := metrics_error_count m |}.

Definition count_failure (m : Metrics) : Metrics :=
  {| total_requests := total_requests m;
     cache_hits := cache_hits m;
     cache_misses := cache_misses m;
     avg_response_time := avg_response_time m;
     metrics_error_count := metrics_error_count m + 1 |}.

(** The dict of the [except] clause of [analyze_text]. *)
Definition error_response (e : exn) (now : Z) (elapsed : Q) : gmap string pyval :=
  <["status"%string := VStr "error"]>
    (<["error"%string := VStr (str e)]>
       (<["timestamp"%string := VTime now]>
          (<["processing_time"%string := VFloat elapsed]> ∅))).

(** [result.get("status") == "success"] *)
Definition is_success (result : gmap string pyval) : bool :=
  match result !! "status"%string with
  | Some (VStr status) => String.eqb status "success"
  | _ => false
  end.

(** One request as [analyze_text] sees it. *)
Record Request : Type := {
  text_hash : string;
  use_cache : bool;
  perform_analysis : outcome (gmap string pyval);
  now : Z;
  elapsed : Q
}.

(** [if cached_result:] holds for a dict that is not empty. *)
Definition truthy (cached_result : option (gmap string pyval))
    : option (gmap string pyval) :=
  match cached_result with
  | Some cached => if bool_decide (cached = ∅) then None else Some cached
  | None => None
  end.

(** [DetectionService.analyze_text]: the returned dict, the metrics and
    the store after the call. *)
Definition analyze_text (r : Request) (m : Metrics) (w : World)
    : gmap string pyval * Metrics * World :=
  let m := count_request m in
  let cached_result :=
    if use_cache r then truthy (get_cached_analysis (text_hash r) w) else None in
  match cached_result with
  | Some cached =>
      (<["retrieved_at"%string := VTime (now r)]> cached, count_hit m, w)
  | None =>
      let m := if use_cache r then count_miss m else m in
      match perform_analysis r with
      | Raise e => (error_response e (now r) (elapsed r), count_failure m, w)
      | Return result =>
          let w :=
            if use_cache r && is_success result
            then (cache_analysis_result (text_hash r) result
                    MODEL_UPDATE_INTERVAL (now r) w).1
            else w in
          match _update_performance_metrics m (elapsed r) with
          | Return m' => (result, m', w)
          | Raise e => (error_response e (now r) (elapsed r), count_failure m, w)
          end
      end
  end.

(** [hashlib.sha256(data).hexdigest()] *)
Class Hashlib : Type := {
  sha256_hexdigest : string -> string
}.

(** [DetectionService._generate_text_hash] *)
Definition _generate_text_hash `{Hashlib} (text : string) : string :=
  BertClassifier.str_take 16 (sha256_hexdigest text).

End DetectionService.

(** ** The workers of [workers/scan_processor.py], over
    [services/detection_service.py] *)

Module ScanWorker.
Import Py ScanProcessor.

(** What one round of a worker meets outside the program: the clock
    reading, the duration the service measures, and what
    [_perform_analysis] does on the text and the options of the item, if
    the service calls it. *)
Record Round : Type := {
  round_now : Z;
  round_elapsed : Q;
  round_analysis : outcome (gmap string pyval)
}.

(** The call [detection_service.analyze_text(text=text, ..., use_cache=True,
    ...)] of [_process_scan_item]. *)
Definition analyze_request `{DetectionService.Hashlib} (txt : string) (ev : Round)
    : DetectionService.Request :=
  {| DetectionService.text_hash := DetectionService._generate_text_hash txt;
     DetectionService.use_cache := true;
     DetectionService.perform_analysis := round_analysis ev;
     DetectionService.now := round_now ev;
     DetectionService.elapsed := round_elapsed ev |}.

(** [ScanProcessor._process_scan_item] on the metrics of the detection
    service and the world.  On a dict item no statement of the [try] block
    raises: [analyze_text] catches every exception and returns the error
    dict, and [_store_scan_result] and [_send_callback] catch their own. *)
Definition _process_scan_item `{DetectionService.Hashlib} (item : ScanItem)
    (ev : Round) (s : DetectionService.Metrics * World)
    : DetectionService.Metrics * World :=
  let '(m, w) := s in
  try_except
    (let rid := default "unknown"%string (request_id item) in
     let txt := default ""%string (text item) in
     if String.eqb txt "" then Return (m, w)
     else
       let '(result, m1, w1) :=
         DetectionService.analyze_text (analyze_request txt ev) m w in
       let w2 := _store_scan_result rid result w1 in
       let w3 :=
         match callback_url item with
         | Some url => if String.eqb url "" then w2 else _send_callback url w2
         | None => w2
         end in
       Return (m1, count_processed w3))
    (fun e => (m, _handle_scan_retry item (str e) (round_now ev) (count_error w))).

(** One round of [_process_scan_queue] (or, on the priority queue, of
    [_process_priority_queue]): pop an item and process it, or find the
    queue empty and sleep. *)
Definition worker_round `{DetectionService.Hashlib} (queue_name : string)
    (ev : Round) (s : DetectionService.Metrics * World)
    : DetectionService.Metrics * World :=
  match get_from_queue queue_name s.2 with
  | (Some item, w') => _process_scan_item item ev (s.1, w')
  | (None, w') => (s.1, w')
  end.

(** The worker loop over a list of rounds. *)
Definition worker_run `{DetectionService.Hashlib} (queue_name : string)
    (evs : list Round) (s : DetectionService.Metrics * World)
    : DetectionService.Metrics * World :=
  fold_left (fun s ev => worker_round queue_name ev s) evs s.

End ScanWorker.

(* ===================================================================== *)
(** * Part II: the vocabulary of the statements                           *)
(* ===================================================================== *)

(** Definitions that are not part of the program: the sums, predicates and
    sample inputs that the theorems of Part III are stated with. *)

Module EnsembleSpec.
Import Py Ensemble.
Local Open Scope Q_scope.

(** The scorer after a sequence of calls of [update_weights]. *)
Definition after_updates (self : EnsembleScorer) (updates : list (gmap string Q))
    : EnsembleScorer :=
  fold_left (fun s new_weights => (update_weights s new_weights).1) updates self.

(** The sum of the stored weights, [sum(self.model_weights.values())]. *)
Definition stored_weight_sum (self : EnsembleScorer) : Q :=
  Np.sum (values (model_weights self)).

(** The sum of a list of rationals, as the mathematical [Σ]. *)
Definition Qsum (xs : list Q) : Q := foldr Qplus 0 xs.

(** weight_i × confidence_i *)
Definition eff_weight (self : EnsembleScorer) (p : ModelPrediction) : Q :=
  weight_of self (model_name p) * confidence p.

(** Σ score_i × weight_i × confidence_i *)
Definition weighted_score_sum (self : EnsembleScorer) (ps : list ModelPrediction) : Q :=
  Qsum (map (fun p => score p * weight_of self (model_name p) * confidence p) ps).

(** Σ weight_i × confidence_i *)
Definition weight_sum (self : EnsembleScorer) (ps : list ModelPrediction) : Q :=
  Qsum (map (eff_weight self) ps).

(** The unweighted mean of the scores. *)
Definition mean_score (ps : list ModelPrediction) : Q :=
  Qsum (map score ps) / inject_Z (Z.of_nat (length ps)).

(** The weights as the specification words them: the configured weight of
    a source is the value stored under its name, 0.1 for a source that
    has none; the defaults are those of the configuration. *)
Definition configured_weight (weights : gmap string Q) (name : string) : Q :=
  match weights !! name with
  | Some w => w
  | None => 0.1
  end.

Definition default_weights : gmap string Q :=
  <["bert"%string := 0.4]>
    (<["pattern"%string := 0.3]>
       (<["sentiment"%string := 0.15]>
          (<["ner"%string := 0.15]> ∅))).

(** Σ score_i × weight_i × confidence_i and Σ weight_i × confidence_i over
    configured weights. *)
Definition configured_score_sum (weights : gmap string Q) (ps : list ModelPrediction)
    : Q :=
  Qsum (map (fun p => score p * configured_weight weights (model_name p) * confidence p)
            ps).

Definition configured_weight_sum (weights : gmap string Q) (ps : list ModelPrediction)
    : Q :=
  Qsum (map (fun p => configured_weight weights (model_name p) * confidence p) ps).

(** No source has a negative weight. *)
Definition weights_nonneg (self : EnsembleScorer) : Prop :=
  forall name, 0 <= weight_of self name.

(** The prediction [p] with its score replaced. *)
Definition with_score (p : ModelPrediction) (s : Q) : ModelPrediction :=
  {| model_name := model_name p;
     score := s;
     confidence := confidence p;
     metadata := metadata p;
     processing_time := processing_time p |}.

(** The tier table of the specification. *)
Definition step_tier (final_score : Q) : string :=
  if Qle_bool 0.9 final_score then "critical"
  else if Qle_bool 0.7 final_score then "high"
  else if Qle_bool 0.5 final_score then "medium"
  else if Qle_bool 0.3 final_score then "low"
  else "minimal".

(** mean(c) − min(0.3, 2·var(c)), floored at 0.1. *)
Definition confidence_formula (cs : list Q) : Q :=
  Qmax 0.1 (Np.mean cs - Qmin 0.3 (2 * Np.var cs)).

(** Three predictions to run the theorems on. *)
Definition sample_prediction (name : string) (s c : Q) : ModelPrediction :=
  {| model_name := name; score := s; confidence := c;
     metadata := ∅; processing_time := 0 |}.

Definition sample_predictions : list ModelPrediction :=
  [ sample_prediction "bert" 0.1 0.5;
    sample_prediction "pattern" 0.9 0.9;
    sample_prediction "sentiment" 0.5 0.3 ].

(** An update that names the three active sources and not [ner]. *)
Definition partial_update : gmap string Q :=
  <["bert"%string := 0.5]> (<["pattern"%string := 0.3]> (<["sentiment"%string := 0.2]> ∅)).

(** The result of the [except] clause of
    [ScamPatternSimulator.simulate_bert_prediction]. *)
Definition fallback_result : gmap string pyval :=
  <["scam_probability"%string := VFloat 0.1]>
    (<["confidence"%string := VFloat 0.5]>
       (<["prediction"%string := VStr "not_scam"]> ∅)).

(** A simulator object to run the theorem on. *)
Definition built_simulator : BertClassifier.object :=
  match BertClassifier.__init__ (fun _ => 0.5) with
  | Return sim => sim
  | Raise _ => ∅
  end.

End EnsembleSpec.

Module PatternSpec.
Import Regex PatternMatcher.
Local Open Scope Q_scope.

(** The confidence the specification gives a rule of tier [level] that
    matched [n] times. *)
Definition specified_confidence (level : RiskLevel) (n : nat) : Q :=
  Qmin 0.95 (base_confidence level + 0.05 * (inject_Z (Z.of_nat n) - 1)).

(** The match a compiled rule produces on a text. *)
Definition produced (text cat : string) (info : CategoryInfo) (r : rule) : PatternMatch :=
  {| pattern := r.1.2;
     matches := findall r.1.1 text;
     risk_level := r.2;
     confidence := match_confidence r.2 (Z.of_nat (length (findall r.1.1 text)));
     category := cat;
     description := info_description info |}.

(** Every category of the compiled catalogue has its entry in [patterns]. *)
Definition consistent (pats : list (string * CategoryInfo))
    (compiled : list (string * list rule)) : Prop :=
  forall cat rules, In (cat, rules) compiled -> lookup_category pats cat <> None.

(** The text of scenario A and the rule that matches it. *)
Definition scenario_a : string :=
  "guaranteed 500% returns on your investment! act now!".

Definition percent_rule_source : string :=
  "(?:200|300|500|1000)%\s+(?:return|profit|guaranteed)".

Definition percent_rule : rule :=
  (default Eps (parse percent_rule_source), percent_rule_source, CRITICAL).

Definition investment_rules : list rule :=
  default [] (snd <$> head (compiled_patterns pattern_matcher)).

Definition scenario_a_match : PatternMatch :=
  {| pattern := percent_rule_source;
     matches := ["500% return"%string];
     risk_level := CRITICAL;
     confidence := match_confidence CRITICAL 1;
     category := "investment_scams";
     description := "Investment and trading scams" |}.

End PatternSpec.

Module QueueSpec.
Import Py ScanProcessor.

(** The queue a failed item goes back to. *)
Definition retry_queue (item : ScanItem) : string :=
  if bool_decide (priority item = Some "high"%string)
  then priority_queue else scan_queue.

(** The item as [_handle_scan_retry] re-enqueues it. *)
Definition requeued (item : ScanItem) (error : string) (now : Z) : ScanItem :=
  {| request_id := request_id item;
     text := text item;
     callback_url := callback_url item;
     priority := priority item;
     queued_at := queued_at item;
     retry_count := Some (default 0 (retry_count item) + 1)%Z;
     last_error := Some error;
     retry_at := Some (now + 60 * (default 0 (retry_count item) + 1))%Z |}.

(** The key a result is stored under. *)
Definition result_key (rid : string) : string := ("scan_result:" ++ rid)%string.

(** A fresh item in an empty, connected world, failing with a message. *)
Definition sample_item : ScanItem :=
  {| request_id := Some "req-1"%string;
     text := Some "guaranteed 500% returns on your investment! act now!"%string;
     callback_url := None;
     priority := Some "normal"%string;
     queued_at := Some 0%Z;
     retry_count := Some 0%Z;
     last_error := None;
     retry_at := None |}.

Definition empty_world : World :=
  {| is_connected := true;
     queues := ∅;
     store := ∅;
     writes := [];
     callbacks := [];
     processed_count := 0;
     error_count := 0 |}.

Definition timeout_error : exn := Exception "analysis timed out".

End QueueSpec.

Module SimulatorSpec.
Import Py Regex ModelSimulator.
Local Open Scope Q_scope.

(** The combined score of a text: the part of a prediction that does not
    depend on the generator. *)
Definition combined_score_of `{Numpy} (self : ScamModelSimulator) (text : string) : Q :=
  match text_scores self text with
  | Return (md, _) => md_combined_score md
  | Raise _ => 0
  end.

(** Two calls on the same text, one after the other, on the simulator that
    [__init__] built: what a client that calls the fallback twice sees. *)
Definition two_calls `{Numpy} (text : string) (g0 : rng) : Prediction * Prediction :=
  let '(self, g1) := __init__ g0 in
  let '(first, g2) := simulate_bert_prediction self text g1 in
  let '(second, _) := simulate_bert_prediction self text g2 in
  (first, second).

(** The same two calls with [np.random.seed(s)] run before each. *)
Definition two_calls_reseeded `{Numpy} (s : Z) (text : string) (g0 : rng)
    : Prediction * Prediction :=
  let '(self, _) := __init__ g0 in
  let '(first, _) := simulate_bert_prediction self text (seed s) in
  let '(second, _) := simulate_bert_prediction self text (seed s) in
  (first, second).

(** A generator given by the list of its standard-normal draws (its state
    is the number of draws made), with a polynomial in place of [np.exp]:
    a concrete instance to run the simulator on.  The draws listed are the
    first values [np.random.seed(42)] is followed by, to eight places. *)
Definition exp_poly (x : Q) : Q :=
  1 + x + x * x / 2 + x * x * x / 6 + x * x * x * x / 24.

Definition seed42_draws : list Q :=
  [ 0.49671415; -0.13826430; 0.64768854; 1.52302986; -0.23415337 ].

Definition listed_numpy : Numpy :=
  {| rng := nat;
     seed := fun _ => O;
     standard_normal := fun i => (nth i seed42_draws 0, S i);
     exp := exp_poly |}.

End SimulatorSpec.

Module RiskScoreSpec.
Import Py PatternMatcher.
Local Open Scope Q_scope.

(** Every category multiplier is positive. *)
Definition multipliers_pos (category_multipliers : list (string * Q)) : Prop :=
  Forall (fun e => 0 < e.2) category_multipliers.

End RiskScoreSpec.

Module WeightSpec.
Import Py Ensemble.
Local Open Scope Q_scope.

(** Every source's weight, stored or defaulted, is a fraction. *)
Definition weights_unit (self : EnsembleScorer) : Prop :=
  forall name, 0 <= weight_of self name /\ weight_of self name <= 1.

(** The order of the five risk tiers. *)
Definition tier_rank (tier : string) : nat :=
  if String.eqb tier "critical" then 4
  else if String.eqb tier "high" then 3
  else if String.eqb tier "medium" then 2
  else if String.eqb tier "low" then 1
  else 0.

End WeightSpec.

Module PipelineSpec.
Import Py Ensemble EnsemblePipeline.
Local Open Scope Q_scope.

(** A TextBlob that finds every text neutral, a sentiment analyzer whose
    transformer failed to load, and the models and clock of a service in
    which the BERT model is not loaded. *)
Definition neutral_textblob : SentimentAnalyzer.TextBlob :=
  {| SentimentAnalyzer.sentiment := fun _ => Return (0, 0) |}.

Definition sample_models : Models :=
  {| bert_predict_single := fun _ => ∅;
     pattern_simulator := EnsembleSpec.built_simulator;
     sentiment_analyzer := SentimentAnalyzer.__init__ (Raise (Exception "no model")) |}.

Definition sample_clock : Clock :=
  {| bert_seconds := 0;
     pattern_seconds := 0;
     sentiment_seconds := 0;
     total_seconds := 0;
     timestamp_now := 0 |}.

(** A message with urgency, scarcity and greed wording. *)
Definition pressing_text : string :=
  "URGENT: act now! Limited time offer, don't delay. Only 3 left, guaranteed money, #1 rated. Your bank account is suspended".

(** The value stored under a key of a thresholds dict. *)
Definition threshold (thresholds : gmap string Q) (tier : string) : Q :=
  default 0 (thresholds !! tier).

End PipelineSpec.

Module ClassifierSpec.
Import Py BertClassifier.
Local Open Scope Q_scope.

(** What a two-class pipeline created with [return_all_scores=True]
    returns for one text: the score of [LABEL_0], then that of [LABEL_1]. *)
Definition binary_output (p0 p1 : Q) : list pipeline_result :=
  [ AllScores [ ("LABEL_0"%string, p0); ("LABEL_1"%string, p1) ] ].

(** The text that [predict_single] hands to the pipeline. *)
Definition truncated (text : string) : string :=
  if (BERT_MAX_LENGTH * 4 <? String.length text)%nat
  then str_take (BERT_MAX_LENGTH * 4) text else text.

(** A loaded classifier that is certain that nothing is a scam. *)
Definition certain_classifier : BERTScamClassifier :=
  {| is_loaded := true;
     classifier := fun _ => Return (binary_output 1 0) |}.

End ClassifierSpec.

Module SimulationSpec.
Import Py ModelSimulator.
Local Open Scope Q_scope.

(** The generator after [n] more draws. *)
Definition advance `{Numpy} (n : nat) (g : rng) : rng :=
  Nat.iter n (fun g => (standard_normal g).2) g.

(** The texts of a batch that pass the guard of [simulate_bert_prediction]. *)
Definition long_enough (texts : list string) : list string :=
  List.filter (fun text => negb (too_short text)) texts.

(** The simulator that the constructor builds. *)
Definition built `{Numpy} (g0 : rng) : ScamModelSimulator := (__init__ g0).1.

(** A text of ASCII characters: the texts on which the 8-bit characters of
    the embedding are the code points of the Python string, and [lower],
    [isupper] and [strip] act as modelled. *)
Definition ascii_text (text : string) : Prop :=
  forallb (fun c => (nat_of_ascii c <? 128)%nat) (list_ascii_of_string text) = true.

End SimulationSpec.

Module QueueOrderSpec.
Import Py ScanProcessor.

(** [add_to_queue] of each item in turn, and [n] calls of
    [get_from_queue] with what each returned. *)
Definition push_all (queue_name : string) (items : list ScanItem) (w : World) : World :=
  fold_left (fun w item => (add_to_queue queue_name item w).1) items w.

Fixpoint drain (queue_name : string) (n : nat) (w : World)
    : list (option ScanItem) * World :=
  match n with
  | O => ([], w)
  | S n' =>
      let '(item, w') := get_from_queue queue_name w in
      let '(items, w'') := drain queue_name n' w' in
      (item :: items, w'')
  end.

(** The queue [add_scan_request] chooses, and the request as it enqueues
    it. *)
Definition submit_queue (prio : string) : string :=
  if String.eqb prio "high" then priority_queue else scan_queue.

Definition submitted (request_data : ScanItem) (prio : string) (now : Z) : ScanItem :=
  {| request_id := request_id request_data;
     text := text request_data;
     callback_url := callback_url request_data;
     priority := Some prio;
     queued_at := Some now;
     retry_count := Some 0%Z;
     last_error := last_error request_data;
     retry_at := retry_at request_data |}.

(** The URLs that [if item.get("callback_url")] lets through. *)
Definition callback_of (item : ScanItem) : list string :=
  match callback_url item with
  | Some url => if String.eqb url "" then [] else [url]
  | None => []
  end.

(** A world whose Redis connection is down. *)
Definition offline_world : World :=
  {| is_connected := false;
     queues := ∅;
     store := ∅;
     writes := [];
     callbacks := [];
     processed_count := 0;
     error_count := 0 |}.

Definition sample_result : gmap string pyval :=
  <["status"%string := VStr "success"]> ∅.

End QueueOrderSpec.

Module ServiceSpec.
Import Py ScanProcessor DetectionService.
Local Open Scope Q_scope.

(** The service over a sequence of requests: the metrics and the store
    after the last one. *)
Definition serve (requests : list Request) (m : Metrics) (w : World)
    : Metrics * World :=
  fold_left (fun s r => let '(_, m', w') := analyze_text r s.1 s.2 in (m', w'))
            requests (m, w).

(** A request that goes through the analysis, and succeeds. *)
Definition analysed (r : Request) : Prop :=
  use_cache r = false /\ exists result, perform_analysis r = Return result.

(** What the cache holds for a result stored at [stored_at]. *)
Definition cache_entry (result : gmap string pyval) (stored_at : Z)
    : gmap string pyval :=
  <["expires_at"%string := VTime (stored_at + MODEL_UPDATE_INTERVAL)]>
    (<["cached_at"%string := VTime stored_at]> result).

(** Two requests for the same text: the first is analysed with success,
    the second would fail if it were analysed. *)
Definition first_request : Request :=
  {| text_hash := "9f86d081884c7d65";
     use_cache := true;
     perform_analysis := Return QueueOrderSpec.sample_result;
     now := 10;
     elapsed := 0.25 |}.

Definition second_request : Request :=
  {| text_hash := "9f86d081884c7d65";
     use_cache := true;
     perform_analysis := Raise (Exception "not reached");
     now := 20;
     elapsed := 0.01 |}.

(** Three requests that bypass the cache. *)
Definition uncached_requests : list Request :=
  map (fun t => {| text_hash := "9f86d081884c7d65";
                   use_cache := false;
                   perform_analysis := Return QueueOrderSpec.sample_result;
                   now := 0;
                   elapsed := t |})
      [0.2; 0.4; 0.9].

End ServiceSpec.

Module WorkerSpec.
Import Py ScanProcessor ScanWorker QueueSpec.
Local Open Scope Q_scope.

(** The key the detection service caches an analysis under. *)
Definition analysis_key (text_hash : string) : string :=
  ("analysis:" ++ text_hash)%string.

(** The world after the post to the callback URL of an item, if it has
    one. *)
Definition posted (item : ScanItem) (w : World) : World :=
  match callback_url item with
  | Some url => if String.eqb url "" then w else _send_callback url w
  | None => w
  end.

(** A stand-in for SHA-256 to run the theorems on. *)
Definition sample_hashlib : DetectionService.Hashlib :=
  {| DetectionService.sha256_hexdigest := fun text => text |}.

(** A round in which the analysis raises, and one in which it returns. *)
Definition failing : Round :=
  {| round_now := 240; round_elapsed := 0.5; round_analysis := Raise timeout_error |}.

Definition succeeding : Round :=
  {| round_now := 300;
     round_elapsed := 0.25;
     round_analysis := Return (<["status"%string := VStr "success"]> ∅) |}.

End WorkerSpec.

Module QuickScanSpec.
Import Py PatternMatcher.
Local Open Scope Q_scope.

(** The tier [calculate_risk_score] reads off a risk score. *)
Definition pattern_tier (risk_score : Q) : string :=
  if Qle_bool 0.8 risk_score then "critical"
  else if Qle_bool 0.6 risk_score then "high"
  else if Qle_bool 0.4 risk_score then "medium"
  else "low".

(** The risk score of the pattern analysis of a text. *)
Definition pattern_risk (text : string) : Q :=
  ra_risk_score (risk_analysis (analyze_text pattern_matcher text)).

(** A text on which one medium-tier rule matches twice. *)
Definition pressing_reply : string := "please respond immediately, respond asap".

End QuickScanSpec.

(* ===================================================================== *)
(** * Part III: theorems                                                  *)
(* ===================================================================== *)

(** ** The ensemble combiner (C1 to C5) *)

Module EnsembleFacts.
Import Py Ensemble EnsembleSpec.
Local Open Scope Q_scope.

Lemma fold_left_Qplus (xs : list Q) (a : Q) :
  fold_left Qplus xs a == a + Qsum xs.
Proof.
  revert a. induction xs as [|x xs IH]; intros a; simpl.
  - ring.
  - rewrite IH. ring.
Qed.

Lemma sum_Qsum (xs : list Q) : Np.sum xs == Qsum xs.
Proof. unfold Np.sum. rewrite fold_left_Qplus. ring. Qed.

Lemma Qltb_spec (a b : Q) : Np.Qltb a b = true <-> a < b.
Proof.
  unfold Np.Qltb. rewrite negb_true_iff. split.
  - intros H. apply Qnot_le_lt. intros Hle. apply Qle_bool_iff in Hle. congruence.
  - intros H. destruct (Qle_bool b a) eqn:E; [|reflexivity].
    apply Qle_bool_iff in E. exfalso. apply (Qlt_not_le _ _ H E).
Qed.

#[global] Instance Qltb_proper : Proper (Qeq ==> Qeq ==> eq) Np.Qltb.
Proof. intros a a' Ha b b' Hb. unfold Np.Qltb. now rewrite Ha, Hb. Qed.

(** *** The accumulation loop in closed form *)

Lemma loop_totals (self : EnsembleScorer) (ps : list ModelPrediction)
    (a b : Q) (cs : list Q) :
  let r := fold_left (accumulate self) ps (a, b, cs) in
  r.1.1 == a + weighted_score_sum self ps /\
  r.1.2 == b + weight_sum self ps /\
  r.2 = cs ++ map confidence ps.
Proof.
  revert a b cs. induction ps as [|p ps IH]; intros a b cs; simpl.
  - unfold weighted_score_sum, weight_sum; simpl.
    repeat split; [ring | ring | now rewrite app_nil_r].
  - destruct (IH (a + score p * (weight_of self (model_name p) * confidence p))
                 (b + weight_of self (model_name p) * confidence p)
                 (cs ++ [confidence p])) as (H1 & H2 & H3).
    unfold weighted_score_sum, weight_sum, eff_weight in *; simpl in *.
    repeat split.
    + rewrite H1. ring.
    + rewrite H2. ring.
    + rewrite H3. now rewrite <- app_assoc.
Qed.

Lemma mean_Qsum (xs : list Q) :
  Np.mean xs == Qsum xs / inject_Z (Z.of_nat (length xs)).
Proof. unfold Np.mean. now rewrite sum_Qsum. Qed.

(** The two results of [_calculate_ensemble_score], in closed form. *)
Lemma calculate_closed_form (self : EnsembleScorer) (ps : list ModelPrediction) :
  ps <> [] ->
  let r := _calculate_ensemble_score self ps in
  r.1 == (if Np.Qltb 0 (weight_sum self ps)
          then weighted_score_sum self ps / weight_sum self ps
          else mean_score ps) /\
  r.2 == Qmax 0.1 (Np.mean (map confidence ps)
                   - Qmin 0.3 ((if (1 <? length ps)%nat
                                then Np.var (map confidence ps) else 0.0) * 2)).
Proof.
  intros Hne. destruct ps as [|p0 ps0]; [congruence|].
  unfold _calculate_ensemble_score. cbv iota.
  set (ps := p0 :: ps0) in *.
  destruct (loop_totals self ps 0.0 0.0 []) as (H1 & H2 & H3).
  destruct (fold_left (accumulate self) ps (0.0, 0.0, [])) as [[tws tw] cs] eqn:E.
  cbn [fst snd] in H1, H2, H3. rewrite app_nil_l in H3. subst cs.
  assert (Htws : tws == weighted_score_sum self ps) by (rewrite H1; ring).
  assert (Htw : tw == weight_sum self ps) by (rewrite H2; ring).
  cbv zeta. split.
  - cbn [fst].
    rewrite <- (Qltb_proper 0 0 (Qeq_refl 0) _ _ Htw).
    destruct (Np.Qltb 0 tw).
    + now rewrite Htws, Htw.
    + unfold mean_score. rewrite mean_Qsum. now rewrite length_map.
  - cbn [snd]. rewrite length_map.
    replace (match map confidence ps with [] => 0.0 | _ :: _ => Np.mean (map confidence ps) end)
      with (Np.mean (map confidence ps)) by reflexivity.
    destruct (1 <? length ps)%nat; reflexivity.
Qed.

(** *** Risk tiers *)

Lemma update_weights_thresholds (self : EnsembleScorer) (nw : gmap string Q) :
  risk_thresholds (update_weights self nw).1 = risk_thresholds self.
Proof.
  unfold update_weights.
  destruct (forallb _ _); simpl; [|reflexivity].
  destruct (Np.Qltb 0 _); reflexivity.
Qed.

Lemma after_updates_thresholds (self : EnsembleScorer) (updates : list (gmap string Q)) :
  risk_thresholds (after_updates self updates) = risk_thresholds self.
Proof.
  revert self. induction updates as [|nw updates IH]; intros self; [reflexivity|].
  unfold after_updates in *. simpl. rewrite IH. apply update_weights_thresholds.
Qed.

Lemma determine_risk_level_fixed (self : EnsembleScorer) (bert_loaded : bool) (s : Q) :
  risk_thresholds self = risk_thresholds (__init__ bert_loaded) ->
  _determine_risk_level self s = Return (step_tier s).
Proof.
  intros H. unfold _determine_risk_level, getitem, step_tier. rewrite H.
  change (risk_thresholds (__init__ bert_loaded) !! "critical"%string) with (Some 0.9).
  change (risk_thresholds (__init__ bert_loaded) !! "high"%string) with (Some 0.7).
  change (risk_thresholds (__init__ bert_loaded) !! "medium"%string) with (Some 0.5).
  change (risk_thresholds (__init__ bert_loaded) !! "low"%string) with (Some 0.3).
  cbn [bind].
  destruct (Qle_bool 0.9 s); [reflexivity|]. cbn [bind].
  destruct (Qle_bool 0.7 s); [reflexivity|]. cbn [bind].
  destruct (Qle_bool 0.5 s); [reflexivity|]. cbn [bind].
  destruct (Qle_bool 0.3 s); reflexivity.
Qed.

Lemma Qle_bool_false (a b : Q) : Qle_bool a b = false <-> b < a.
Proof.
  split.
  - intros H. apply Qnot_le_lt. intros Hle. apply Qle_bool_iff in Hle. congruence.
  - intros H. destruct (Qle_bool a b) eqn:E; [|reflexivity].
    apply Qle_bool_iff in E. exfalso. apply (Qlt_not_le _ _ H E).
Qed.

(** C1. On every scorer the program can reach (constructed, then any
    number of weight updates), the risk tier of a final score is the step
    function over the thresholds 0.9 / 0.7 / 0.5 / 0.3: critical from 0.9,
    high from 0.7, medium from 0.5, low from 0.3, minimal below; a score
    of exactly 0.70 is high and 0.6999 is medium. *)
Theorem risk_tier_step_function :
  forall (bert_loaded : bool) (updates : list (gmap string Q)) (final_score : Q),
    let self := after_updates (__init__ bert_loaded) updates in
    (0.9 <= final_score ->
       _determine_risk_level self final_score = Return "critical"%string) /\
    (0.7 <= final_score -> final_score < 0.9 ->
       _determine_risk_level self final_score = Return "high"%string) /\
    (0.5 <= final_score -> final_score < 0.7 ->
       _determine_risk_level self final_score = Return "medium"%string) /\
    (0.3 <= final_score -> final_score < 0.5 ->
       _determine_risk_level self final_score = Return "low"%string) /\
    (final_score < 0.3 ->
       _determine_risk_level self final_score = Return "minimal"%string) /\
    _determine_risk_level self 0.70 = Return "high"%string /\
    _determine_risk_level self 0.6999 = Return "medium"%string.
Proof.
  intros bert_loaded updates s self.
  assert (Hfix : forall x, _determine_risk_level self x = Return (step_tier x)).
  { intros x. apply (determine_risk_level_fixed self bert_loaded).
    unfold self. apply after_updates_thresholds. }
  rewrite !Hfix. unfold step_tier.
  repeat split.
  - intros H. apply Qle_bool_iff in H. now rewrite H.
  - intros H1 H2. apply Qle_bool_iff in H1. apply Qle_bool_false in H2.
    now rewrite H2, H1.
  - intros H1 H2. apply Qle_bool_iff in H1. apply Qle_bool_false in H2.
    assert (H3 : Qle_bool 0.9 s = false) by (apply Qle_bool_false; apply Qle_bool_false in H2; lra).
    now rewrite H3, H2, H1.
  - intros H1 H2. apply Qle_bool_iff in H1. apply Qle_bool_false in H2.
    assert (H3 : Qle_bool 0.9 s = false) by (apply Qle_bool_false; apply Qle_bool_false in H2; lra).
    assert (H4 : Qle_bool 0.7 s = false) by (apply Qle_bool_false; apply Qle_bool_false in H2; lra).
    now rewrite H3, H4, H2, H1.
  - intros H.
    assert (H1 : Qle_bool 0.9 s = false) by (apply Qle_bool_false; lra).
    assert (H2 : Qle_bool 0.7 s = false) by (apply Qle_bool_false; lra).
    assert (H3 : Qle_bool 0.5 s = false) by (apply Qle_bool_false; lra).
    assert (H4 : Qle_bool 0.3 s = false) by (apply Qle_bool_false; lra).
    now rewrite H1, H2, H3, H4.
Qed.

(** *** The weighted mean *)

Lemma Qsum_nonneg (xs : list Q) : Forall (fun x => 0 <= x) xs -> 0 <= Qsum xs.
Proof.
  induction 1 as [|x xs Hx _ IH]; simpl; [apply Qle_refl|].
  change 0 with (0 + 0). now apply Qplus_le_compat.
Qed.

Lemma Qsum_zero (xs : list Q) : Forall (fun x => x == 0) xs -> Qsum xs == 0.
Proof.
  induction 1 as [|x xs Hx _ IH]; simpl; [reflexivity|]. rewrite Hx, IH. ring.
Qed.

Lemma eff_weight_nonneg (self : EnsembleScorer) (ps : list ModelPrediction) :
  weights_nonneg self ->
  Forall (fun p => 0 <= confidence p) ps ->
  Forall (fun x => 0 <= x) (map (eff_weight self) ps).
Proof.
  intros Hw Hc. apply Forall_map. eapply Forall_impl; [exact Hc|].
  intros p Hp. unfold eff_weight. apply Qmult_le_0_compat; [apply Hw | exact Hp].
Qed.

(** The final score in terms of the two sums over the weights the code
    looks up. *)
Lemma weighted_mean_closed_form (self : EnsembleScorer)
    (predictions : list ModelPrediction) :
  predictions <> [] ->
  weights_nonneg self ->
  Forall (fun p => 0 <= confidence p) predictions ->
  let final_score := (_calculate_ensemble_score self predictions).1 in
  (~ weight_sum self predictions == 0 ->
     final_score
     == weighted_score_sum self predictions / weight_sum self predictions) /\
  (weight_sum self predictions == 0 ->
     final_score == mean_score predictions) /\
  (Forall (fun p => confidence p == 0) predictions ->
     weight_sum self predictions == 0).
Proof.
  intros Hne Hw Hc final_score. rename predictions into ps.
  destruct (calculate_closed_form self ps Hne) as [Hfinal _].
  fold final_score in Hfinal.
  assert (Hpos : 0 <= weight_sum self ps)
    by (apply Qsum_nonneg, eff_weight_nonneg; assumption).
  repeat split.
  - intros Hnz. rewrite Hfinal.
    assert (Hlt : Np.Qltb 0 (weight_sum self ps) = true).
    { apply Qltb_spec. apply Qle_lteq in Hpos. destruct Hpos as [Hlt|Heq]; [exact Hlt|].
      exfalso. apply Hnz. now symmetry. }
    now rewrite Hlt.
  - intros Hz. rewrite Hfinal.
    assert (Hlt : Np.Qltb 0 (weight_sum self ps) = false).
    { destruct (Np.Qltb 0 (weight_sum self ps)) eqn:E; [|reflexivity].
      apply Qltb_spec in E. rewrite Hz in E. exfalso. apply (Qlt_irrefl 0 E). }
    now rewrite Hlt.
  - intros Hall. unfold weight_sum. apply Qsum_zero. apply Forall_map.
    eapply Forall_impl; [exact Hall|]. intros p Hp. unfold eff_weight.
    rewrite Hp. ring.
Qed.

(** The weight the code looks up is the configured one. *)
Lemma weight_of_configured (self : EnsembleScorer) (name : string) :
  weight_of self name = configured_weight (model_weights self) name.
Proof. unfold weight_of, configured_weight. now destruct (model_weights self !! name). Qed.

Lemma weight_sum_configured (self : EnsembleScorer) (ps : list ModelPrediction) :
  weight_sum self ps = configured_weight_sum (model_weights self) ps.
Proof.
  unfold weight_sum, configured_weight_sum, eff_weight.
  f_equal; try apply map_ext; try (intros p; now rewrite weight_of_configured).
Qed.

Lemma weighted_score_sum_configured (self : EnsembleScorer) (ps : list ModelPrediction) :
  weighted_score_sum self ps = configured_score_sum (model_weights self) ps.
Proof.
  unfold weighted_score_sum, configured_score_sum.
  f_equal; try apply map_ext; try (intros p; now rewrite weight_of_configured).
Qed.

(** C2. For a non-empty list of predictions, with no stored weight and no
    confidence negative, the final score is Σ score·weight·confidence
    divided by Σ weight·confidence when that total is not zero, and the
    unweighted mean of the scores when it is zero; the total is zero in
    particular when every confidence is zero.  The weight of a source is
    the configured one: the value stored under its name in
    [model_weights], 0.1 for a source that has none; a new scorer stores
    bert 0.4, pattern 0.3, sentiment 0.15, ner 0.15. *)
Theorem final_score_weighted_mean :
  forall (self : EnsembleScorer) (predictions : list ModelPrediction),
    predictions <> [] ->
    (forall name w, model_weights self !! name = Some w -> 0 <= w) ->
    Forall (fun p => 0 <= confidence p) predictions ->
    let weights := model_weights self in
    let final_score := (_calculate_ensemble_score self predictions).1 in
    (~ configured_weight_sum weights predictions == 0 ->
       final_score
       == configured_score_sum weights predictions
          / configured_weight_sum weights predictions) /\
    (configured_weight_sum weights predictions == 0 ->
       final_score == mean_score predictions) /\
    (Forall (fun p => confidence p == 0) predictions ->
       configured_weight_sum weights predictions == 0) /\
    (forall bert_loaded, model_weights (__init__ bert_loaded) = default_weights).
Proof.
  intros self ps Hne Hstored Hc weights final_score.
  assert (Hw : weights_nonneg self).
  { intros name. unfold weight_of.
    destruct (model_weights self !! name) as [w|] eqn:E; cbn.
    - exact (Hstored name w E).
    - discriminate. }
  destruct (weighted_mean_closed_form self ps Hne Hw Hc) as (H1 & H2 & H3).
  fold final_score in H1, H2.
  rewrite weight_sum_configured in H1, H2, H3.
  rewrite weighted_score_sum_configured in H1.
  repeat split; try assumption. 
Qed.

Lemma Qdiv_le_compat_r (a b c : Q) : 0 < c -> a <= b -> a / c <= b / c.
Proof.
  intros Hc Hab. unfold Qdiv. apply Qmult_le_compat_r; [exact Hab|].
  apply Qlt_le_weak. now apply Qinv_lt_0_compat.
Qed.

Lemma Qsum_insert {A : Type} (f : A -> Q) (l : list A) (i : nat) (x y : A) :
  l !! i = Some x ->
  Qsum (map f (<[i := y]> l)) == Qsum (map f l) - f x + f y.
Proof.
  revert i. induction l as [|a l IH]; intros i Hi; [discriminate|].
  destruct i as [|i]; simpl in *.
  - injection Hi as ->. ring.
  - rewrite (IH i Hi). ring.
Qed.

Lemma Qnat_length_pos {A : Type} (l : list A) :
  l <> [] -> 0 < inject_Z (Z.of_nat (length l)).
Proof.
  intros Hne. destruct l; [congruence|].
  change 0 with (inject_Z 0). rewrite <- Zlt_Qlt. simpl length. lia.
Qed.

(** C3. Raising the score of one prediction, every other score and all
    confidences kept, does not lower the final score (weights and
    confidences non-negative). *)
Theorem final_score_monotone :
  forall (self : EnsembleScorer) (predictions : list ModelPrediction)
         (i : nat) (p : ModelPrediction) (higher : Q),
    weights_nonneg self ->
    Forall (fun q => 0 <= confidence q) predictions ->
    predictions !! i = Some p ->
    score p <= higher ->
    (_calculate_ensemble_score self predictions).1
    <= (_calculate_ensemble_score self (<[i := with_score p higher]> predictions)).1.
Proof.
  intros self ps i p s' Hw Hc Hi Hs.
  assert (Hne : ps <> []) by (intros ->; discriminate).
  assert (Hne' : <[i := with_score p s']> ps <> []).
  { destruct ps; [congruence|]. destruct i; discriminate. }
  destruct (calculate_closed_form self ps Hne) as [H1 _].
  destruct (calculate_closed_form self _ Hne') as [H2 _].
  rewrite H1, H2. clear H1 H2.
  assert (HW : weight_sum self (<[i := with_score p s']> ps) == weight_sum self ps).
  { unfold weight_sum. rewrite (Qsum_insert _ _ _ _ _ Hi).
    unfold eff_weight, with_score; simpl. ring. }
  assert (HS : weighted_score_sum self (<[i := with_score p s']> ps)
               == weighted_score_sum self ps
                  + (s' - score p) * (weight_of self (model_name p) * confidence p)).
  { unfold weighted_score_sum. rewrite (Qsum_insert _ _ _ _ _ Hi).
    unfold with_score; simpl. ring. }
  assert (HM : Qsum (map score (<[i := with_score p s']> ps))
               == Qsum (map score ps) + (s' - score p)).
  { rewrite (Qsum_insert _ _ _ _ _ Hi). unfold with_score; simpl. ring. }
  assert (Hcp : 0 <= confidence p).
  { rewrite Forall_forall in Hc. apply Hc. eapply list_elem_of_lookup_2. exact Hi. }
  rewrite (Qltb_proper 0 0 (Qeq_refl 0) _ _ HW).
  destruct (Np.Qltb 0 (weight_sum self ps)) eqn:E.
  - apply Qltb_spec in E. rewrite HW, HS.
    apply Qdiv_le_compat_r; [exact E|].
    assert (0 <= (s' - score p) * (weight_of self (model_name p) * confidence p)).
    { apply Qmult_le_0_compat; [lra|]. apply Qmult_le_0_compat; [apply Hw | exact Hcp]. }
    lra.
  - unfold mean_score. rewrite length_insert, HM.
    apply Qdiv_le_compat_r; [now apply Qnat_length_pos | lra].
Qed.

(** *** The ensemble confidence *)

Lemma var_singleton (c : Q) : Np.var [c] == 0.
Proof.
  unfold Np.var, Np.mean, Np.sum. simpl. field.
Qed.

Lemma confidence_formula_antitone (m1 m2 v1 v2 : Q) :
  m1 == m2 -> v1 <= v2 ->
  Qmax 0.1 (m2 - Qmin 0.3 (2 * v2)) <= Qmax 0.1 (m1 - Qmin 0.3 (2 * v1)).
Proof.
  intros Hm Hv. apply Q.max_le_compat_l.
  assert (Qmin 0.3 (2 * v1) <= Qmin 0.3 (2 * v2)).
  { apply Q.min_le_compat_l. lra. }
  lra.
Qed.

(** C4. For a non-empty list of predictions the ensemble confidence is
    max(0.1, mean(c) - min(0.3, 2·var(c))) over the confidences c, with
    var the population variance; hence between two non-empty prediction
    lists whose confidences have the same mean, the one with the larger
    variance has the smaller or equal ensemble confidence. *)
Theorem ensemble_confidence_formula :
  forall (self : EnsembleScorer) (predictions : list ModelPrediction),
    predictions <> [] ->
    (_calculate_ensemble_score self predictions).2
    == confidence_formula (map confidence predictions) /\
    (forall others : list ModelPrediction,
       others <> [] ->
       Np.mean (map confidence others) == Np.mean (map confidence predictions) ->
       Np.var (map confidence predictions) <= Np.var (map confidence others) ->
       (_calculate_ensemble_score self others).2
       <= (_calculate_ensemble_score self predictions).2).
Proof.
  assert (Hform : forall self ps, ps <> [] ->
            (_calculate_ensemble_score self ps).2
            == confidence_formula (map confidence ps)).
  { intros self ps Hne.
    destruct (calculate_closed_form self ps Hne) as [_ H]. rewrite H.
    unfold confidence_formula.
    destruct ps as [|p [|q ps]]; [congruence| |].
    - change (1 <? length [p])%nat with false. cbv iota.
      change (map confidence [p]) with [confidence p].
      rewrite (var_singleton (confidence p)).
      assert (E : 0.0 * 2 == 2 * 0) by reflexivity.
      rewrite E. reflexivity.
    - change (1 <? length (p :: q :: ps))%nat with true. cbv iota.
      now rewrite (Qmult_comm (Np.var _) 2). }
  intros self ps Hne. split; [now apply Hform|].
  intros others Hne' Hmean Hvar.
  rewrite (Hform self ps Hne), (Hform self others Hne').
  unfold confidence_formula. apply confidence_formula_antitone; [|exact Hvar].
  now symmetry.
Qed.

(** *** Stored weights stay non-negative *)

Lemma init_weights_nonneg (bert_loaded : bool) : weights_nonneg (__init__ bert_loaded).
Proof.
  intros name. unfold weight_of, __init__, ENSEMBLE_WEIGHTS; cbn [model_weights].
  rewrite !lookup_insert. repeat case_decide; rewrite ?lookup_empty; cbn; discriminate.
Qed.

Lemma values_elem (d : gmap string Q) (k : string) (v : Q) :
  d !! k = Some v -> In v (values d).
Proof.
  intros H. unfold values. apply list_elem_of_In.
  apply list_elem_of_fmap. exists (k, v). split; [reflexivity|].
  now apply elem_of_map_to_list.
Qed.

Lemma update_weights_nonneg (self : EnsembleScorer) (nw : gmap string Q) :
  weights_nonneg self -> weights_nonneg (update_weights self nw).1.
Proof.
  intros Hw. unfold update_weights.
  destruct (forallb _ _) eqn:Hall; cbn [bind try_except]; [|exact Hw].
  destruct (Np.Qltb 0 (Np.sum (values nw))) eqn:Hpos; cbn [try_except fst]; [|exact Hw].
  apply Qltb_spec in Hpos.
  intros name. unfold weight_of; cbn [model_weights].
  rewrite lookup_union, lookup_fmap.
  destruct (nw !! name) as [v|] eqn:Hv; cbn.
  - assert (Hv0 : 0 <= v).
    { rewrite forallb_forall in Hall. specialize (Hall v (values_elem _ _ _ Hv)).
      apply andb_true_iff in Hall. destruct Hall as [H0 _]. now apply Qle_bool_iff. }
    destruct (model_weights self !! name); cbn;
      (apply Qle_shift_div_l; [exact Hpos | lra]).
  - specialize (Hw name). unfold weight_of in Hw.
    destruct (model_weights self !! name); cbn in *; exact Hw.
Qed.

Lemma reachable_weights_nonneg (bert_loaded : bool) (updates : list (gmap string Q)) :
  weights_nonneg (after_updates (__init__ bert_loaded) updates).
Proof.
  unfold after_updates.
  generalize (init_weights_nonneg bert_loaded).
  generalize (__init__ bert_loaded). induction updates as [|nw updates IH]; intros s Hs.
  - exact Hs.
  - simpl. apply IH. now apply update_weights_nonneg.
Qed.

(** *** Concrete predictions *)

Lemma sample_confidences_nonneg :
  Forall (fun p => 0 <= confidence p) sample_predictions.
Proof. repeat constructor; cbn; discriminate. Qed.

(** On the sample predictions a new scorer weighs bert with 0.4, pattern
    with 0.3 and sentiment with 0.15. *)
Lemma final_score_weighted_mean_witness :
  (_calculate_ensemble_score (__init__ false) sample_predictions).1
  == (0.1 * 0.4 * 0.5 + 0.9 * 0.3 * 0.9 + 0.5 * 0.15 * 0.3)
     / (0.4 * 0.5 + 0.3 * 0.9 + 0.15 * 0.3).
Proof.
  destruct (final_score_weighted_mean (__init__ false) sample_predictions)
    as (Hmean & _).
  - discriminate.
  - intros name w. unfold __init__, ENSEMBLE_WEIGHTS; cbn [model_weights].
    rewrite !lookup_insert. repeat case_decide; rewrite ?lookup_empty;
      intros [= <-]; discriminate.
  - apply sample_confidences_nonneg.
  - apply Qeq_trans with (1 := Hmean ltac:(vm_compute; discriminate)).
    vm_compute. reflexivity.
Defined.

Lemma final_score_monotone_witness :
  (_calculate_ensemble_score (__init__ false) sample_predictions).1
  <= (_calculate_ensemble_score (__init__ false)
        (<[1%nat := with_score (sample_prediction "pattern" 0.9 0.9) 0.95]>
           sample_predictions)).1.
Proof.
  apply (final_score_monotone (__init__ false) sample_predictions 1
           (sample_prediction "pattern" 0.9 0.9) 0.95).
  - apply init_weights_nonneg.
  - apply sample_confidences_nonneg.
  - reflexivity.
  - cbn. discriminate.
Defined.

Lemma ensemble_confidence_formula_witness :
  (_calculate_ensemble_score (__init__ false) sample_predictions).2
  == confidence_formula (map confidence sample_predictions) /\
  (forall others : list ModelPrediction,
     others <> [] ->
     Np.mean (map confidence others) == Np.mean (map confidence sample_predictions) ->
     Np.var (map confidence sample_predictions) <= Np.var (map confidence others) ->
     (_calculate_ensemble_score (__init__ false) others).2
     <= (_calculate_ensemble_score (__init__ false) sample_predictions).2).
Proof.
  apply (ensemble_confidence_formula (__init__ false) sample_predictions).
  discriminate.
Defined.

(** *** Weight updates *)

(** C5 (the code at a failing input). Updating the three active sources
    of the default configuration succeeds and leaves the stored weights
    summing to 1.15: the untouched [ner] weight is kept beside the
    renormalised new ones. *)
Lemma update_weights_partial_sum :
  (update_weights (__init__ false) partial_update).2 = true /\
  stored_weight_sum (update_weights (__init__ false) partial_update).1 == 1.15 /\
  ~ stored_weight_sum (update_weights (__init__ false) partial_update).1 == 1.
Proof.
  split; [|split].
  - vm_compute. reflexivity.
  - vm_compute. reflexivity.
  - intros H. vm_compute in H. discriminate.
Qed.

Lemma values_fmap (f : Q -> Q) (d : gmap string Q) :
  values (f <$> d) = map f (values d).
Proof.
  unfold values. rewrite map_to_list_fmap.
  induction (map_to_list d) as [|[k v] l IH]; [reflexivity|].
  cbn. now rewrite IH.
Qed.

Lemma Qsum_scale (xs : list Q) (t : Q) :
  Qsum (map (fun v => v / t) xs) == Qsum xs / t.
Proof.
  induction xs as [|x xs IH]; simpl.
  - unfold Qdiv. ring.
  - rewrite IH. unfold Qdiv. ring.
Qed.

(** When an update names every stored source, the stored weights do sum
    to 1 afterwards. *)
Lemma update_weights_full_sum (self : EnsembleScorer) (nw : gmap string Q) :
  (update_weights self nw).2 = true ->
  (forall name, is_Some (model_weights self !! name) -> is_Some (nw !! name)) ->
  stored_weight_sum (update_weights self nw).1 == 1.
Proof.
  unfold update_weights.
  destruct (forallb _ _); cbn [bind try_except]; [|discriminate].
  destruct (Np.Qltb 0 (Np.sum (values nw))) eqn:Hpos; cbn [try_except fst snd];
    [|discriminate].
  intros _ Hdom. apply Qltb_spec in Hpos.
  unfold stored_weight_sum. cbn [model_weights].
  assert (E : ((fun v => v / Np.sum (values nw)) <$> nw) ∪ model_weights self
              = (fun v => v / Np.sum (values nw)) <$> nw).
  { apply map_eq. intros k. rewrite lookup_union, lookup_fmap.
    destruct (nw !! k) as [v|] eqn:Hk; cbn.
    - now destruct (model_weights self !! k).
    - destruct (model_weights self !! k) as [v|] eqn:Hs; [|reflexivity].
      destruct (Hdom k) as [v' Hv']; [now exists v | congruence]. }
  rewrite E, values_fmap, sum_Qsum, Qsum_scale, <- sum_Qsum.
  field. intros Hz. rewrite Hz in Hpos. apply (Qlt_irrefl 0 Hpos).
Qed.

End EnsembleFacts.

(** ** The BERT fallback inside the ensemble (C10) *)

Module BertFacts.
Import Py Ensemble EnsembleSpec.
Local Open Scope Q_scope.

(** The constructor never sets [advanced_simulator]. *)
Lemma init_has_no_advanced_simulator (uniform : nat -> Q) (sim : BertClassifier.object) :
  BertClassifier.__init__ uniform = Return sim ->
  sim !! "advanced_simulator"%string = None.
Proof.
  unfold BertClassifier.__init__.
  destruct (BertClassifier.compile_all uniform 0 BertClassifier.scam_patterns)
    as [compiled|e]; cbn [bind]; [|discriminate].
  intros [= <-].
  rewrite lookup_insert_ne by discriminate.
  rewrite lookup_insert_ne by discriminate.
  apply lookup_empty.
Qed.

(** Without that attribute the method always ends in its handler. *)
Lemma simulate_without_attribute (sim : BertClassifier.object) (text : string) :
  sim !! "advanced_simulator"%string = None ->
  BertClassifier.simulate_bert_prediction sim text = fallback_result.
Proof.
  intros H. unfold BertClassifier.simulate_bert_prediction, BertClassifier.getattr.
  rewrite H. reflexivity.
Qed.

(** The constructor succeeds whatever weights are drawn. *)
Lemma init_succeeds (uniform : nat -> Q) :
  exists sim, BertClassifier.__init__ uniform = Return sim.
Proof.
  unfold BertClassifier.__init__.
  assert (H : exists compiled,
             BertClassifier.compile_all uniform 0 BertClassifier.scam_patterns
             = Return compiled).
  { eexists. cbv - [Qplus Qmult Qminus]. reflexivity. }
  destruct H as [compiled ->]. eexists. reflexivity.
Qed.

(** C10. While the BERT model is not loaded, the [bert] prediction of the
    ensemble is the same for every text: score 0.1 and confidence 0.5,
    with the handler's dictionary as metadata, because the fallback
    simulator reads an attribute its constructor never sets. *)
Theorem bert_fallback_is_constant :
  forall (self : EnsembleScorer) (uniform : nat -> Q) (sim : BertClassifier.object)
         (predict_single : string -> gmap string pyval) (text : string) (elapsed : Q),
    BertClassifier.__init__ uniform = Return sim ->
    models_loaded self !! "bert"%string = Some false ->
    _get_bert_prediction self predict_single sim text elapsed
    = {| model_name := "bert";
         score := 0.1;
         confidence := 0.5;
         metadata := fallback_result;
         processing_time := elapsed |}.
Proof.
  intros self uniform sim predict_single text elapsed Hsim Hloaded.
  unfold _get_bert_prediction, getitem. rewrite Hloaded. cbn [bind try_except].
  rewrite (simulate_without_attribute sim text
             (init_has_no_advanced_simulator uniform sim Hsim)).
  reflexivity.
Qed.

Lemma built_simulator_ok : BertClassifier.__init__ (fun _ => 0.5) = Return built_simulator.
Proof. vm_compute. reflexivity. Qed.

Lemma bert_fallback_is_constant_witness :
  _get_bert_prediction (__init__ false) (fun _ => ∅) built_simulator
    "guaranteed 500% returns on your investment! act now!" 0
  = {| model_name := "bert";
       score := 0.1;
       confidence := 0.5;
       metadata := fallback_result;
       processing_time := 0 |}.
Proof.
  apply (bert_fallback_is_constant (__init__ false) (fun _ => 0.5) built_simulator).
  - apply built_simulator_ok.
  - reflexivity.
Defined.

End BertFacts.

(** ** The pattern risk detector (C6, C7) *)

Module PatternFacts.
Import Regex PatternMatcher PatternSpec.
Local Open Scope Q_scope.

Lemma match_confidence_specified (level : RiskLevel) (n : nat) :
  match_confidence level (Z.of_nat n) == specified_confidence level n.
Proof.
  unfold match_confidence, specified_confidence.
  assert (E : inject_Z (Z.of_nat n - 1) == inject_Z (Z.of_nat n) - 1).
  { unfold Z.sub. rewrite inject_Z_plus. reflexivity. }
  rewrite E. now rewrite (Qmult_comm _ 0.05).
Qed.

Lemma match_rule_nonempty (text cat : string) (info : CategoryInfo) (r : rule) :
  findall r.1.1 text <> [] ->
  match_rule text cat info r = [produced text cat info r].
Proof.
  destruct r as [[compiled original] level]. unfold match_rule, produced. cbn [fst snd].
  destruct (findall compiled text) eqn:E; [congruence|]. reflexivity.
Qed.

Lemma match_rule_sound (text cat : string) (info : CategoryInfo) (r : rule)
    (pm : PatternMatch) :
  In pm (match_rule text cat info r) ->
  pm = produced text cat info r /\ findall r.1.1 text <> [].
Proof.
  destruct r as [[compiled original] level]. unfold match_rule, produced. cbn [fst snd].
  destruct (findall compiled text) eqn:E; [intros []|].
  intros [<-|[]]. split; [reflexivity | discriminate].
Qed.

Lemma find_matches_loop_complete (pats : list (string * CategoryInfo))
    (compiled : list (string * list rule)) (text cat : string)
    (rules : list rule) (r : rule) :
  consistent pats compiled ->
  In (cat, rules) compiled -> In r rules ->
  findall r.1.1 text <> [] ->
  exists info, In (produced text cat info r) (find_matches_loop pats compiled text).
Proof.
  intros Hcons Hcat Hr Hfound.
  induction compiled as [|[c rs] compiled IH]; [destruct Hcat|].
  cbn [find_matches_loop].
  destruct (lookup_category pats c) as [info|] eqn:Hinfo.
  2:{ exfalso. apply (Hcons c rs); [now left | exact Hinfo]. }
  destruct Hcat as [[= -> ->]|Hcat].
  - exists info. apply in_or_app. left. apply in_flat_map.
    exists r. split; [exact Hr|]. rewrite match_rule_nonempty by exact Hfound. now left.
  - destruct IH as [info' Hin]; [|exact Hcat|].
    + intros c' rs' Hin. apply (Hcons c' rs'). now right.
    + exists info'. apply in_or_app. now right.
Qed.

Lemma find_matches_loop_sound (pats : list (string * CategoryInfo))
    (compiled : list (string * list rule)) (text : string) (pm : PatternMatch) :
  In pm (find_matches_loop pats compiled text) ->
  exists cat rules r info,
    In (cat, rules) compiled /\ In r rules /\
    findall r.1.1 text <> [] /\ pm = produced text cat info r.
Proof.
  induction compiled as [|[c rs] compiled IH]; [intros []|].
  cbn [find_matches_loop].
  destruct (lookup_category pats c) as [info|]; [|intros []].
  intros Hin. apply in_app_or in Hin. destruct Hin as [Hin|Hin].
  - apply in_flat_map in Hin. destruct Hin as (r & Hr & Hin).
    apply match_rule_sound in Hin. destruct Hin as [-> Hne].
    exists c, rs, r, info. repeat split; [now left | exact Hr | exact Hne].
  - destruct (IH Hin) as (cat & rules & r & info' & H1 & H2 & H3 & H4).
    exists cat, rules, r, info'. repeat split; [now right | exact H2 | exact H3 | exact H4].
Qed.

Lemma pattern_matcher_consistent :
  consistent (patterns pattern_matcher) (compiled_patterns pattern_matcher).
Proof.
  assert (H : forallb (fun e => bool_decide (is_Some (lookup_category (patterns pattern_matcher) e.1)))
                (compiled_patterns pattern_matcher) = true) by (vm_compute; reflexivity).
  rewrite forallb_forall in H. intros cat rules Hin.
  specialize (H _ Hin). apply bool_decide_eq_true in H. cbn [fst] in H.
  destruct H as [info ->]. discriminate.
Qed.

(** Every pattern of the catalogue compiles: none is left out. *)
Lemma catalogue_compiles :
  map (fun e => length e.2) (compiled_patterns pattern_matcher)
  = map (fun e => length (info_patterns e.2)) (patterns pattern_matcher).
Proof. vm_compute. reflexivity. Qed.

(** C6. A rule of the catalogue whose regex matches the text at least once
    yields a [PatternMatch] carrying all the matches, whose confidence is
    min(0.95, base_confidence[tier] + 0.05·(match_count − 1)) with
    base_confidence 0.9 / 0.8 / 0.6 / 0.4 for critical / high / medium /
    low; and every [PatternMatch] that [find_matches] returns has that
    confidence for its own tier and number of matches. *)
Theorem pattern_match_confidence :
  forall (text cat : string) (rules : list rule) (r : rule),
    In (cat, rules) (compiled_patterns pattern_matcher) ->
    In r rules ->
    findall r.1.1 text <> [] ->
    (exists pm,
       In pm (find_matches pattern_matcher text) /\
       pattern pm = r.1.2 /\ category pm = cat /\ risk_level pm = r.2 /\
       matches pm = findall r.1.1 text /\
       confidence pm == specified_confidence r.2 (length (findall r.1.1 text))) /\
    (forall pm,
       In pm (find_matches pattern_matcher text) ->
       matches pm <> [] /\
       confidence pm == specified_confidence (risk_level pm) (length (matches pm))) /\
    (base_confidence CRITICAL = 0.9 /\ base_confidence HIGH = 0.8 /\
     base_confidence MEDIUM = 0.6 /\ base_confidence LOW = 0.4).
Proof.
  intros text cat rules r Hcat Hr Hfound. repeat split.
  - destruct (find_matches_loop_complete _ _ text cat rules r
                pattern_matcher_consistent Hcat Hr Hfound) as [info Hin].
    exists (produced text cat info r). repeat split; [exact Hin|].
    cbn [confidence produced]. apply match_confidence_specified.
  - apply find_matches_loop_sound in H.
    destruct H as (c & rs & r' & info & _ & _ & Hne & ->). exact Hne.
  - apply find_matches_loop_sound in H.
    destruct H as (c & rs & r' & info & _ & _ & Hne & ->).
    cbn [confidence produced risk_level matches]. apply match_confidence_specified.
Qed.

(** *** Scenario A *)

Lemma pattern_match_confidence_witness :
  (exists pm,
     In pm (find_matches pattern_matcher scenario_a) /\
     pattern pm = percent_rule.1.2 /\ category pm = "investment_scams"%string /\
     risk_level pm = percent_rule.2 /\
     matches pm = findall percent_rule.1.1 scenario_a /\
     confidence pm
     == specified_confidence percent_rule.2 (length (findall percent_rule.1.1 scenario_a))) /\
  (forall pm,
     In pm (find_matches pattern_matcher scenario_a) ->
     matches pm <> [] /\
     confidence pm == specified_confidence (risk_level pm) (length (matches pm))) /\
  (base_confidence CRITICAL = 0.9 /\ base_confidence HIGH = 0.8 /\
   base_confidence MEDIUM = 0.6 /\ base_confidence LOW = 0.4).
Proof.
  apply (pattern_match_confidence scenario_a "investment_scams" investment_rules percent_rule).
  - vm_compute. left. reflexivity.
  - vm_compute. do 3 right. left. reflexivity.
  - vm_compute. discriminate.
Defined.

Lemma scenario_a_found :
  find_matches pattern_matcher scenario_a = [scenario_a_match].
Proof. vm_compute. reflexivity. Qed.

(** C7, as stated, fails: on the text of scenario A no rule of the
    [urgency_tactics] category matches. *)
Lemma scenario_a_no_urgency_match :
  ~ ((exists pm, In pm (find_matches pattern_matcher scenario_a) /\
                 category pm = "investment_scams"%string /\ risk_level pm = CRITICAL) /\
     (exists pm, In pm (find_matches pattern_matcher scenario_a) /\
                 category pm = "urgency_tactics"%string)).
Proof.
  rewrite scenario_a_found. intros [_ (pm & [<-|[]] & Hcat)]. discriminate Hcat.
Qed.

(** C7, amended. On the text of scenario A the detector returns exactly
    one match: the critical [investment_scams] rule for a percentage
    return, matched once on [500% return], with confidence 0.9.  No match
    is in the [urgency_tactics] category: its only rule about acting now
    needs the words that follow, [or miss out] or [or lose]. *)
Theorem scenario_a_pattern_matches :
  find_matches pattern_matcher scenario_a = [scenario_a_match] /\
  category scenario_a_match = "investment_scams"%string /\
  risk_level scenario_a_match = CRITICAL /\
  matches scenario_a_match = ["500% return"%string] /\
  confidence scenario_a_match == 0.9 /\
  (exists pm, In pm (find_matches pattern_matcher scenario_a) /\
              category pm = "investment_scams"%string /\ risk_level pm = CRITICAL) /\
  (forall pm, In pm (find_matches pattern_matcher scenario_a) ->
              category pm <> "urgency_tactics"%string).
Proof.
  rewrite scenario_a_found. repeat split.
  - exists scenario_a_match. repeat split. now left.
  - intros pm [<-|[]]. discriminate.
Qed.

End PatternFacts.

(** ** The scan queue worker (C8) *)

Module QueueFacts.
Import Py ScanProcessor ScanWorker QueueSpec WorkerSpec.

(** *** The retry handler, as a function *)

Lemma retry_requeues (item : ScanItem) (error : string) (now : Z) (w : World) :
  is_connected w = true ->
  (default 0 (retry_count item) < 3)%Z ->
  _handle_scan_retry item error now w
  = (add_to_queue (retry_queue item) (requeued item error now) w).1.
Proof.
  intros Hc Hlt. unfold _handle_scan_retry.
  apply Z.ltb_lt in Hlt. rewrite Hlt. reflexivity.
Qed.

Lemma retry_exhausted (item : ScanItem) (rid error : string) (now : Z) (w : World) :
  request_id item = Some rid -> rid <> ""%string ->
  (3 <= default 0 (retry_count item))%Z ->
  _handle_scan_retry item error now w
  = _store_scan_result rid (error_result error (default 0%Z (retry_count item)) now) w.
Proof.
  intros Hrid Hne Hge. unfold _handle_scan_retry.
  assert (Hlt : (default 0 (retry_count item) <? 3)%Z = false) by (apply Z.ltb_ge; lia).
  rewrite Hlt, Hrid.
  destruct (String.eqb rid "") eqn:E; [|reflexivity].
  apply String.eqb_eq in E. contradiction.
Qed.

Lemma queue_of_push (q : string) (item : ScanItem) (w : World) :
  is_connected w = true ->
  queue_of (add_to_queue q item w).1 q = item :: queue_of w q.
Proof.
  intros Hc. unfold add_to_queue. rewrite Hc. unfold queue_of at 1. cbn.
  now rewrite lookup_insert_eq.
Qed.

(** *** The detection service inside the worker *)

(** What [analyze_text] leaves of the world: it touches the store only. *)
Lemma analyze_text_world (r : DetectionService.Request)
    (m : DetectionService.Metrics) (w : World) :
  let w1 := (DetectionService.analyze_text r m w).2 in
  is_connected w1 = is_connected w /\
  queues w1 = queues w /\
  callbacks w1 = callbacks w /\
  processed_count w1 = processed_count w /\
  error_count w1 = error_count w.
Proof.
  cbn zeta. unfold DetectionService.analyze_text.
  destruct (if DetectionService.use_cache r then _ else None) as [cached|];
    [cbn; repeat split|].
  destruct (DetectionService.perform_analysis r) as [result|e]; [|cbn; repeat split].
  assert (Hw : forall w1 : World,
            w1 = w \/
            w1 = (DetectionService.cache_analysis_result (DetectionService.text_hash r)
                    result DetectionService.MODEL_UPDATE_INTERVAL
                    (DetectionService.now r) w).1 ->
            is_connected w1 = is_connected w /\ queues w1 = queues w /\
            callbacks w1 = callbacks w /\ processed_count w1 = processed_count w /\
            error_count w1 = error_count w).
  { intros w1 [->| ->]; [repeat split|].
    unfold DetectionService.cache_analysis_result, set_cache.
    destruct (is_connected w) eqn:Hc; cbn; rewrite ?Hc; repeat split. }
  destruct (DetectionService.use_cache r && DetectionService.is_success result);
    destruct (DetectionService._update_performance_metrics _ _);
    cbn [snd]; apply Hw; auto.
Qed.

Section WithHashlib.
Context `{DetectionService.Hashlib}.


(** [_process_scan_item] on an item with a text is the [try] block: the
    handler, and with it [_handle_scan_retry], is not reached. *)
Lemma process_scan_item_body (item : ScanItem) (txt : string) (ev : Round)
    (m : DetectionService.Metrics) (w : World) :
  text item = Some txt -> txt <> ""%string ->
  _process_scan_item item ev (m, w)
  = let r := DetectionService.analyze_text (analyze_request txt ev) m w in
    (r.1.2,
     count_processed
       (posted item
          (_store_scan_result (default "unknown"%string (request_id item)) r.1.1 r.2))).
Proof.
  intros Ht Hne. unfold _process_scan_item. rewrite Ht. cbn [default from_option id].
  assert (E : String.eqb txt "" = false) by (now apply String.eqb_neq).
  rewrite E.
  destruct (DetectionService.analyze_text (analyze_request txt ev) m w)
    as [[result m1] w1].
  reflexivity.
Qed.

(** An item without a text is dropped. *)
Lemma process_scan_item_empty (item : ScanItem) (ev : Round)
    (s : DetectionService.Metrics * World) :
  default ""%string (text item) = ""%string ->
  _process_scan_item item ev s = s.
Proof.
  intros Ht. unfold _process_scan_item. destruct s as [m w]. now rewrite Ht.
Qed.

(** Whatever the item and the analysis, processing leaves the queues, the
    connection and [error_count] as they were. *)
Lemma process_scan_item_keeps (item : ScanItem) (ev : Round)
    (m : DetectionService.Metrics) (w : World) :
  let w' := (_process_scan_item item ev (m, w)).2 in
  is_connected w' = is_connected w /\
  queues w' = queues w /\
  error_count w' = error_count w.
Proof.
  cbn zeta.
  destruct (String.eqb (default ""%string (text item)) "") eqn:E.
  - apply String.eqb_eq in E. rewrite (process_scan_item_empty item ev _ E).
    repeat split.
  - apply String.eqb_neq in E.
    destruct (text item) as [txt|] eqn:Ht; [|now contradict E].
    cbn [default from_option id] in E.
    rewrite (process_scan_item_body item txt ev m w Ht E). cbn zeta. cbn [snd].
    destruct (analyze_text_world (analyze_request txt ev) m w)
      as (Hc & Hq & _ & _ & He). cbn zeta in Hc, Hq, He.
    set (r := DetectionService.analyze_text (analyze_request txt ev) m w) in *.
    unfold posted, _store_scan_result, set_cache.
    destruct (is_connected r.2) eqn:Hc1; cbn [fst];
      destruct (callback_url item) as [url|]; try destruct (String.eqb url "");
      unfold _send_callback, count_processed;
      cbn [is_connected queues error_count];
      rewrite ?Hc1; repeat split; congruence.
Qed.

(** A round on an empty queue changes nothing. *)
Lemma idle_round (q : string) (ev : Round) (s : DetectionService.Metrics * World) :
  queue_of s.2 q = [] -> worker_round q ev s = s.
Proof.
  intros Hq. destruct s as [m w]. cbn [snd] in Hq.
  unfold worker_round, get_from_queue. cbn [fst snd]. rewrite Hq.
  destruct (is_connected w); reflexivity.
Qed.

Lemma idle_run (q : string) (evs : list Round) (s : DetectionService.Metrics * World) :
  queue_of s.2 q = [] -> worker_run q evs s = s.
Proof.
  intros Hq. unfold worker_run. induction evs as [|ev evs IH]; [reflexivity|].
  simpl. rewrite (idle_round q ev s Hq). exact IH.
Qed.

(** A round that finds one item in the queue takes it and processes it. *)
Lemma single_round (q : string) (item : ScanItem) (ev : Round)
    (m : DetectionService.Metrics) (w : World) :
  is_connected w = true ->
  queue_of w q = [item] ->
  exists w0,
    worker_round q ev (m, w) = _process_scan_item item ev (m, w0) /\
    is_connected w0 = true /\ queue_of w0 q = [] /\
    store w0 = store w /\ writes w0 = writes w /\ callbacks w0 = callbacks w /\
    processed_count w0 = processed_count w /\ error_count w0 = error_count w.
Proof.
  intros Hc Hq. unfold worker_round, get_from_queue. cbn [fst snd].
  rewrite Hc, Hq. cbn [reverse rev_append].
  eexists. split; [reflexivity|]. unfold queue_of. cbn.
  rewrite lookup_insert_eq. repeat split.
Qed.



End WithHashlib.


(** The whole life of the sample item, run: submitted, it fails in the
    first round; five more failing rounds find the queue empty.  One
    write, under the request id, of the [error] dict; no retry, no error
    counted. *)
Example sample_item_life :
  let final :=
    (@worker_run sample_hashlib scan_queue
       [failing; failing; failing; failing; failing; failing]
       (DetectionService.__init__,
        (add_scan_request sample_item "normal" 0 empty_world).1)).2 in
  queue_of final scan_queue = [] /\
  writes final = ["scan_result:req-1"%string] /\
  get_cache "scan_result:req-1" final
  = Some (DetectionService.error_response timeout_error 240 0.5) /\
  processed_count final = 1%Z /\
  error_count final = 0%Z.
Proof. vm_compute. repeat split; reflexivity. Qed.

End QueueFacts.

(** ** The seeded model simulator (C9) *)

Module SimulatorFacts.
Import Py Regex ModelSimulator SimulatorSpec.
Local Open Scope Q_scope.

Section WithNumpy.
Context `{Numpy}.

Lemma base_score_returns (g : rng) (n : nat) :
  exists b, _get_base_score_by_length (__init__ g).1 n = Return b.
Proof.
  unfold _get_base_score_by_length, getitem.
  change (base_probabilities (__init__ g).1)
    with (<["empty"%string := 0.01]>
          (<["very_short"%string := 0.15]>
             (<["short"%string := 0.25]>
                (<["medium"%string := 0.35]>
                   (<["long"%string := 0.30]> (∅ : gmap string Q)))))).
  destruct (n =? 0)%nat; [eexists; vm_compute; reflexivity|].
  destruct (n <? 20)%nat; [eexists; vm_compute; reflexivity|].
  destruct (n <? 100)%nat; [eexists; vm_compute; reflexivity|].
  destruct (n <? 500)%nat; eexists; vm_compute; reflexivity.
Qed.

(** Every pattern of the three tables compiles: none is left out. *)
Lemma tables_compile (g : rng) :
  length (compiled_patterns (__init__ g).1)
  = (length high_risk_patterns + length medium_risk_patterns
     + length low_risk_patterns)%nat.
Proof. vm_compute. reflexivity. Qed.

Lemma re_count_returns (pat text : string) :
  is_Some (parse pat) -> exists n, re_count pat text = Return n.
Proof. intros [r E]. unfold re_count. rewrite E. eexists. reflexivity. Qed.

Lemma re_count_all_returns (pats : list string) (text : string) :
  Forall (fun p => is_Some (parse p)) pats ->
  exists n, re_count_all pats text = Return n.
Proof.
  induction 1 as [|p pats Hp _ [m IH]]; [exists O; reflexivity|].
  destruct (re_count_returns p text Hp) as [n E].
  cbn [re_count_all]. rewrite E, IH. cbn [bind]. eexists. reflexivity.
Qed.

Ltac parses := repeat constructor; vm_compute; eexists; reflexivity.

Lemma context_score_returns (text_lower : string) :
  exists c, _calculate_context_score text_lower = Return c.
Proof.
  unfold _calculate_context_score.
  destruct (re_count_all_returns
              ["http[s]?://"; "bit\.ly"; "tinyurl"; "goo\.gl"]%string text_lower)
    as [urls ->]; [parses|]. cbn [bind].
  destruct (re_count_returns
              "\b[a-z0-9._%+-]+@[a-z0-9.-]+\.[a-z]{2,}\b" text_lower)
    as [emails ->]; [parses|]. cbn [bind].
  destruct (re_count_all_returns
              ["\d{3}-\d{3}-\d{4}"; "\(\d{3}\)\s*\d{3}-\d{4}"]%string text_lower)
    as [phones ->]; [parses|]. cbn [bind].
  destruct (re_count_all_returns
              ["\$\d+"; "\d+\s*dollars?"; "\d+\s*usd"]%string text_lower)
    as [money ->]; [parses|]. cbn [bind].
  eexists. reflexivity.
Qed.

Lemma text_scores_returns (g : rng) (text : string) :
  exists md matched, text_scores (__init__ g).1 text = Return (md, matched).
Proof.
  unfold text_scores.
  destruct (base_score_returns g (String.length text)) as [b ->]. cbn [bind].
  destruct (_calculate_pattern_score _ _) as [ps matched].
  destruct (context_score_returns (str_lower text)) as [c ->]. cbn [bind].
  eexists. eexists. reflexivity.
Qed.

Lemma clip_bounds (x : Q) : 0 <= Np.clip x 0.0 1.0 /\ Np.clip x 0.0 1.0 <= 1.
Proof.
  unfold Np.clip. split.
  - apply Q.min_glb; [|discriminate].
    apply Qle_trans with 0.0; [discriminate | apply Q.le_max_r].
  - apply Qle_trans with 1.0; [apply Q.le_min_r | discriminate].
Qed.

Lemma text_scores_combined (self : ScamModelSimulator) (text : string)
    (md : Metadata) (matched : list MatchedPattern) :
  text_scores self text = Return (md, matched) ->
  0 <= md_combined_score md /\ md_combined_score md <= 1.
Proof.
  unfold text_scores. intros E.
  destruct (_get_base_score_by_length self (String.length text)) as [b|e];
    cbn [bind] in E; [|discriminate].
  destruct (_calculate_pattern_score self (str_lower text)) as [ps m].
  destruct (_calculate_context_score (str_lower text)) as [c|e];
    cbn [bind] in E; [|discriminate].
  injection E as <- <-. cbn [md_combined_score].
  unfold _combine_scores_neural_style. apply clip_bounds.
Qed.

Lemma combined_score_bounds (self : ScamModelSimulator) (text : string) :
  0 <= combined_score_of self text /\ combined_score_of self text <= 1.
Proof.
  unfold combined_score_of.
  destruct (text_scores self text) as [[md matched]|e] eqn:E.
  - apply (text_scores_combined self text md matched E).
  - split; discriminate.
Qed.

(** One call on a text that passes the guard: one draw, added to the
    combined score of the text. *)
Lemma simulate_one_draw (self : ScamModelSimulator) (g : rng) (text : string) :
  too_short text = false ->
  (exists md matched, text_scores self text = Return (md, matched)) ->
  (simulate_bert_prediction self text g).2 = (standard_normal g).2 /\
  scam_probability (simulate_bert_prediction self text g).1
  = Np.clip (combined_score_of self text + (0 + 0.05 * (standard_normal g).1)) 0.0 1.0 /\
  confidence (simulate_bert_prediction self text g).1
  = Qmin 0.95
      (0.5 + Qabs (scam_probability (simulate_bert_prediction self text g).1 - 0.5)).
Proof.
  intros Hlong (md & matched & E).
  unfold simulate_bert_prediction, combined_score_of. rewrite Hlong, E.
  unfold _add_model_uncertainty, normal.
  destruct (standard_normal g) as [z g'].
  cbn [fst snd scam_probability confidence]. repeat split; reflexivity.
Qed.

Lemma simulate_short (self : ScamModelSimulator) (g : rng) (text : string) :
  too_short text = true ->
  simulate_bert_prediction self text g = (_empty_prediction, g).
Proof. intros Hshort. unfold simulate_bert_prediction. now rewrite Hshort. Qed.

Lemma two_calls_unfold (text : string) (g0 : rng) :
  (two_calls text g0).1
  = (simulate_bert_prediction (__init__ g0).1 text (seed 42)).1 /\
  (two_calls text g0).2
  = (simulate_bert_prediction (__init__ g0).1 text
       (simulate_bert_prediction (__init__ g0).1 text (seed 42)).2).1.
Proof.
  set (self := (__init__ g0).1). unfold two_calls.
  change (__init__ g0) with (self, seed 42). cbv iota.
  destruct (simulate_bert_prediction self text (seed 42)) as [b gb].
  cbn [fst snd].
  destruct (simulate_bert_prediction self text gb) as [b' gb'].
  split; reflexivity.
Qed.

Lemma two_calls_reseeded_same (s : Z) (text : string) (g0 : rng) :
  (two_calls_reseeded s text g0).1 = (two_calls_reseeded s text g0).2.
Proof.
  set (self := (__init__ g0).1). unfold two_calls_reseeded.
  change (__init__ g0) with (self, seed 42). cbv iota.
  destruct (simulate_bert_prediction self text (seed s)) as [a ga].
  reflexivity.
Qed.

(** C9, amended. The fallback prediction is a function of the text and of
    the state the global generator is in when the call is made, not of
    the text and the seed: the constructor seeds the generator (42) once;
    a call on a text that passes the guard makes exactly one normal draw
    z, leaves the generator one draw further, and returns the score
    clip(c + 0.05·z, 0, 1), where c in [0, 1] depends on the text alone,
    with confidence min(0.95, 0.5 + |score − 0.5|); a call on a shorter
    text returns the fixed empty prediction and makes no draw.  So two
    calls on the same text made from the same generator state, such as two
    calls each preceded by [np.random.seed(s)], return the same
    prediction, and two successive calls use two successive draws. *)
Theorem prediction_depends_on_generator_state :
  forall (text : string) (g0 : rng) (s : Z),
    let self := (__init__ g0).1 in
    let c := combined_score_of self text in
    (__init__ g0).2 = seed 42 /\
    (0 <= c /\ c <= 1) /\
    (forall g : rng,
       too_short text = true ->
       simulate_bert_prediction self text g = (_empty_prediction, g)) /\
    (forall g : rng,
       too_short text = false ->
       (simulate_bert_prediction self text g).2 = (standard_normal g).2 /\
       scam_probability (simulate_bert_prediction self text g).1
       = Np.clip (c + (0 + 0.05 * (standard_normal g).1)) 0.0 1.0 /\
       confidence (simulate_bert_prediction self text g).1
       = Qmin 0.95
           (0.5 + Qabs (scam_probability (simulate_bert_prediction self text g).1 - 0.5))) /\
    (two_calls_reseeded s text g0).1 = (two_calls_reseeded s text g0).2 /\
    (two_calls text g0).1 = (simulate_bert_prediction self text (seed 42)).1 /\
    (two_calls text g0).2
    = (simulate_bert_prediction self text
         (simulate_bert_prediction self text (seed 42)).2).1.
Proof.
  intros text g0 s self c.
  split; [reflexivity|].
  split; [apply combined_score_bounds|].
  split; [intros g; apply simulate_short|].
  split; [intros g Hlong;
          apply (simulate_one_draw self g text Hlong (text_scores_returns g0 text))|].
  split; [apply two_calls_reseeded_same|].
  apply two_calls_unfold.
Qed.

(** Two successive calls differ whenever the first draw is positive and
    the second negative. *)
Lemma successive_calls_differ (text : string) (g0 : rng) :
  too_short text = false ->
  (standard_normal (standard_normal (seed 42)).2).1 < 0 ->
  0 < (standard_normal (seed 42)).1 ->
  scam_probability (two_calls text g0).2 < scam_probability (two_calls text g0).1.
Proof.
  intros Hlong Hneg Hpos.
  destruct (two_calls_unfold text g0) as [-> ->].
  set (self := (__init__ g0).1) in *.
  destruct (combined_score_bounds self text) as [Hc0 Hc1].
  pose proof (text_scores_returns g0 text) as Hret. fold self in Hret.
  destruct (simulate_one_draw self (seed 42) text Hlong Hret) as (Hg & -> & _).
  destruct (simulate_one_draw self
              (simulate_bert_prediction self text (seed 42)).2 text Hlong Hret)
    as (_ & -> & _).
  rewrite Hg.
  set (c := combined_score_of self text) in *.
  set (z1 := (standard_normal (seed 42)).1) in *.
  set (z2 := (standard_normal (standard_normal (seed 42)).2).1) in *.
  unfold Np.clip.
  destruct (Q.min_spec (Qmax (c + (0 + 0.05 * z1)) 0.0) 1.0) as [[_ ->]|[_ ->]];
  destruct (Q.min_spec (Qmax (c + (0 + 0.05 * z2)) 0.0) 1.0) as [[L2 ->]|[L2 ->]];
  destruct (Q.max_spec (c + (0 + 0.05 * z1)) 0.0) as [[M1 E1]|[M1 E1]];
  destruct (Q.max_spec (c + (0 + 0.05 * z2)) 0.0) as [[M2 E2]|[M2 E2]];
  rewrite ?E1, ?E2 in *; lra.
Qed.

End WithNumpy.

(** C9, as stated, fails: on the listed generator, two successive calls of
    the fallback on the text of scenario A return different scores (and
    different confidences). *)
Lemma two_calls_disagree :
  ~ (scam_probability
       (@two_calls listed_numpy "guaranteed 500% returns on your investment! act now!" O).1
     == scam_probability
          (@two_calls listed_numpy "guaranteed 500% returns on your investment! act now!" O).2
     /\ confidence
          (@two_calls listed_numpy "guaranteed 500% returns on your investment! act now!" O).1
        == confidence
             (@two_calls listed_numpy "guaranteed 500% returns on your investment! act now!" O).2).
Proof. intros [H _]. vm_compute in H. discriminate. Qed.

End SimulatorFacts.

(** ** The pattern detector's risk analysis *)

Module RiskScoreFacts.
Import Py PatternMatcher PatternSpec RiskScoreSpec.
Local Open Scope Q_scope.

Lemma base_confidence_bounds (level : RiskLevel) :
  0.4 <= base_confidence level /\ base_confidence level <= 0.9.
Proof. destruct level; cbn; split; lra. Qed.

Lemma match_confidence_bounds (level : RiskLevel) (n : nat) :
  (0 < n)%nat ->
  0.4 <= match_confidence level (Z.of_nat n) /\
  match_confidence level (Z.of_nat n) <= 0.95.
Proof.
  intros Hn. unfold match_confidence. split; [|apply Q.le_min_l].
  apply Q.min_glb; [lra|].
  assert (H : 0 <= inject_Z (Z.of_nat n - 1)).
  { change 0 with (inject_Z 0). rewrite <- Zle_Qle. lia. }
  pose proof (base_confidence_bounds level) as [Hb _]. nra.
Qed.

(** Every match that [find_matches] returns has a confidence between 0.4
    and 0.95, whatever the catalogue. *)
Lemma find_matches_confidence_bounds (self : ScamPatternMatcher) (text : string)
    (pm : PatternMatch) :
  In pm (find_matches self text) ->
  0.4 <= confidence pm /\ confidence pm <= 0.95.
Proof.
  intros Hin. apply PatternFacts.find_matches_loop_sound in Hin.
  destruct Hin as (cat & rules & [[compiled original] level] & info & _ & _ & Hne & ->).
  cbn [fst snd] in Hne. unfold produced. cbn [confidence fst snd].
  apply match_confidence_bounds.
  destruct (findall compiled text); [congruence | cbn; lia].
Qed.

Lemma bump_multiplier_pos (cm : list (string * Q)) (cat : string) :
  multipliers_pos cm ->
  multipliers_pos (bump_multiplier cm cat).1 /\ 0 < (bump_multiplier cm cat).2.
Proof.
  unfold multipliers_pos. induction cm as [|[k v] cm IH]; intros Hpos.
  - cbn. split; [repeat constructor|]; cbn; lra.
  - inversion Hpos as [|? ? Hv Hcm]; subst. cbn [fst snd] in Hv.
    cbn [bump_multiplier]. destruct (String.eqb k cat).
    + cbn [fst snd]. split; [constructor; [cbn; lra | exact Hcm] | lra].
    + destruct (IH Hcm) as [H1 H2].
      destruct (bump_multiplier cm cat) as [rest' m]. cbn [fst snd] in *.
      split; [constructor; [exact Hv | exact H1] | exact H2].
Qed.

Lemma risk_weights_pos (level : RiskLevel) : 0.4 <= risk_weights level.
Proof. destruct level; cbn; lra. Qed.

(** The invariant of the loop: the accumulated score lies between [lo] and
    [hi] times the accumulated weight, and the weight only grows. *)
Lemma risk_step_invariant (lo hi : Q) (acc : Q * Q * list (string * Q))
    (pm : PatternMatch) :
  lo <= confidence pm -> confidence pm <= hi ->
  multipliers_pos acc.2 ->
  lo * acc.1.1 <= acc.1.2 -> acc.1.2 <= hi * acc.1.1 ->
  multipliers_pos (risk_step acc pm).2 /\
  lo * (risk_step acc pm).1.1 <= (risk_step acc pm).1.2 /\
  (risk_step acc pm).1.2 <= hi * (risk_step acc pm).1.1 /\
  acc.1.1 < (risk_step acc pm).1.1.
Proof.
  destruct acc as [[tw ts] cm]. cbn [fst snd]. intros Hlo Hhi Hpos H1 H2.
  unfold risk_step.
  destruct (bump_multiplier_pos cm (category pm) Hpos) as [Hpos' Hm].
  destruct (bump_multiplier cm (category pm)) as [cm' m]. cbn [fst snd] in *.
  pose proof (risk_weights_pos (risk_level pm)) as Hw.
  set (w := risk_weights (risk_level pm)) in *. set (c := confidence pm) in *.
  assert (Hwm : 0 < w * m) by nra.
  repeat split; try assumption.
  - assert (lo * (w * m) <= c * (w * m)) by nra. nra.
  - assert (c * (w * m) <= hi * (w * m)) by nra. nra.
  - lra.
Qed.

Lemma risk_fold_invariant (lo hi : Q) (ms : list PatternMatch) :
  forall acc : Q * Q * list (string * Q),
    Forall (fun pm => lo <= confidence pm /\ confidence pm <= hi) ms ->
    multipliers_pos acc.2 ->
    lo * acc.1.1 <= acc.1.2 -> acc.1.2 <= hi * acc.1.1 ->
    let r := fold_left risk_step ms acc in
    lo * r.1.1 <= r.1.2 /\ r.1.2 <= hi * r.1.1 /\
    acc.1.1 <= r.1.1 /\ (ms <> [] -> acc.1.1 < r.1.1).
Proof.
  induction ms as [|pm ms IH]; intros acc Hall Hpos H1 H2; cbn zeta.
  - cbn [fold_left]. repeat split; try assumption; [lra | congruence].
  - inversion Hall as [|? ? [Hlo Hhi] Hms]; subst.
    destruct (risk_step_invariant lo hi acc pm Hlo Hhi Hpos H1 H2)
      as (Hpos' & H1' & H2' & Hlt).
    specialize (IH (risk_step acc pm) Hms Hpos' H1' H2'). cbn zeta in IH.
    destruct IH as (I1 & I2 & I3 & _). cbn [fold_left].
    repeat split; try assumption; [lra | intros _; lra].
Qed.

(** The risk score of a non-empty list of matches is the weighted mean of
    their confidences, capped at 0.95: it lies between the smallest
    confidence (capped) and 0.95. *)
Lemma calculate_risk_score_range (lo hi : Q) (ms : list PatternMatch) :
  ms <> [] ->
  Forall (fun pm => lo <= confidence pm /\ confidence pm <= hi) ms ->
  Qmin 0.95 lo <= ra_risk_score (calculate_risk_score ms) /\
  ra_risk_score (calculate_risk_score ms) <= Qmin 0.95 hi.
Proof.
  intros Hne Hall. destruct ms as [|pm0 ms0]; [congruence|].
  unfold calculate_risk_score.
  set (ms := pm0 :: ms0) in *.
  assert (Hinit : multipliers_pos (0.0, 0.0, @nil (string * Q)).2) by constructor.
  pose proof (risk_fold_invariant lo hi ms (0.0, 0.0, []) Hall Hinit) as H.
  cbn [fst snd] in H.
  assert (E1 : lo * 0.0 <= 0.0) by (assert (lo * 0.0 == 0) by ring; lra).
  assert (E2 : 0.0 <= hi * 0.0) by (assert (hi * 0.0 == 0) by ring; lra).
  specialize (H E1 E2). cbn zeta in H.
  destruct (fold_left risk_step ms (0.0, 0.0, [])) as [[tw ts] cm].
  cbn [fst snd] in H. destruct H as (I1 & I2 & _ & Hlt). specialize (Hlt Hne).
  cbn [ra_risk_score].
  assert (Htw : 0 < tw) by lra.
  assert (Hb : Np.Qltb 0 tw = true).
  { unfold Np.Qltb. destruct (Qle_bool tw 0) eqn:E; [|reflexivity].
    apply Qle_bool_iff in E. lra. }
  rewrite Hb.
  assert (Hq1 : lo <= ts / tw).
  { apply Qle_shift_div_l; [exact Htw | lra]. }
  assert (Hq2 : ts / tw <= hi).
  { apply Qle_shift_div_r; [exact Htw | lra]. }
  split.
  - apply Q.min_glb; [apply Q.le_min_l|].
    apply Qle_trans with lo; [apply Q.le_min_r | exact Hq1].
  - apply Q.min_glb; [apply Q.le_min_l|].
    apply Qle_trans with (ts / tw); [apply Q.le_min_r | exact Hq2].
Qed.

Lemma Qsum_bounds (lo hi : Q) (xs : list Q) :
  Forall (fun x => lo <= x /\ x <= hi) xs ->
  lo * inject_Z (Z.of_nat (length xs)) <= EnsembleSpec.Qsum xs /\
  EnsembleSpec.Qsum xs <= hi * inject_Z (Z.of_nat (length xs)).
Proof.
  induction 1 as [|x xs [Hlo Hhi] _ [IH1 IH2]].
  - cbn. split; [assert (E : lo * inject_Z 0 == 0) by ring
                | assert (E : hi * inject_Z 0 == 0) by ring]; rewrite E; apply Qle_refl.
  - change (EnsembleSpec.Qsum (x :: xs)) with (x + EnsembleSpec.Qsum xs).
    cbn [length]. rewrite Nat2Z.inj_succ. unfold Z.succ.
    rewrite inject_Z_plus. change (inject_Z 1) with 1.
    set (n := inject_Z (Z.of_nat (length xs))) in *.
    assert (E1 : lo * (n + 1) == lo * n + lo) by ring.
    assert (E2 : hi * (n + 1) == hi * n + hi) by ring.
    rewrite E1, E2. split; lra.
Qed.

(** [np.mean] of a non-empty list lies between its bounds. *)
Lemma mean_bounds (lo hi : Q) (xs : list Q) :
  xs <> [] ->
  Forall (fun x => lo <= x /\ x <= hi) xs ->
  lo <= Np.mean xs /\ Np.mean xs <= hi.
Proof.
  intros Hne Hall. rewrite EnsembleFacts.mean_Qsum.
  pose proof (EnsembleFacts.Qnat_length_pos xs Hne) as Hn.
  destruct (Qsum_bounds lo hi xs Hall) as [H1 H2]. split.
  - apply Qle_shift_div_l; [exact Hn | exact H1].
  - apply Qle_shift_div_r; [exact Hn | exact H2].
Qed.

Lemma remove_dups_nonempty (l : list string) : l <> [] -> remove_dups l <> [].
Proof.
  destruct l as [|x l]; [congruence|]. intros _ E.
  assert (H : x ∈ remove_dups (x :: l)) by (apply elem_of_remove_dups; left).
  rewrite E in H. inversion H.
Qed.

(** The confidence of the analysis of a non-empty list of matches. *)
Lemma calculate_risk_confidence_range (lo : Q) (ms : list PatternMatch) :
  ms <> [] -> 0 <= lo ->
  Forall (fun pm => lo <= confidence pm /\ confidence pm <= 0.95) ms ->
  Qmin 0.95 (lo * 1.1) <= ra_confidence (calculate_risk_score ms) /\
  ra_confidence (calculate_risk_score ms) <= 0.95.
Proof.
  intros Hne Hlo Hall. destruct ms as [|pm0 ms0]; [congruence|].
  unfold calculate_risk_score. set (ms := pm0 :: ms0) in *.
  destruct (fold_left risk_step ms (0.0, 0.0, [])) as [[tw ts] cm].
  cbn [ra_confidence]. split; [|apply Q.le_min_l].
  assert (Hm : lo <= Np.mean (map confidence ms)).
  { apply (mean_bounds lo 0.95); [subst ms; discriminate|].
    apply Forall_map. exact Hall. }
  assert (Hd : 1 <= inject_Z (Z.of_nat (length (remove_dups (map category ms))))).
  { assert (H : remove_dups (map category ms) <> [])
      by (apply remove_dups_nonempty; subst ms; discriminate).
    destruct (remove_dups (map category ms)); [congruence|].
    change 1 with (inject_Z 1). rewrite <- Zle_Qle. cbn [length]. lia. }
  apply Q.min_glb; [apply Q.le_min_l|].
  apply Qle_trans with (lo * 1.1); [apply Q.le_min_r|]. nra.
Qed.

Lemma risk_level_of_score (ms : list PatternMatch) :
  ms <> [] ->
  0.4 <= ra_risk_score (calculate_risk_score ms) ->
  In (ra_risk_level (calculate_risk_score ms)) ["medium"; "high"; "critical"]%string.
Proof.
  intros Hne. destruct ms as [|pm0 ms0]; [congruence|].
  unfold calculate_risk_score. set (ms := pm0 :: ms0) in *.
  destruct (fold_left risk_step ms (0.0, 0.0, [])) as [[tw ts] cm].
  cbn [ra_risk_score ra_risk_level].
  set (s := if Np.Qltb 0 tw then _ else _). intros Hs.
  destruct (Qle_bool 0.8 s); [cbn; tauto|].
  destruct (Qle_bool 0.6 s); [cbn; tauto|].
  destruct (Qle_bool 0.4 s) eqn:E; [cbn; tauto|].
  apply EnsembleFacts.Qle_bool_false in E. lra.
Qed.

(** The keys of the two dicts built over the matches are the categories in
    the order of their first occurrence. *)
Lemma bump_multiplier_keys (cm : list (string * Q)) (cat : string) :
  map fst (bump_multiplier cm cat).1
  = if existsb (String.eqb cat) (map fst cm) then map fst cm else map fst cm ++ [cat].
Proof.
  induction cm as [|[k v] cm IH]; [reflexivity|].
  cbn [bump_multiplier map fst existsb].
  rewrite (String.eqb_sym cat k).
  destruct (String.eqb k cat); [reflexivity|]. cbn [orb].
  destruct (bump_multiplier cm cat) as [rest' m]. cbn [fst map] in *.
  rewrite IH. destruct (existsb _ _); reflexivity.
Qed.

Lemma append_to_category_keys (d : list (string * list CategoryMatch)) (cat : string)
    (entry : CategoryMatch) :
  map fst (append_to_category d cat entry)
  = if existsb (String.eqb cat) (map fst d) then map fst d else map fst d ++ [cat].
Proof.
  induction d as [|[k es] d IH]; [reflexivity|].
  cbn [append_to_category map fst existsb].
  rewrite (String.eqb_sym cat k).
  destruct (String.eqb k cat); [reflexivity|]. cbn [orb map fst].
  rewrite IH. destruct (existsb _ _); reflexivity.
Qed.

Lemma append_to_category_size (d : list (string * list CategoryMatch)) (cat : string)
    (entry : CategoryMatch) :
  list_sum (map (fun e => length e.2) (append_to_category d cat entry))
  = S (list_sum (map (fun e => length e.2) d)).
Proof.
  induction d as [|[k es] d IH]; [reflexivity|].
  cbn [append_to_category]. destruct (String.eqb k cat).
  - simpl. rewrite length_app. simpl. lia.
  - simpl in *. rewrite IH. lia.
Qed.

Lemma first_seen_step (keys : list string) (cat : string) :
  NoDup keys ->
  NoDup (if existsb (String.eqb cat) keys then keys else keys ++ [cat]).
Proof.
  intros Hnd. destruct (existsb (String.eqb cat) keys) eqn:E; [exact Hnd|].
  apply NoDup_app. split; [exact Hnd|]. split; [|apply NoDup_singleton].
  intros x Hx Hx'. apply list_elem_of_singleton in Hx'. subst x.
  assert (Ht : existsb (String.eqb cat) keys = true).
  { apply existsb_exists. exists cat. split; [now apply list_elem_of_In | apply String.eqb_refl]. }
  congruence.
Qed.

Lemma both_dicts_same_keys (ms : list PatternMatch) :
  forall (acc : Q * Q * list (string * Q)) (d : list (string * list CategoryMatch)),
    map fst acc.2 = map fst d -> NoDup (map fst d) ->
    let d' := fold_left
                (fun by_category match_ =>
                   append_to_category by_category (category match_)
                     {| cm_pattern := pattern match_;
                        cm_matches := matches match_;
                        cm_risk_level := RiskLevel_value (risk_level match_);
                        cm_confidence := confidence match_;
                        cm_description := description match_ |}) ms d in
    map fst (fold_left risk_step ms acc).2 = map fst d' /\
    NoDup (map fst d') /\
    list_sum (map (fun e => length e.2) d')
    = (length ms + list_sum (map (fun e => length e.2) d))%nat.
Proof.
  induction ms as [|pm ms IH]; intros acc d Hk Hnd; cbn zeta.
  - cbn [fold_left length]. repeat split; assumption || lia.
  - cbn [fold_left].
    set (entry := {| cm_pattern := pattern pm |}).
    specialize (IH (risk_step acc pm) (append_to_category d (category pm) entry)).
    cbn zeta in IH.
    destruct IH as (I1 & I2 & I3).
    + destruct acc as [[tw ts] cm]. unfold risk_step.
      pose proof (bump_multiplier_keys cm (category pm)) as Hb.
      destruct (bump_multiplier cm (category pm)) as [cm' m]. cbn [fst snd] in *.
      rewrite Hb, append_to_category_keys, Hk. reflexivity.
    + rewrite append_to_category_keys. now apply first_seen_step.
    + repeat split; [exact I1 | exact I2|].
      rewrite I3, append_to_category_size. cbn [length]. lia.
Qed.

(** The ranges of the risk analysis of any text. *)
Lemma risk_analysis_range (self : ScamPatternMatcher) (text : string) :
  let r := risk_analysis (analyze_text self text) in
  0.1 <= ra_risk_score r /\ ra_risk_score r <= 0.95 /\
  0.44 <= ra_confidence r /\ ra_confidence r <= 0.95.
Proof.
  cbn zeta. unfold analyze_text. cbn [risk_analysis].
  set (ms := find_matches self text).
  assert (Hall : Forall (fun pm => 0.4 <= confidence pm /\ confidence pm <= 0.95) ms).
  { apply List.Forall_forall. intros pm Hin.
    now apply (find_matches_confidence_bounds self text). }
  clearbody ms. destruct ms as [|pm0 ms0].
  - cbn. repeat split; discriminate.
  - assert (Hne : pm0 :: ms0 <> []) by discriminate.
    destruct (calculate_risk_score_range 0.4 0.95 _ Hne Hall) as [H1 H2].
    destruct (calculate_risk_confidence_range 0.4 _ Hne ltac:(lra) Hall) as [H3 H4].
    assert (E1 : Qmin 0.95 0.4 == 0.4) by (apply Q.min_r; lra).
    assert (E2 : Qmin 0.95 0.95 == 0.95) by (apply Q.min_l; lra).
    assert (E3 : Qmin 0.95 (0.4 * 1.1) == 0.44).
    { rewrite Q.min_r by lra. reflexivity. }
    rewrite E1 in H1. rewrite E2 in H2. rewrite E3 in H3.
    repeat split; try assumption. lra.
Qed.

(** The risk analysis of a text, for any catalogue and in exact
    arithmetic: the fixed 0.1 / 0.5 / low without a match, and with a match
    a risk score of at least 0.4. *)
Lemma risk_analysis_levels (self : ScamPatternMatcher) (text : string) :
  let a := analyze_text self text in
  let r := risk_analysis a in
  (total_matches a = 0%nat ->
     ra_risk_score r == 0.1 /\ ra_confidence r == 0.5 /\
     ra_risk_level r = "low"%string) /\
  (total_matches a <> 0%nat ->
     0.4 <= ra_risk_score r /\ ra_risk_score r <= 0.95 /\
     0.44 <= ra_confidence r /\ ra_confidence r <= 0.95 /\
     In (ra_risk_level r) ["medium"; "high"; "critical"]%string).
Proof.
  cbn zeta. unfold analyze_text.
  cbn [risk_analysis total_matches].
  set (ms := find_matches self text).
  assert (Hall : Forall (fun pm => 0.4 <= confidence pm /\ confidence pm <= 0.95) ms).
  { apply List.Forall_forall. intros pm Hin.
    now apply (find_matches_confidence_bounds self text). }
  clearbody ms. split.
  - intros Hlen. destruct ms; [|discriminate]. cbn. repeat split; reflexivity.
  - intros Hlen. assert (Hne : ms <> []) by (intros ->; now apply Hlen).
    destruct (calculate_risk_score_range 0.4 0.95 ms Hne Hall) as [H1 H2].
    destruct (calculate_risk_confidence_range 0.4 ms Hne ltac:(lra) Hall) as [H3 H4].
    assert (E1 : Qmin 0.95 0.4 == 0.4) by (apply Q.min_r; lra).
    assert (E2 : Qmin 0.95 0.95 == 0.95) by (apply Q.min_l; lra).
    assert (E3 : Qmin 0.95 (0.4 * 1.1) == 0.44).
    { rewrite Q.min_r by lra. reflexivity. }
    rewrite E1 in H1. rewrite E2 in H2. rewrite E3 in H3.
    repeat split; try assumption.
    apply risk_level_of_score; assumption.
Qed.

(** X1. With the catalogue the package ships ([pattern_matcher]), the risk
    analysis of a text rates it [low] exactly when no rule matched:
    without a match the result is the fixed 0.1 / 0.5 / low; with at least
    one match the risk score is between 0.4 and 0.95, the confidence
    between 0.44 and 0.95, and the level is medium, high or critical. *)
Theorem matched_text_is_never_low_risk :
  forall text : string,
    let a := analyze_text pattern_matcher text in
    let r := risk_analysis a in
    (total_matches a = 0%nat ->
       ra_risk_score r == 0.1 /\ ra_confidence r == 0.5 /\
       ra_risk_level r = "low"%string) /\
    (total_matches a <> 0%nat ->
       0.4 <= ra_risk_score r /\ ra_risk_score r <= 0.95 /\
       0.44 <= ra_confidence r /\ ra_confidence r <= 0.95 /\
       In (ra_risk_level r) ["medium"; "high"; "critical"]%string).
Proof.
  intros text. exact (risk_analysis_levels pattern_matcher text).
Qed.

(** X2. The counts of an analysis agree with each other: [total_matches]
    is the number of entries over all the lists of [matches_by_category],
    whose keys are pairwise different and are, in the same order, the
    [categories_detected] of the risk analysis; [unique_categories] is
    their number, and [match_count] is [total_matches]. *)
Theorem analysis_counts_agree :
  forall (self : ScamPatternMatcher) (text : string),
    let a := analyze_text self text in
    total_matches a
    = list_sum (map (fun e => length e.2) (matches_by_category a)) /\
    NoDup (map fst (matches_by_category a)) /\
    unique_categories a = length (map fst (matches_by_category a)) /\
    (total_matches a <> 0%nat ->
       ra_match_count (risk_analysis a) = Some (total_matches a) /\
       ra_categories_detected (risk_analysis a)
       = Some (map fst (matches_by_category a))).
Proof.
  intros self text a. subst a. unfold analyze_text.
  cbn [risk_analysis total_matches matches_by_category unique_categories].
  set (ms := find_matches self text). clearbody ms.
  pose proof (both_dicts_same_keys ms (0.0, 0.0, []) [] eq_refl (NoDup_nil_2))
    as H.
  cbn zeta in H. destruct H as (H1 & H2 & H3).
  rewrite H3.
  split; [simpl; lia|]. split; [exact H2|]. split; [now rewrite length_map|].
  intros Hlen. destruct ms as [|pm0 ms0]; [now contradict Hlen|].
  unfold calculate_risk_score. set (ms := pm0 :: ms0) in *.
  destruct (fold_left risk_step ms (0.0, 0.0, [])) as [[tw ts] cm].
  cbn [ra_match_count ra_categories_detected snd] in *.
  rewrite H1. split; reflexivity.
Qed.

End RiskScoreFacts.

(** ** The ensemble's weights and the range of its results *)

Module WeightFacts.
Import Py Ensemble EnsembleSpec WeightSpec.
Local Open Scope Q_scope.

Lemma values_elem_inv (d : gmap string Q) (v : Q) :
  In v (values d) -> exists k, d !! k = Some v.
Proof.
  unfold values. intros H. apply list_elem_of_In in H.
  apply list_elem_of_fmap in H. destruct H as ([k v'] & -> & H).
  exists k. now apply elem_of_map_to_list.
Qed.

Lemma Qsum_ge_elem (xs : list Q) (v : Q) :
  Forall (fun x => 0 <= x) xs -> In v xs -> v <= Qsum xs.
Proof.
  induction 1 as [|x xs Hx Hxs IH]; [intros []|].
  change (Qsum (x :: xs)) with (x + Qsum xs).
  pose proof (EnsembleFacts.Qsum_nonneg xs Hxs) as Hs.
  intros [->|Hin]; [lra|]. specialize (IH Hin). lra.
Qed.

Lemma Qsum_pos_exists (xs : list Q) :
  0 < Qsum xs -> exists v, In v xs /\ 0 < v.
Proof.
  induction xs as [|x xs IH]; [intros H; exfalso; apply (Qlt_irrefl 0 H)|].
  change (Qsum (x :: xs)) with (x + Qsum xs). intros H.
  destruct (Qlt_le_dec 0 x) as [Hx|Hx].
  - exists x. split; [now left | exact Hx].
  - destruct IH as (v & Hin & Hv); [lra|]. exists v. split; [now right | exact Hv].
Qed.

(** The validation of [update_weights], read on the dict. *)
Lemma weights_valid_iff (nw : gmap string Q) :
  forallb (fun weight => Qle_bool 0 weight && Qle_bool weight 1) (values nw) = true
  <-> (forall k v, nw !! k = Some v -> 0 <= v /\ v <= 1).
Proof.
  rewrite forallb_forall. split.
  - intros H k v Hk. specialize (H v (EnsembleFacts.values_elem _ _ _ Hk)).
    apply andb_true_iff in H. destruct H as [H0 H1].
    split; now apply Qle_bool_iff.
  - intros H v Hin. apply values_elem_inv in Hin. destruct Hin as [k Hk].
    destruct (H k v Hk) as [H0 H1]. apply andb_true_iff.
    split; now apply Qle_bool_iff.
Qed.

Lemma values_nonneg (nw : gmap string Q) :
  (forall k v, nw !! k = Some v -> 0 <= v /\ v <= 1) ->
  Forall (fun x => 0 <= x) (values nw).
Proof.
  intros H. apply List.Forall_forall. intros v Hin.
  apply values_elem_inv in Hin. destruct Hin as [k Hk]. now destruct (H k v Hk).
Qed.

Lemma total_positive_iff (nw : gmap string Q) :
  (forall k v, nw !! k = Some v -> 0 <= v /\ v <= 1) ->
  Np.Qltb 0 (Np.sum (values nw)) = true <-> (exists k v, nw !! k = Some v /\ 0 < v).
Proof.
  intros Hvalid. rewrite EnsembleFacts.Qltb_spec, EnsembleFacts.sum_Qsum. split.
  - intros H. apply Qsum_pos_exists in H. destruct H as (v & Hin & Hv).
    apply values_elem_inv in Hin. destruct Hin as [k Hk]. now exists k, v.
  - intros (k & v & Hk & Hv).
    apply Qlt_le_trans with v; [exact Hv|].
    apply Qsum_ge_elem; [now apply values_nonneg | now apply (EnsembleFacts.values_elem nw k)].
Qed.

(** X3. [update_weights] accepts an update exactly when every new weight
    lies in [0, 1] and at least one is positive (so the empty update and
    the all-zero update are refused); a refused update returns [False] and
    leaves the scorer as it was. *)
Theorem update_weights_acceptance :
  forall (self : EnsembleScorer) (new_weights : gmap string Q),
    ((update_weights self new_weights).2 = true <->
       (forall k v, new_weights !! k = Some v -> 0 <= v /\ v <= 1) /\
       (exists k v, new_weights !! k = Some v /\ 0 < v)) /\
    ((update_weights self new_weights).2 = false ->
       (update_weights self new_weights).1 = self).
Proof.
  intros self nw. unfold update_weights.
  destruct (forallb _ (values nw)) eqn:Hall; cbn [bind try_except].
  - pose proof (proj1 (weights_valid_iff nw) Hall) as Hvalid.
    pose proof (total_positive_iff nw Hvalid) as Hpos.
    destruct (Np.Qltb 0 (Np.sum (values nw))); cbn [try_except fst snd].
    + split; [|discriminate]. split; [intros _|reflexivity].
      split; [exact Hvalid | now apply Hpos].
    + split; [|reflexivity]. split; [discriminate|].
      intros [_ Hex]. now apply Hpos.
  - split; [|reflexivity]. split; [discriminate|].
    intros [Hvalid _]. apply weights_valid_iff in Hvalid. cbn [snd]. congruence.
Qed.

Lemma init_weights_unit (bert_loaded : bool) : weights_unit (__init__ bert_loaded).
Proof.
  intros name. unfold weight_of, __init__, ENSEMBLE_WEIGHTS; cbn [model_weights].
  rewrite !lookup_insert.
  repeat case_decide; rewrite ?lookup_empty; cbn; split; discriminate.
Qed.

Lemma update_weights_unit (self : EnsembleScorer) (nw : gmap string Q) :
  weights_unit self -> weights_unit (update_weights self nw).1.
Proof.
  intros Hw. unfold update_weights.
  destruct (forallb _ _) eqn:Hall; cbn [bind try_except]; [|exact Hw].
  pose proof (proj1 (weights_valid_iff nw) Hall) as Hvalid.
  destruct (Np.Qltb 0 (Np.sum (values nw))) eqn:Hpos; cbn [try_except fst]; [|exact Hw].
  apply EnsembleFacts.Qltb_spec in Hpos.
  intros name. unfold weight_of; cbn [model_weights].
  rewrite lookup_union, lookup_fmap.
  destruct (nw !! name) as [v|] eqn:Hv; cbn.
  - destruct (Hvalid name v Hv) as [Hv0 _].
    assert (Hle : v <= Np.sum (values nw)).
    { rewrite EnsembleFacts.sum_Qsum.
      apply Qsum_ge_elem; [now apply values_nonneg | now apply (EnsembleFacts.values_elem nw name)]. }
    destruct (model_weights self !! name); cbn;
      (split; [apply Qle_shift_div_l; [exact Hpos | lra]
              | apply Qle_shift_div_r; [exact Hpos | lra]]).
  - specialize (Hw name). unfold weight_of in Hw.
    destruct (model_weights self !! name); cbn in *; exact Hw.
Qed.

(** X4. Invariant of the scorer: after construction and any sequence of
    weight updates, accepted or refused, the weight the combiner uses for
    any source name (the stored one, or the default 0.1) lies in [0, 1]. *)
Theorem reachable_weights_unit :
  forall (bert_loaded : bool) (updates : list (gmap string Q)) (name : string),
    0 <= weight_of (after_updates (__init__ bert_loaded) updates) name /\
    weight_of (after_updates (__init__ bert_loaded) updates) name <= 1.
Proof.
  intros bert_loaded updates. unfold after_updates.
  generalize (init_weights_unit bert_loaded).
  generalize (__init__ bert_loaded). induction updates as [|nw updates IH]; intros s Hs.
  - exact Hs.
  - simpl. apply IH. now apply update_weights_unit.
Qed.

Lemma Qsum_perm (xs ys : list Q) : xs ≡ₚ ys -> Qsum xs == Qsum ys.
Proof.
  induction 1 as [|x xs ys _ IH|x y xs|xs ys zs _ IH1 _ IH2].
  - reflexivity.
  - change (x + Qsum xs == x + Qsum ys). now rewrite IH.
  - change (y + (x + Qsum xs) == x + (y + Qsum xs)). ring.
  - now rewrite IH1.
Qed.

Lemma values_sum_union (m1 m2 : gmap string Q) :
  m1 ##ₘ m2 ->
  Qsum (values (m1 ∪ m2)) == Qsum (values m1) + Qsum (values m2).
Proof.
  induction m1 as [|k v m1 Hk IH] using map_ind; intros Hdisj.
  - rewrite (left_id_L ∅ (∪)). unfold values at 2. rewrite map_to_list_empty.
    cbn. ring.
  - apply map_disjoint_insert_l in Hdisj. destruct Hdisj as [Hk2 Hdisj].
    rewrite <- insert_union_l. unfold values.
    assert (Hnone : (m1 ∪ m2) !! k = None).
    { rewrite lookup_union, Hk, Hk2. reflexivity. }
    rewrite (Qsum_perm _ _ (fmap_Permutation snd _ _ (map_to_list_insert (m1 ∪ m2) k v Hnone))).
    rewrite (Qsum_perm _ _ (fmap_Permutation snd _ _ (map_to_list_insert m1 k v Hk))).
    cbn [fmap list_fmap snd]. change (v + Qsum (values (m1 ∪ m2)) ==
                                      v + Qsum (values m1) + Qsum (values m2)).
    rewrite (IH Hdisj). ring.
Qed.

(** X5. What an accepted update leaves in store: the new weights are
    normalised to sum to 1 and merged over the stored ones, so the stored
    weights then sum to 1 plus the weights of the sources the update did
    not name. *)
Theorem accepted_update_stored_sum :
  forall (self : EnsembleScorer) (new_weights : gmap string Q),
    (update_weights self new_weights).2 = true ->
    stored_weight_sum (update_weights self new_weights).1
    == 1 + Np.sum (values (model_weights self ∖ new_weights)).
Proof.
  intros self nw. unfold update_weights.
  destruct (forallb _ _); cbn [bind try_except]; [|discriminate].
  destruct (Np.Qltb 0 (Np.sum (values nw))) eqn:Hpos; cbn [try_except fst snd];
    [|discriminate].
  intros _. apply EnsembleFacts.Qltb_spec in Hpos.
  unfold stored_weight_sum. cbn [model_weights].
  set (normalized := (fun v => v / Np.sum (values nw)) <$> nw).
  assert (E : normalized ∪ model_weights self
              = normalized ∪ (model_weights self ∖ nw)).
  { apply map_eq. intros k. rewrite !lookup_union, lookup_difference.
    subst normalized. rewrite lookup_fmap.
    destruct (nw !! k) as [v|]; cbn; [|reflexivity].
    now destruct (model_weights self !! k). }
  assert (Hdisj : normalized ##ₘ model_weights self ∖ nw).
  { apply map_disjoint_spec. intros k x y Hx Hy.
    apply lookup_difference_Some in Hy. destruct Hy as [_ Hy].
    subst normalized. rewrite lookup_fmap, Hy in Hx. discriminate. }
  rewrite E, !EnsembleFacts.sum_Qsum, (values_sum_union _ _ Hdisj).
  subst normalized.
  rewrite EnsembleFacts.values_fmap, EnsembleFacts.Qsum_scale, <- EnsembleFacts.sum_Qsum.
  assert (E1 : Np.sum (values nw) / Np.sum (values nw) == 1).
  { field. intros Hz. rewrite Hz in Hpos. apply (Qlt_irrefl 0 Hpos). }
  rewrite E1. reflexivity.
Qed.

Lemma accepted_update_stored_sum_witness :
  stored_weight_sum (update_weights (__init__ false) partial_update).1
  == 1 + Np.sum (values (model_weights (__init__ false) ∖ partial_update)).
Proof.
  apply (accepted_update_stored_sum (__init__ false) partial_update).
  vm_compute. reflexivity.
Defined.

Lemma var_nonneg (xs : list Q) : xs <> [] -> 0 <= Np.var xs.
Proof.
  intros Hne. unfold Np.var. set (m := Np.mean xs).
  rewrite EnsembleFacts.mean_Qsum, length_map.
  apply Qle_shift_div_l; [now apply EnsembleFacts.Qnat_length_pos|].
  assert (E : 0 * inject_Z (Z.of_nat (length xs)) == 0) by ring. rewrite E.
  apply EnsembleFacts.Qsum_nonneg. apply Forall_map.
  apply List.Forall_forall. intros x _. cbn beta. set (d := x - m).
  destruct (Qlt_le_dec d 0) as [Hd|Hd].
  - assert (E' : d * d == (- d) * (- d)) by ring. rewrite E'.
    apply Qmult_le_0_compat; lra.
  - now apply Qmult_le_0_compat.
Qed.

Lemma calculate_ensemble_score_range (self : EnsembleScorer)
    (ps : list ModelPrediction) (lo hi : Q) :
  weights_nonneg self ->
  ps <> [] ->
  Forall (fun p => 0 <= confidence p) ps ->
  Forall (fun p => lo <= score p /\ score p <= hi) ps ->
  let r := _calculate_ensemble_score self ps in
  lo <= r.1 /\ r.1 <= hi /\
  0.1 <= r.2 /\ r.2 <= Qmax 0.1 (Np.mean (map confidence ps)).
Proof.
  intros Hw Hne Hc Hs r. subst r.
  destruct (EnsembleFacts.calculate_closed_form self ps Hne) as [E1 E2].
  cbn zeta in E1, E2. rewrite E1, E2. clear E1 E2.
  assert (Hrange : lo <= (if Np.Qltb 0 (weight_sum self ps)
                          then weighted_score_sum self ps / weight_sum self ps
                          else mean_score ps) /\
                   (if Np.Qltb 0 (weight_sum self ps)
                    then weighted_score_sum self ps / weight_sum self ps
                    else mean_score ps) <= hi).
  { destruct (Np.Qltb 0 (weight_sum self ps)) eqn:Hpos.
    - apply EnsembleFacts.Qltb_spec in Hpos.
      assert (H : lo * weight_sum self ps <= weighted_score_sum self ps /\
                  weighted_score_sum self ps <= hi * weight_sum self ps).
      { clear Hpos Hne. unfold weight_sum, weighted_score_sum.
        induction ps as [|p ps IH].
        - cbn. split; [assert (E : lo * 0 == 0) by ring
                      | assert (E : hi * 0 == 0) by ring]; rewrite E; apply Qle_refl.
        - inversion Hc as [|? ? Hcp Hcps]; subst.
          inversion Hs as [|? ? [Hlo Hhi] Hsps]; subst.
          destruct (IH Hcps Hsps) as [I1 I2]. cbn [map].
          change (Qsum (?a :: ?l)) with (a + Qsum l).
          pose proof (Hw (model_name p)) as Hwp. unfold eff_weight at 1 3.
          set (w := weight_of self (model_name p)) in *.
          set (A := Qsum (map (eff_weight self) ps)) in *.
          set (B := Qsum (map _ ps)) in *.
          assert (0 <= w * confidence p) by (apply Qmult_le_0_compat; assumption).
          split; nra. }
      destruct H as [H1 H2]. split.
      + apply Qle_shift_div_l; [exact Hpos | exact H1].
      + apply Qle_shift_div_r; [exact Hpos | exact H2].
    - unfold mean_score.
      pose proof (RiskScoreFacts.mean_bounds lo hi (map score ps)) as Hm.
      rewrite EnsembleFacts.mean_Qsum, length_map in Hm.
      apply Hm; [destruct ps; [congruence | discriminate] | now apply Forall_map]. }
  destruct Hrange as [R1 R2].
  split; [exact R1|]. split; [exact R2|]. split.
  - apply Q.le_max_l.
  - apply Q.max_le_compat_l.
    set (v := if (1 <? length ps)%nat then _ else _).
    assert (Hv : 0 <= Qmin 0.3 (v * 2)).
    { apply Q.min_glb; [lra|]. subst v.
      destruct (1 <? length ps)%nat; [|lra].
      assert (0 <= Np.var (map confidence ps)); [|lra].
      apply var_nonneg. destruct ps; [congruence | discriminate]. }
    lra.
Qed.

(** X6. The results of the combiner stay in range: for every scorer
    reachable by construction and weight updates, the final score of a
    non-empty list of predictions whose scores and confidences lie in
    [0, 1] lies in [0, 1], and the ensemble confidence lies between 0.1
    and the larger of 0.1 and the mean confidence. *)
Theorem ensemble_results_in_range :
  forall (bert_loaded : bool) (updates : list (gmap string Q))
         (predictions : list ModelPrediction),
    predictions <> [] ->
    Forall (fun p => 0 <= confidence p /\ confidence p <= 1) predictions ->
    Forall (fun p => 0 <= score p /\ score p <= 1) predictions ->
    let self := after_updates (__init__ bert_loaded) updates in
    let r := _calculate_ensemble_score self predictions in
    0 <= r.1 /\ r.1 <= 1 /\
    0.1 <= r.2 /\ r.2 <= Qmax 0.1 (Np.mean (map confidence predictions)).
Proof.
  intros bert_loaded updates predictions Hne Hc Hs self.
  apply (calculate_ensemble_score_range self predictions 0 1).
  - apply EnsembleFacts.reachable_weights_nonneg.
  - exact Hne.
  - eapply Forall_impl; [exact Hc|]. intros p Hp. exact (proj1 Hp).
  - exact Hs.
Qed.

Lemma ensemble_results_in_range_witness :
  let self := after_updates (__init__ false) [partial_update] in
  let r := _calculate_ensemble_score self sample_predictions in
  0 <= r.1 /\ r.1 <= 1 /\
  0.1 <= r.2 /\ r.2 <= Qmax 0.1 (Np.mean (map confidence sample_predictions)).
Proof.
  apply (ensemble_results_in_range false [partial_update] sample_predictions).
  - discriminate.
  - repeat constructor; cbn; discriminate.
  - repeat constructor; cbn; discriminate.
Defined.

Lemma step_tier_monotone (s s' : Q) :
  s <= s' -> (tier_rank (step_tier s) <= tier_rank (step_tier s'))%nat.
Proof.
  intros Hle. unfold step_tier.
  destruct (Qle_bool 0.9 s) eqn:A1; [apply Qle_bool_iff in A1|];
  destruct (Qle_bool 0.7 s) eqn:A2; [apply Qle_bool_iff in A2| |apply Qle_bool_iff in A2|];
  destruct (Qle_bool 0.5 s) eqn:A3; try apply Qle_bool_iff in A3;
  destruct (Qle_bool 0.3 s) eqn:A4; try apply Qle_bool_iff in A4;
  destruct (Qle_bool 0.9 s') eqn:B1; try apply EnsembleFacts.Qle_bool_false in B1;
  destruct (Qle_bool 0.7 s') eqn:B2; try apply EnsembleFacts.Qle_bool_false in B2;
  destruct (Qle_bool 0.5 s') eqn:B3; try apply EnsembleFacts.Qle_bool_false in B3;
  destruct (Qle_bool 0.3 s') eqn:B4; try apply EnsembleFacts.Qle_bool_false in B4;
  cbn; try lia; exfalso; lra.
Qed.

(** X7. The risk tier never falls when the score rises: for every scorer
    reachable by construction and weight updates, a score at least as high
    gets a tier at least as high in the order minimal < low < medium <
    high < critical. *)
Theorem risk_tier_monotone :
  forall (bert_loaded : bool) (updates : list (gmap string Q)) (s s' : Q),
    s <= s' ->
    exists tier tier',
      _determine_risk_level (after_updates (__init__ bert_loaded) updates) s
      = Return tier /\
      _determine_risk_level (after_updates (__init__ bert_loaded) updates) s'
      = Return tier' /\
      (tier_rank tier <= tier_rank tier')%nat.
Proof.
  intros b updates s s' Hle.
  exists (step_tier s), (step_tier s').
  split; [|split].
  - apply (EnsembleFacts.determine_risk_level_fixed _ b).
    apply EnsembleFacts.after_updates_thresholds.
  - apply (EnsembleFacts.determine_risk_level_fixed _ b).
    apply EnsembleFacts.after_updates_thresholds.
  - now apply step_tier_monotone.
Qed.

Lemma risk_tier_monotone_witness :
  exists tier tier',
    _determine_risk_level (after_updates (__init__ false) [partial_update]) 0.45
    = Return tier /\
    _determine_risk_level (after_updates (__init__ false) [partial_update]) 0.72
    = Return tier' /\
    (tier_rank tier <= tier_rank tier')%nat.
Proof.
  apply (risk_tier_monotone false [partial_update] 0.45 0.72). discriminate.
Defined.

End WeightFacts.

(** ** The prediction pipeline of the ensemble *)

Module PipelineFacts.
Import Py Ensemble EnsembleSpec WeightSpec EnsemblePipeline.
Local Open Scope Q_scope.

Section WithTextBlob.
Context `{SentimentAnalyzer.TextBlob}.

(** [0 <= max(0.0, x)] and [min(1.0, x) <= 1] *)
Lemma Qmax_zero_ge (x : Q) : 0 <= Qmax 0.0 x.
Proof. apply Qle_trans with 0.0; [discriminate | apply Q.le_max_l]. Qed.


Lemma Qmin_one_le (x : Q) : Qmin 1.0 x <= 1.
Proof. apply Qle_trans with 1.0; [apply Q.le_min_l | discriminate]. Qed.

Lemma Qnat_nonneg (n : nat) : 0 <= SentimentAnalyzer.Qnat n.
Proof.
  unfold SentimentAnalyzer.Qnat. change 0 with (inject_Z 0). rewrite <- Zle_Qle. lia.
Qed.

Lemma density_nonneg (count word_count : nat) :
  0 <= SentimentAnalyzer.density count word_count.
Proof.
  unfold SentimentAnalyzer.density. destruct (0 <? word_count)%nat eqn:E; [|lra].
  apply Nat.ltb_lt in E.
  apply Qle_shift_div_l.
  - unfold SentimentAnalyzer.Qnat. change 0 with (inject_Z 0). rewrite <- Zlt_Qlt. lia.
  - pose proof (Qnat_nonneg count). lra.
Qed.

(** The urgency score is a fraction, whether the analysis succeeds or ends
    in its handler. *)
Lemma urgency_score_unit (self : SentimentAnalyzer.SentimentAnalyzer) (text : string) :
  0 <= SentimentAnalyzer.urgency_score (SentimentAnalyzer.analyze_urgency self text) /\
  SentimentAnalyzer.urgency_score (SentimentAnalyzer.analyze_urgency self text) <= 1.
Proof.
  unfold SentimentAnalyzer.analyze_urgency.
  destruct (SentimentAnalyzer.re_count_sum _ _) as [n|e]; cbn [bind try_except];
    [|cbn; split; discriminate].
  destruct (SentimentAnalyzer.re_count_sum _ _) as [k|e]; cbn [bind try_except];
    [|cbn; split; discriminate].
  cbn [SentimentAnalyzer.urgency_score].
  split; [|apply Qmin_one_le]. apply Q.min_glb; [lra|].
  pose proof (density_nonneg n (SentimentAnalyzer.word_count_of text)).
  pose proof (Qnat_nonneg k). nra.
Qed.

Lemma manipulation_score_unit (self : SentimentAnalyzer.SentimentAnalyzer)
    (text : string) :
  0 <= SentimentAnalyzer.manipulation_score
         (SentimentAnalyzer.analyze_emotional_manipulation self text) /\
  SentimentAnalyzer.manipulation_score
    (SentimentAnalyzer.analyze_emotional_manipulation self text) <= 1.
Proof.
  unfold SentimentAnalyzer.analyze_emotional_manipulation.
  destruct (SentimentAnalyzer.re_count_sum _ _) as [n1|e]; cbn [bind try_except];
    [|cbn; split; discriminate].
  destruct (SentimentAnalyzer.re_count_sum _ _) as [n2|e]; cbn [bind try_except];
    [|cbn; split; discriminate].
  destruct (SentimentAnalyzer.re_count_sum _ _) as [n3|e]; cbn [bind try_except];
    [|cbn; split; discriminate].
  destruct (SentimentAnalyzer.count_categories _ _) as [cs|e]; cbn [bind try_except];
    [|cbn; split; discriminate].
  cbn [SentimentAnalyzer.manipulation_score].
  split; [|apply Qmin_one_le]. apply Q.min_glb; [lra | apply Qmax_zero_ge].
Qed.

(** The sentiment prediction: score and confidence are fractions. *)
Lemma sentiment_prediction_unit (models : Models) (text : string) (elapsed : Q) :
  let p := (_get_sentiment_prediction models text elapsed).1 in
  model_name p = "sentiment"%string /\
  0 <= score p /\ score p <= 1 /\ 0 <= confidence p /\ confidence p <= 1.
Proof.
  cbn zeta. unfold _get_sentiment_prediction. cbn [fst model_name score confidence].
  unfold SentimentAnalyzer.analyze_complete_sentiment.
  cbn [SentimentAnalyzer.composite_risk_score SentimentAnalyzer.urgency_analysis
       SentimentAnalyzer.manipulation_analysis].
  pose proof (urgency_score_unit (sentiment_analyzer models) text) as [U1 U2].
  pose proof (manipulation_score_unit (sentiment_analyzer models) text) as [M1 M2].
  split; [reflexivity|]. split; [|split; [|split]].
  - unfold SentimentAnalyzer._calculate_sentiment_risk.
    apply Q.min_glb; [lra | apply Qmax_zero_ge].
  - unfold SentimentAnalyzer._calculate_sentiment_risk. apply Qmin_one_le.
  - apply Qle_shift_div_l; lra.
  - apply Qle_shift_div_r; lra.
Qed.

(** The pattern prediction: the ranges of the risk analysis. *)
Lemma pattern_prediction_range (text : string) (elapsed : Q) :
  let p := (_get_pattern_prediction text elapsed).1 in
  model_name p = "pattern"%string /\
  0.1 <= score p /\ score p <= 0.95 /\ 0.44 <= confidence p /\ confidence p <= 0.95.
Proof.
  cbn zeta. unfold _get_pattern_prediction. cbn [fst model_name score confidence].
  split; [reflexivity|].
  apply (RiskScoreFacts.risk_analysis_range PatternMatcher.pattern_matcher text).
Qed.

(** The BERT prediction while the model is not loaded and the fallback
    object is as its constructor leaves it. *)
Lemma bert_fallback_prediction (self : EnsembleScorer) (models : Models)
    (uniform : nat -> Q) (text : string) (elapsed : Q) :
  BertClassifier.__init__ uniform = Return (pattern_simulator models) ->
  models_loaded self !! "bert"%string = Some false ->
  let p := (get_bert_prediction self models text elapsed).1 in
  model_name p = "bert"%string /\ score p = 0.1 /\ confidence p = 0.5.
Proof.
  intros Hsim Hloaded. cbn zeta. unfold get_bert_prediction. cbn [fst].
  unfold _get_bert_prediction, getitem. rewrite Hloaded. cbn [bind try_except].
  rewrite (BertFacts.simulate_without_attribute _ text
             (BertFacts.init_has_no_advanced_simulator uniform _ Hsim)).
  repeat split.
Qed.

(** [predict_single] on a scorer whose thresholds are those of the
    constructor: the lookup of a threshold does not raise, and the result
    is built from the ensemble score of the three predictions. *)
Lemma predict_single_unfold (self : EnsembleScorer) (bert_loaded : bool)
    (models : Models) (text : string) (explain : bool) (clock : Clock) :
  risk_thresholds self = risk_thresholds (__init__ bert_loaded) ->
  let ps := [ get_bert_prediction self models text (bert_seconds clock);
              _get_pattern_prediction text (pattern_seconds clock);
              _get_sentiment_prediction models text (sentiment_seconds clock) ] in
  let r := predict_single self models text explain clock in
  final_score r = (_calculate_ensemble_score self (map fst ps)).1 /\
  result_confidence r = (_calculate_ensemble_score self (map fst ps)).2 /\
  risk_level r = step_tier (final_score r) /\
  model_predictions r = ps.
Proof.
  intros Hthr ps r. subst r. unfold predict_single. fold ps.
  destruct (_calculate_ensemble_score self (map fst ps)) as [fs c].
  rewrite (EnsembleFacts.determine_risk_level_fixed self bert_loaded fs Hthr).
  cbn [bind try_except final_score result_confidence risk_level model_predictions fst snd].
  repeat split.
Qed.

(** X8. Range of an ensemble result: for every scorer reachable by
    construction and weight updates, if the BERT prediction (from the
    classifier or from its fallback) has score and confidence in [0, 1],
    then [predict_single] returns a final score in [0, 1], a confidence in
    [0.1, 1], the tier of that score as risk level (never [error]), and
    the three predictions bert, pattern, sentiment in this order. *)
Theorem predict_single_in_range :
  forall (bert_loaded : bool) (updates : list (gmap string Q)) (models : Models)
         (text : string) (explain : bool) (clock : Clock),
    let self := after_updates (__init__ bert_loaded) updates in
    let bert := (get_bert_prediction self models text (bert_seconds clock)).1 in
    0 <= score bert -> score bert <= 1 ->
    0 <= confidence bert -> confidence bert <= 1 ->
    let r := predict_single self models text explain clock in
    0 <= final_score r /\ final_score r <= 1 /\
    0.1 <= result_confidence r /\ result_confidence r <= 1 /\
    risk_level r = step_tier (final_score r) /\
    map (fun p => model_name p.1) (model_predictions r)
    = ["bert"; "pattern"; "sentiment"]%string.
Proof.
  intros b updates models text explain clock self bert Hs0 Hs1 Hc0 Hc1 r.
  destruct (predict_single_unfold self b models text explain clock
              (EnsembleFacts.after_updates_thresholds _ updates))
    as (Ef & Ec & El & Ep).
  fold r in Ef, Ec, El, Ep.
  pose proof (pattern_prediction_range text (pattern_seconds clock))
    as (Pn & P1 & P2 & P3 & P4).
  pose proof (sentiment_prediction_unit models text (sentiment_seconds clock))
    as (Sn & S1 & S2 & S3 & S4).
  cbn zeta in Pn, P1, P2, P3, P4, Sn, S1, S2, S3, S4.
  set (pp := (_get_pattern_prediction text (pattern_seconds clock)).1) in *.
  set (sp := (_get_sentiment_prediction models text (sentiment_seconds clock)).1) in *.
  assert (Hbn : model_name bert = "bert"%string).
  { subst bert. unfold get_bert_prediction. cbn [fst]. unfold _get_bert_prediction.
    destruct (getitem (models_loaded self) "bert"); reflexivity. }
  assert (Hw : weights_nonneg self)
    by apply EnsembleFacts.reachable_weights_nonneg.
  destruct (WeightFacts.calculate_ensemble_score_range self [bert; pp; sp] 0 1 Hw)
    as (R1 & R2 & R3 & R4).
  { discriminate. }
  { repeat constructor; lra. }
  { repeat constructor; lra. }
  cbn [map fst] in Ef, Ec. fold bert pp sp in Ef, Ec.
  rewrite Ef, Ec. split; [exact R1|]. split; [exact R2|]. split; [exact R3|].
  split.
  - apply Qle_trans with (Qmax 0.1 (Np.mean (map confidence [bert; pp; sp])));
      [exact R4|].
    apply Q.max_lub; [discriminate|].
    apply (RiskScoreFacts.mean_bounds 0 1); [discriminate|].
    repeat constructor; lra.
  - split; [rewrite <- Ef; exact El|].
    rewrite Ep. cbn [map fst]. fold bert pp sp. now rewrite Hbn, Pn, Sn.
Qed.

(** X9. The ceiling of the fallback: while the BERT model is not loaded
    (the scorer as constructed, the fallback object as its constructor
    leaves it), [predict_single] gives every text a final score below 0.7,
    so no text is ever rated [high] or [critical], whatever the pattern
    and sentiment analyses find. *)
Theorem fallback_never_rates_high :
  forall (uniform : nat -> Q) (models : Models) (text : string) (explain : bool)
         (clock : Clock),
    BertClassifier.__init__ uniform = Return (pattern_simulator models) ->
    let r := predict_single (__init__ false) models text explain clock in
    final_score r < 0.7 /\
    In (risk_level r) ["minimal"; "low"; "medium"]%string.
Proof.
  intros uniform models text explain clock Hsim r.
  destruct (predict_single_unfold (__init__ false) false models text explain clock eq_refl)
    as (Ef & _ & El & _).
  fold r in Ef, El.
  pose proof (bert_fallback_prediction (__init__ false) models uniform text
                (bert_seconds clock) Hsim eq_refl) as (Bn & Bs & Bc).
  pose proof (pattern_prediction_range text (pattern_seconds clock))
    as (Pn & P1 & P2 & P3 & P4).
  pose proof (sentiment_prediction_unit models text (sentiment_seconds clock))
    as (Sn & S1 & S2 & S3 & S4).
  cbn zeta in Bn, Bs, Bc, Pn, P1, P2, P3, P4, Sn, S1, S2, S3, S4.
  set (bp := (get_bert_prediction (__init__ false) models text (bert_seconds clock)).1) in *.
  set (pp := (_get_pattern_prediction text (pattern_seconds clock)).1) in *.
  set (sp := (_get_sentiment_prediction models text (sentiment_seconds clock)).1) in *.
  cbn [map fst] in Ef. fold bp pp sp in Ef.
  assert (Hlt : final_score r < 0.7).
  { rewrite Ef.
    destruct (EnsembleFacts.calculate_closed_form (__init__ false) [bp; pp; sp])
      as [E1 _]; [discriminate|]. cbn zeta in E1. rewrite E1. clear E1.
    assert (Ews : weight_sum (__init__ false) [bp; pp; sp]
                  == 0.4 * 0.5 + 0.3 * confidence pp + 0.15 * confidence sp).
    { unfold weight_sum, eff_weight. cbn [map]. rewrite Bn, Pn, Sn, Bc.
      change (weight_of (__init__ false) "bert") with 0.4.
      change (weight_of (__init__ false) "pattern") with 0.3.
      change (weight_of (__init__ false) "sentiment") with 0.15.
      unfold Qsum. cbn [foldr]. ring. }
    assert (Ewss : weighted_score_sum (__init__ false) [bp; pp; sp]
                   == 0.1 * 0.4 * 0.5 + score pp * 0.3 * confidence pp
                      + score sp * 0.15 * confidence sp).
    { unfold weighted_score_sum. cbn [map]. rewrite Bn, Pn, Sn, Bc, Bs.
      change (weight_of (__init__ false) "bert") with 0.4.
      change (weight_of (__init__ false) "pattern") with 0.3.
      change (weight_of (__init__ false) "sentiment") with 0.15.
      unfold Qsum. cbn [foldr]. ring. }
    assert (Hpos : 0 < weight_sum (__init__ false) [bp; pp; sp]).
    { rewrite Ews. nra. }
    apply EnsembleFacts.Qltb_spec in Hpos as Hb. rewrite Hb.
    apply Qlt_shift_div_r; [exact Hpos|]. rewrite Ews, Ewss.
    assert (G1 : score pp * (0.3 * confidence pp) <= 0.95 * (0.3 * confidence pp)).
    { apply Qmult_le_compat_r; [exact P2 | lra]. }
    assert (G2 : score sp * (0.15 * confidence sp) <= 1 * (0.15 * confidence sp)).
    { apply Qmult_le_compat_r; [exact S2 | lra]. }
    lra. }
  split; [exact Hlt|]. rewrite El. unfold step_tier.
  destruct (Qle_bool 0.9 (final_score r)) eqn:A1;
    [apply Qle_bool_iff in A1; exfalso; lra|].
  destruct (Qle_bool 0.7 (final_score r)) eqn:A2;
    [apply Qle_bool_iff in A2; exfalso; lra|].
  destruct (Qle_bool 0.5 (final_score r)); [cbn; tauto|].
  destruct (Qle_bool 0.3 (final_score r)); cbn; tauto.
Qed.

Lemma candidate_thresholds_range :
  Forall (fun t => 0.1 <= t /\ t <= 0.9) candidate_thresholds.
Proof.
  apply List.Forall_forall. intros t Hin. unfold candidate_thresholds in Hin.
  apply in_map_iff in Hin. destruct Hin as (i & <- & Hi). apply in_seq in Hi.
  assert (H0 : 0 <= inject_Z (Z.of_nat i)).
  { change 0 with (inject_Z 0). rewrite <- Zle_Qle. lia. }
  assert (H1 : inject_Z (Z.of_nat i) <= 16).
  { change 16 with (inject_Z 16). rewrite <- Zle_Qle. lia. }
  split; lra.
Qed.

Lemma sweep_invariant (P : Q -> Prop) (scores : list Q) (labels : list Z)
    (cands : list Q) :
  forall best : Q * Q,
    Forall P cands -> P best.1 ->
    P (fold_left (sweep_step scores labels) cands best).1.
Proof.
  induction cands as [|c cands IH]; intros best Hall Hbest; [exact Hbest|].
  inversion Hall as [|? ? Hc Hcs]; subst. cbn [fold_left]. apply IH; [exact Hcs|].
  unfold sweep_step. destruct (Np.Qltb best.2 _); [exact Hc | exact Hbest].
Qed.

Lemma best_threshold_range (scores : list Q) (labels : list Z) :
  0.1 <= best_threshold_of scores labels /\ best_threshold_of scores labels <= 0.9.
Proof.
  unfold best_threshold_of.
  apply (sweep_invariant (fun t => 0.1 <= t /\ t <= 0.9));
    [apply candidate_thresholds_range | cbn; split; discriminate].
Qed.

Lemma ratio_le_one (a b : nat) : (0 < a + b)%nat ->
  0 <= inject_Z (Z.of_nat a) / inject_Z (Z.of_nat (a + b)) /\
  inject_Z (Z.of_nat a) / inject_Z (Z.of_nat (a + b)) <= 1.
Proof.
  intros Hpos.
  assert (Hd : 0 < inject_Z (Z.of_nat (a + b))).
  { change 0 with (inject_Z 0). rewrite <- Zlt_Qlt. lia. }
  assert (Ha : 0 <= inject_Z (Z.of_nat a)).
  { change 0 with (inject_Z 0). rewrite <- Zle_Qle. lia. }
  assert (Hab : inject_Z (Z.of_nat a) <= inject_Z (Z.of_nat (a + b))).
  { rewrite <- Zle_Qle. lia. }
  split.
  - apply Qle_shift_div_l; [exact Hd | lra].
  - apply Qle_shift_div_r; [exact Hd | lra].
Qed.

(** An F1 score is at most 1. *)
Lemma f1_score_le_one (scores : list Q) (labels : list Z) (threshold_ : Q) :
  f1_score scores labels threshold_ <= 1.
Proof.
  unfold f1_score.
  set (preds := map _ scores).
  set (tp := count_pairs 1 1 preds labels).
  set (fp := count_pairs 1 0 preds labels).
  set (fn := count_pairs 0 1 preds labels).
  set (p := if (0 <? tp + fp)%nat then _ else _).
  set (r := if (0 <? tp + fn)%nat then _ else _).
  assert (Hp : 0 <= p /\ p <= 1).
  { subst p. destruct (0 <? tp + fp)%nat eqn:E; [|split; discriminate].
    apply Nat.ltb_lt in E. now apply ratio_le_one. }
  assert (Hr : 0 <= r /\ r <= 1).
  { subst r. destruct (0 <? tp + fn)%nat eqn:E; [|split; discriminate].
    apply Nat.ltb_lt in E. now apply ratio_le_one. }
  destruct (Np.Qltb 0 (p + r)) eqn:E; [|discriminate].
  apply EnsembleFacts.Qltb_spec in E.
  apply Qle_shift_div_r; [exact E|]. nra.
Qed.

(** Once the best F1 is 1, no later threshold replaces the best one. *)
Lemma sweep_keeps_perfect (scores : list Q) (labels : list Z) (cands : list Q) :
  forall best : Q * Q,
    best.2 == 1 ->
    fold_left (sweep_step scores labels) cands best = best.
Proof.
  induction cands as [|c cands IH]; intros best Hbest; [reflexivity|].
  cbn [fold_left].
  assert (E : sweep_step scores labels best c = best).
  { unfold sweep_step.
    destruct (Np.Qltb best.2 (f1_score scores labels c)) eqn:F; [|reflexivity].
    apply EnsembleFacts.Qltb_spec in F.
    pose proof (f1_score_le_one scores labels c). lra. }
  rewrite E. now apply IH.
Qed.

Lemma count_pairs_all_positive (threshold_ : Q) (scores : list Q) :
  forall labels : list Z,
    length labels = length scores ->
    Forall (fun s => threshold_ <= s) scores ->
    Forall (fun l => l = 1%Z) labels ->
    let preds := map (fun s => if Qle_bool threshold_ s then 1%Z else 0%Z) scores in
    count_pairs 1 1 preds labels = length scores /\
    count_pairs 1 0 preds labels = O /\
    count_pairs 0 1 preds labels = O.
Proof.
  induction scores as [|s scores IH]; intros labels Hlen Hs Hl; cbn zeta.
  - destruct labels; [|discriminate]. repeat split.
  - destruct labels as [|l labels]; [discriminate|].
    inversion Hs as [|? ? Hs0 Hs']; subst. inversion Hl as [|? ? Hl0 Hl']; subst.
    injection Hlen as Hlen.
    destruct (IH labels Hlen Hs' Hl') as (I1 & I2 & I3). cbn zeta in I1, I2, I3.
    apply Qle_bool_iff in Hs0. unfold count_pairs in *.
    cbn [map combine List.filter fst snd]. rewrite Hs0.
    cbn [Z.eqb Pos.eqb andb length]. rewrite I1, I2, I3. repeat split.
Qed.

Lemma all_positive_f1 (threshold_ : Q) (scores : list Q) (labels : list Z) :
  scores <> [] ->
  length labels = length scores ->
  Forall (fun s => threshold_ <= s) scores ->
  Forall (fun l => l = 1%Z) labels ->
  f1_score scores labels threshold_ == 1.
Proof.
  intros Hne Hlen Hs Hl. unfold f1_score.
  destruct (count_pairs_all_positive threshold_ scores labels Hlen Hs Hl)
    as (E1 & E2 & E3).
  cbn zeta in E1, E2, E3. rewrite E1, E2, E3, Nat.add_0_r.
  assert (Hn : (0 < length scores)%nat) by (destruct scores; [congruence | cbn; lia]).
  apply Nat.ltb_lt in Hn as Hb. rewrite Hb.
  assert (Hq : 0 < inject_Z (Z.of_nat (length scores)))
    by now apply EnsembleFacts.Qnat_length_pos.
  set (n := inject_Z (Z.of_nat (length scores))) in *.
  assert (En : n / n == 1) by (field; lra).
  assert (Hpos : Np.Qltb 0 (n / n + n / n) = true).
  { apply EnsembleFacts.Qltb_spec. rewrite En. reflexivity. }
  rewrite Hpos, En. reflexivity.
Qed.

Lemma optimized_thresholds_lookup (t : Q) :
  PipelineSpec.threshold (optimized_thresholds t) "critical" = Qmin 0.95 (t + 0.2) /\
  PipelineSpec.threshold (optimized_thresholds t) "high" = t /\
  PipelineSpec.threshold (optimized_thresholds t) "medium" = Qmax 0.3 (t - 0.2) /\
  PipelineSpec.threshold (optimized_thresholds t) "low" = Qmax 0.1 (t - 0.4).
Proof. repeat split. Qed.

Lemma candidate_thresholds_head :
  candidate_thresholds
  = (0.1 + inject_Z (Z.of_nat 0) * 0.05)
      :: map (fun i => 0.1 + inject_Z (Z.of_nat i) * 0.05) (seq 1 16).
Proof. reflexivity. Qed.

Lemma first_candidate_f1 (scores : list Q) (labels : list Z) (c0 : Q) :
  scores <> [] ->
  length labels = length scores ->
  Forall (fun l => l = 1%Z) labels ->
  Forall (fun s => 0.1 <= s) scores ->
  c0 == 0.1 ->
  f1_score scores labels c0 == 1.
Proof.
  intros Hne Hlen Hlabels Hscores Ec0.
  apply all_positive_f1; [exact Hne | exact Hlen | | exact Hlabels].
  eapply Forall_impl; [exact Hscores|].
  cbn beta. intros r Hr. rewrite Ec0. exact Hr.
Qed.

Lemma sweep_first_step (scores : list Q) (labels : list Z) (c0 : Q) (rest : list Q) :
  f1_score scores labels c0 == 1 ->
  fold_left (sweep_step scores labels) (c0 :: rest) (0.5, 0.0)
  = fold_left (sweep_step scores labels) rest (c0, f1_score scores labels c0).
Proof.
  intros F. cbn [fold_left]. f_equal. unfold sweep_step. cbn [snd].
  assert (Hlt : Np.Qltb 0.0 (f1_score scores labels c0) = true).
  { apply EnsembleFacts.Qltb_spec. rewrite F. reflexivity. }
  now rewrite Hlt.
Qed.

(** On validation data that is all positive and scored at least 0.1, the
    first threshold of the sweep has F1 = 1 and stays the best. *)
Lemma all_positive_best_threshold (scores : list Q) (labels : list Z) :
  scores <> [] ->
  length labels = length scores ->
  Forall (fun l => l = 1%Z) labels ->
  Forall (fun s => 0.1 <= s) scores ->
  best_threshold_of scores labels == 0.1.
Proof.
  intros Hne Hlen Hlabels Hscores.
  unfold best_threshold_of. rewrite candidate_thresholds_head.
  assert (Ec0 : 0.1 + inject_Z (Z.of_nat 0) * 0.05 == 0.1) by reflexivity.
  pose proof (first_candidate_f1 scores labels _ Hne Hlen Hlabels Hscores Ec0) as F.
  rewrite (sweep_first_step _ _ _ _ F), sweep_keeps_perfect; [exact Ec0 | exact F].
Qed.

(** The thresholds built from the best threshold of a sweep. *)
Lemma sweep_thresholds_order (scores : list Q) (labels : list Z) :
  let t := optimized_thresholds (best_threshold_of scores labels) in
  let low := PipelineSpec.threshold t "low" in
  let medium := PipelineSpec.threshold t "medium" in
  let high := PipelineSpec.threshold t "high" in
  let critical := PipelineSpec.threshold t "critical" in
  (0.1 <= low /\ low <= high /\ high <= critical /\ critical <= 0.95 /\
   low <= medium /\ medium <= critical /\
   (medium <= high <-> 0.3 <= high)) /\
  (scores <> [] ->
   length labels = length scores ->
   Forall (fun l => l = 1%Z) labels ->
   Forall (fun s => 0.1 <= s) scores ->
   high == 0.1 /\ medium == 0.3).
Proof.
  cbn zeta.
  destruct (optimized_thresholds_lookup (best_threshold_of scores labels))
    as (-> & -> & -> & ->).
  pose proof (best_threshold_range scores labels) as [B1 B2].
  set (best := best_threshold_of scores labels) in *.
  split.
  - split; [apply Q.le_max_l|].
    split; [apply Q.max_lub; lra|].
    split; [apply Q.min_glb; lra|].
    split; [apply Q.le_min_l|].
    split; [apply Q.max_le_compat; lra|].
    split; [apply Q.max_lub; apply Q.min_glb; lra|].
    split.
    + intros Hm. apply Qle_trans with (Qmax 0.3 (best - 0.2)); [apply Q.le_max_l | exact Hm].
    + intros Hh. apply Q.max_lub; lra.
  - intros Hne Hlen Hlabels Hscores.
    assert (Hbest : best == 0.1)
      by (subst best; now apply all_positive_best_threshold).
    split; [exact Hbest|]. rewrite Hbest. reflexivity.
Qed.

(** X10. The thresholds [calibrate_thresholds] returns, for every scorer
    reachable by construction and weight updates and every validation set:
    0.1 <= low <= high <= critical <= 0.95 and low <= medium <= critical,
    but medium <= high holds only if high is at least 0.3.  When every
    validation item is labelled 1 and every score is at least 0.1, the
    sweep stops at its first threshold: high is 0.1, below medium 0.3. *)
Theorem calibrated_thresholds_order :
  forall (bert_loaded : bool) (updates : list (gmap string Q)) (models : Models)
         (validation_data : list (string * Z)) (clocks : nat -> Clock),
    let self := after_updates (__init__ bert_loaded) updates in
    let t := calibrate_thresholds self models validation_data clocks in
    let low := PipelineSpec.threshold t "low" in
    let medium := PipelineSpec.threshold t "medium" in
    let high := PipelineSpec.threshold t "high" in
    let critical := PipelineSpec.threshold t "critical" in
    (0.1 <= low /\ low <= high /\ high <= critical /\ critical <= 0.95 /\
     low <= medium /\ medium <= critical /\
     (medium <= high <-> 0.3 <= high)) /\
    (validation_data <> [] ->
     Forall (fun d => d.2 = 1%Z) validation_data ->
     Forall (fun r => 0.1 <= final_score r)
            (predict_batch self models (map fst validation_data) false clocks) ->
     high == 0.1 /\ medium == 0.3).
Proof.
  intros b updates models data clocks self t low medium high critical.
  destruct data as [|d0 data0].
  - subst low medium high critical t. unfold calibrate_thresholds.
    split; [|congruence].
    subst self. rewrite EnsembleFacts.after_updates_thresholds.
    change (PipelineSpec.threshold (risk_thresholds (__init__ b)) "low") with 0.3.
    change (PipelineSpec.threshold (risk_thresholds (__init__ b)) "medium") with 0.5.
    change (PipelineSpec.threshold (risk_thresholds (__init__ b)) "high") with 0.7.
    change (PipelineSpec.threshold (risk_thresholds (__init__ b)) "critical") with 0.9.
    repeat split; discriminate.
  - set (data := d0 :: data0) in *.
    set (results := predict_batch self models (map fst data) false clocks) in *.
    assert (Et : t = optimized_thresholds
                       (best_threshold_of (map final_score results) (map snd data)))
      by reflexivity.
    assert (Hlen : length results = length data).
    { subst results. unfold predict_batch. now rewrite length_imap, length_map. }
    clearbody t results. subst t.
    destruct (sweep_thresholds_order (map final_score results) (map snd data))
      as [H1 H2].
    cbn zeta in H1, H2. split; [exact H1|].
    intros _ Hlabels Hscores. apply H2.
    + intros E. apply (f_equal length) in E.
      rewrite length_map, Hlen in E. discriminate E.
    + now rewrite !length_map.
    + apply Forall_map. exact Hlabels.
    + apply Forall_map. exact Hscores.
Qed.

End WithTextBlob.

Lemma calibrated_thresholds_order_witness :
  let t := @calibrate_thresholds PipelineSpec.neutral_textblob (__init__ false)
             PipelineSpec.sample_models [(PipelineSpec.pressing_text, 1%Z)]
             (fun _ => PipelineSpec.sample_clock) in
  PipelineSpec.threshold t "high" == 0.1 /\ PipelineSpec.threshold t "medium" == 0.3.
Proof.
  apply (proj2 (@calibrated_thresholds_order PipelineSpec.neutral_textblob false []
                  PipelineSpec.sample_models [(PipelineSpec.pressing_text, 1%Z)]
                  (fun _ => PipelineSpec.sample_clock))).
  - discriminate.
  - repeat constructor.
  - vm_compute. repeat constructor. discriminate.
Defined.

Lemma predict_single_in_range_witness :
  let r := @predict_single PipelineSpec.neutral_textblob
             (after_updates (__init__ false) [partial_update])
             PipelineSpec.sample_models PipelineSpec.pressing_text true
             PipelineSpec.sample_clock in
  0 <= final_score r /\ final_score r <= 1 /\
  0.1 <= result_confidence r /\ result_confidence r <= 1 /\
  risk_level r = step_tier (final_score r) /\
  map (fun p => model_name p.1) (model_predictions r)
  = ["bert"; "pattern"; "sentiment"]%string.
Proof.
  apply (@predict_single_in_range PipelineSpec.neutral_textblob false [partial_update]
           PipelineSpec.sample_models PipelineSpec.pressing_text true
           PipelineSpec.sample_clock);
    vm_compute; discriminate.
Defined.

Lemma fallback_never_rates_high_witness :
  let r := @predict_single PipelineSpec.neutral_textblob (__init__ false)
             PipelineSpec.sample_models PipelineSpec.pressing_text true
             PipelineSpec.sample_clock in
  final_score r < 0.7 /\
  In (risk_level r) ["minimal"; "low"; "medium"]%string.
Proof.
  apply (@fallback_never_rates_high PipelineSpec.neutral_textblob (fun _ => 0.5)
           PipelineSpec.sample_models PipelineSpec.pressing_text true
           PipelineSpec.sample_clock).
  apply BertFacts.built_simulator_ok.
Defined.

End PipelineFacts.

(** ** The BERT classifier's reading of the pipeline scores *)

Module ClassifierFacts.
Import Py BertClassifier ClassifierSpec.
Local Open Scope Q_scope.

Lemma dict_get_in (scores : list (string * Q)) (label : string) (s : Q) :
  dict_get scores label = Some s -> In s (map snd scores).
Proof.
  unfold dict_get. destruct (List.find _ scores) as [[k v]|] eqn:E; [|discriminate].
  cbn. intros [= <-]. apply find_some in E. destruct E as [Hin _].
  apply in_map_iff. now exists (k, v).
Qed.

Lemma first_label_in (labels : list string) (scores : list (string * Q)) (s : Q) :
  first_label labels scores = Some s -> In s (map snd scores).
Proof.
  induction labels as [|l labels IH]; [discriminate|].
  cbn [first_label]. destruct (dict_get scores l) as [v|] eqn:E.
  - intros [= <-]. now apply (dict_get_in scores l).
  - exact IH.
Qed.

(** X11. The extracted scam probability is one of the scores or the
    complement of one: when every score of the pipeline lies in [0, 1], so
    does the result (0 for an empty dict). *)
Theorem extract_scam_probability_unit :
  forall scores : list (string * Q),
    Forall (fun e => 0 <= e.2 /\ e.2 <= 1) scores ->
    0 <= _extract_scam_probability scores /\
    _extract_scam_probability scores <= 1.
Proof.
  intros scores Hall.
  assert (Hin : forall s, In s (map snd scores) -> 0 <= s /\ s <= 1).
  { intros s Hs. apply in_map_iff in Hs. destruct Hs as ([k v] & <- & Hkv).
    rewrite List.Forall_forall in Hall. exact (Hall _ Hkv). }
  unfold _extract_scam_probability.
  assert (Hs : forall s, first_label scam_labels scores = Some s -> 0 <= s /\ s <= 1)
    by (intros s Es; exact (Hin s (first_label_in _ _ _ Es))).
  assert (Hn : forall n, first_label not_scam_labels scores = Some n ->
                         0 <= 1.0 - n /\ 1.0 - n <= 1).
  { intros n En. pose proof (Hin n (first_label_in _ _ _ En)). split; lra. }
  assert (Hv : match scores with
               | (_, v) :: _ => 0 <= v /\ v <= 1
               | [] => True
               end).
  { destruct scores as [|[k v] rest]; [exact I|]. apply Hin. now left. }
  assert (H0 : 0 <= 0.0 /\ 0.0 <= 1) by (split; discriminate).
  destruct (first_label scam_labels scores) as [s|];
    [specialize (Hs s eq_refl)|];
    (destruct (first_label not_scam_labels scores) as [n|];
       [specialize (Hn n eq_refl)|]);
    destruct scores as [|[k v] rest];
    repeat match goal with
           | |- context [Qeq_bool ?a ?b] => destruct (Qeq_bool a b)
           end;
    assumption.
Qed.

Lemma extract_scam_probability_unit_witness :
  0 <= _extract_scam_probability [("LABEL_0"%string, 0.2); ("LABEL_1"%string, 0.8)] /\
  _extract_scam_probability [("LABEL_0"%string, 0.2); ("LABEL_1"%string, 0.8)] <= 1.
Proof.
  apply (extract_scam_probability_unit
           [("LABEL_0"%string, 0.2); ("LABEL_1"%string, 0.8)]).
  repeat constructor; cbn; discriminate.
Defined.

(** The scores read from a two-class output. *)
Lemma binary_scores (p0 p1 : Q) :
  _extract_scam_probability [("LABEL_0"%string, p0); ("LABEL_1"%string, p1)]
  = if Qeq_bool p1 0.0
    then if Qeq_bool (1.0 - p0) 0.0 then p0 else 1.0 - p0
    else p1.
Proof.
  unfold _extract_scam_probability.
  change (first_label scam_labels [("LABEL_0"%string, p0); ("LABEL_1"%string, p1)])
    with (Some p1).
  change (first_label not_scam_labels [("LABEL_0"%string, p0); ("LABEL_1"%string, p1)])
    with (Some p0).
  destruct (Qeq_bool p1 0.0) eqn:E1; [|now rewrite E1].
  destruct (Qeq_bool (1.0 - p0) 0.0); reflexivity.
Qed.

(** X12. How a loaded classifier reads a two-class output (LABEL_0 first,
    as the pipeline lists it): the score of LABEL_1 if it is not zero;
    else one minus the score of LABEL_0 if that is not zero; else the
    first score of the dict.  So when the model is certain that a text is
    not a scam (LABEL_0 = 1, LABEL_1 = 0), [predict_single] returns scam
    probability 1 and the prediction [scam]. *)
Theorem binary_output_reading :
  forall (self : BERTScamClassifier) (text : string) (p0 p1 : Q),
    is_loaded self = true ->
    classifier self (truncated text) = Return (binary_output p0 p1) ->
    let r := predict_single self text in
    (~ p1 == 0 -> bp_scam_probability r = p1) /\
    (p1 == 0 -> ~ p0 == 1 -> bp_scam_probability r = 1.0 - p0) /\
    (p1 == 0 -> p0 == 1 ->
       bp_scam_probability r = p0 /\ bp_prediction r = "scam"%string).
Proof.
  intros self text p0 p1 Hloaded Hout r. subst r.
  unfold predict_single. rewrite Hloaded. cbn [negb].
  fold (truncated text). rewrite Hout. unfold binary_output.
  cbn [bind scores_of]. unfold prediction_of_scores.
  change (dict_of_results [("LABEL_0"%string, p0); ("LABEL_1"%string, p1)])
    with [("LABEL_0"%string, p0); ("LABEL_1"%string, p1)].
  cbn [map snd py_max bind try_except bp_scam_probability bp_prediction].
  rewrite binary_scores.
  split; [|split].
  - intros Hp1. destruct (Qeq_bool p1 0.0) eqn:E; [|reflexivity].
    apply Qeq_bool_iff in E. exfalso. apply Hp1. rewrite E. reflexivity.
  - intros Hp1 Hp0. assert (E : Qeq_bool p1 0.0 = true).
    { apply Qeq_bool_iff. rewrite Hp1. reflexivity. }
    rewrite E. destruct (Qeq_bool (1.0 - p0) 0.0) eqn:E0; [|reflexivity].
    apply Qeq_bool_iff in E0. exfalso. apply Hp0. lra.
  - intros Hp1 Hp0. assert (E : Qeq_bool p1 0.0 = true).
    { apply Qeq_bool_iff. rewrite Hp1. reflexivity. }
    assert (E0 : Qeq_bool (1.0 - p0) 0.0 = true).
    { apply Qeq_bool_iff. rewrite Hp0. reflexivity. }
    rewrite E, E0. split; [reflexivity|].
    assert (Hlt : Np.Qltb SCAM_THRESHOLD p0 = true).
    { apply EnsembleFacts.Qltb_spec. rewrite Hp0. reflexivity. }
    now rewrite Hlt.
Qed.

Lemma binary_output_reading_witness :
  let r := predict_single certain_classifier "see you at noon" in
  (~ 0 == 0 -> bp_scam_probability r = 0) /\
  (0 == 0 -> ~ 1 == 1 -> bp_scam_probability r = 1.0 - 1) /\
  (0 == 0 -> 1 == 1 ->
     bp_scam_probability r = 1 /\ bp_prediction r = "scam"%string).
Proof.
  apply (binary_output_reading certain_classifier "see you at noon" 1 0);
    reflexivity.
Defined.

End ClassifierFacts.

(** ** The model simulator: ranges, letter case, batches *)

Module SimulationFacts.
Import Py Regex ModelSimulator SimulatorSpec SimulationSpec.
Local Open Scope Q_scope.

Lemma is_space_lower (c : ascii) : is_space (lower c) = is_space c.
Proof. destruct c as [[] [] [] [] [] [] [] []]; reflexivity. Qed.

Lemma is_upper_lower (c : ascii) : is_upper (lower c) = false.
Proof. destruct c as [[] [] [] [] [] [] [] []]; reflexivity. Qed.

Lemma lstrip_lower (l : list ascii) : lstrip (map lower l) = map lower (lstrip l).
Proof.
  induction l as [|c l IH]; [reflexivity|].
  cbn [map lstrip]. rewrite is_space_lower. destruct (is_space c); [exact IH | reflexivity].
Qed.

Lemma length_string_of_list (l : list ascii) :
  String.length (string_of_list_ascii l) = length l.
Proof. induction l as [|c l IH]; [reflexivity|]. cbn. now rewrite IH. Qed.

Lemma length_list_of_string (s : string) :
  length (list_ascii_of_string s) = String.length s.
Proof. induction s as [|c s IH]; [reflexivity|]. cbn. now rewrite IH. Qed.

Lemma str_lower_length (s : string) : String.length (str_lower s) = String.length s.
Proof.
  unfold str_lower. now rewrite length_string_of_list, length_map, length_list_of_string.
Qed.

(** [strip] and [lower] commute. *)
Lemma strip_lower (s : string) : strip (str_lower s) = str_lower (strip s).
Proof.
  unfold strip, str_lower.
  rewrite !list_ascii_of_string_of_list_ascii.
  rewrite lstrip_lower, <- !map_rev, lstrip_lower, <- !map_rev. reflexivity.
Qed.

Lemma too_short_lower (s : string) : too_short (str_lower s) = too_short s.
Proof.
  unfold too_short. rewrite strip_lower, str_lower_length. f_equal.
  destruct s as [|c s]; reflexivity.
Qed.

Section WithNumpy.
Context `{Numpy}.

Lemma text_scores_lower (self : ScamModelSimulator) (text text' : string) :
  str_lower text = str_lower text' ->
  text_scores self text = text_scores self text'.
Proof.
  intros E. unfold text_scores. rewrite E.
  assert (L : String.length text = String.length text').
  { rewrite <- (str_lower_length text), <- (str_lower_length text'). now rewrite E. }
  now rewrite L.
Qed.

(** X13. On ASCII texts the simulated prediction does not see the case
    of the letters: two ASCII texts with the same lower-case form get the
    same prediction from the same generator state.  The text that the
    context score examines is already lower-cased, so for an ASCII text it
    holds no upper-case letter and the caps-lock bonus is not added. *)
Theorem prediction_ignores_case :
  forall (self : ScamModelSimulator) (text text' : string) (g : rng),
    ascii_text text -> ascii_text text' ->
    str_lower text = str_lower text' ->
    simulate_bert_prediction self text g = simulate_bert_prediction self text' g /\
    count_upper (str_lower text) = 0%nat.
Proof.
  intros self text text' g _ _ E. split.
  - unfold simulate_bert_prediction.
    rewrite <- (too_short_lower text), <- (too_short_lower text'), E.
    now rewrite (text_scores_lower self text text' E).
  - unfold count_upper, str_lower. rewrite list_ascii_of_string_of_list_ascii.
    induction (list_ascii_of_string text) as [|c l IH]; [reflexivity|].
    cbn [map List.filter]. now rewrite is_upper_lower.
Qed.

(** The fields of a prediction on a text whose scores are computed. *)
Lemma simulate_fields (self : ScamModelSimulator) (text : string) (g : rng)
    (md : Metadata) (matched : list MatchedPattern) :
  too_short text = false ->
  text_scores self text = Return (md, matched) ->
  let p := (simulate_bert_prediction self text g).1 in
  (0 <= scam_probability p /\ scam_probability p <= 1) /\
  (0.5 <= confidence p /\ confidence p <= 0.95) /\
  error p = None /\
  prediction p = (if Np.Qltb 0.5 (scam_probability p) then "scam" else "not_scam")%string /\
  (simulate_bert_prediction self text g).2 = (standard_normal g).2.
Proof.
  intros Hlong E. cbn zeta. unfold simulate_bert_prediction. rewrite Hlong, E.
  unfold _add_model_uncertainty, normal.
  destruct (standard_normal g) as [z g'].
  cbn [fst snd scam_probability confidence error prediction].
  split; [apply SimulatorFacts.clip_bounds|].
  split; [|repeat split].
  split; [|apply Q.le_min_l].
  apply Q.min_glb; [discriminate|].
  pose proof (Qabs_nonneg (Np.clip (md_combined_score md + (0 + 0.05 * z)) 0.0 1.0 - 0.5)).
  lra.
Qed.

(** The confidence of a prediction of the constructed simulator. *)
Lemma bert_simulation_confidence (g0 : rng) (text : string) (g : rng) :
  0.5 <= confidence (simulate_bert_prediction (built g0) text g).1 /\
  confidence (simulate_bert_prediction (built g0) text g).1 <= 0.95.
Proof.
  destruct (too_short text) eqn:Hshort.
  - rewrite (SimulatorFacts.simulate_short _ g text Hshort).
    cbn [fst _empty_prediction confidence]. split; discriminate.
  - destruct (SimulatorFacts.text_scores_returns g0 text) as (md & matched & E).
    now destruct (simulate_fields (built g0) text g md matched Hshort E)
      as (_ & C & _).
Qed.

(** X14. What the constructed simulator returns for any text and from any
    generator state: a scam probability in [0, 1], a confidence in
    [0.5, 0.95], never the error prediction, and the verdict [scam]
    exactly when the probability exceeds 0.5. *)
Theorem simulated_prediction_ranges :
  forall (g0 : rng) (text : string) (g : rng),
    let p := (simulate_bert_prediction (built g0) text g).1 in
    0 <= scam_probability p /\ scam_probability p <= 1 /\
    0.5 <= confidence p /\ confidence p <= 0.95 /\
    error p = None /\
    (prediction p = "scam"%string <-> 0.5 < scam_probability p).
Proof.
  intros g0 text g. cbn zeta. destruct (too_short text) eqn:Hshort.
  - rewrite (SimulatorFacts.simulate_short _ g text Hshort).
    cbn [fst _empty_prediction scam_probability confidence error prediction].
    repeat split; discriminate.
  - destruct (SimulatorFacts.text_scores_returns g0 text) as (md & matched & E).
    destruct (simulate_fields (built g0) text g md matched Hshort E)
      as ((S0 & S1) & (C0 & C1) & He & Hp & _).
    cbn zeta in S0, S1, C0, C1, He, Hp.
    repeat split; try assumption.
    + rewrite Hp. destruct (Np.Qltb 0.5 _) eqn:B; [|discriminate].
      intros _. now apply EnsembleFacts.Qltb_spec.
    + intros Hlt. apply EnsembleFacts.Qltb_spec in Hlt. now rewrite Hp, Hlt.
Qed.

Lemma built_model_confidence (g0 : rng) :
  model_confidence (built g0)
  = <["pattern_matching"%string := 0.85]>
      (<["bert_simulation"%string := 0.78]>
         (<["sentiment_analysis"%string := 0.72]>
            (<["entity_extraction"%string := 0.80]> (∅ : gmap string Q)))).
Proof. reflexivity. Qed.

Lemma re_search_returns (pat text : string) :
  is_Some (parse pat) -> exists b, re_search pat text = Return b.
Proof. intros [r E]. unfold re_search. rewrite E. eexists. reflexivity. Qed.

(** On the constructed simulator the three other models return, with the
    confidences of [model_confidence]. *)
Lemma pattern_model_returns (g0 : rng) (text : string) :
  exists out, _simulate_pattern_model (built g0) text = Return out /\
              0.85 <= out_confidence out /\ out_confidence out <= 0.95.
Proof.
  unfold _simulate_pattern_model.
  destruct (_calculate_pattern_score (built g0) (str_lower text)) as [ps matched].
  rewrite built_model_confidence.
  change (getitem _ "pattern_matching") with (@Return Q 0.85). cbn [bind].
  eexists. split; [reflexivity|]. cbn [out_confidence].
  destruct matched as [|m matched]; [split; discriminate|].
  split; [|apply Q.le_min_l]. apply Q.min_glb; [discriminate|].
  assert (0 <= Qnat (length (m :: matched))).
  { unfold Qnat. change 0 with (inject_Z 0). rewrite <- Zle_Qle. lia. }
  lra.
Qed.

Lemma sentiment_model_returns (g0 : rng) (text : string) :
  exists out, _simulate_sentiment_model (built g0) text = Return out /\
              out_confidence out = 0.72.
Proof.
  unfold _simulate_sentiment_model. rewrite built_model_confidence.
  change (getitem _ "sentiment_analysis") with (@Return Q 0.72). cbn [bind].
  eexists. split; reflexivity.
Qed.

Lemma entity_model_returns (g0 : rng) (text : string) :
  exists out, _simulate_entity_model (built g0) text = Return out /\
              out_confidence out = 0.80.
Proof.
  unfold _simulate_entity_model.
  destruct (re_search_returns "\$\d+|bitcoin|cryptocurrency|bank|account"
              (str_lower text)) as [b1 ->]; [vm_compute; eexists; reflexivity|].
  cbn [bind]. destruct b1.
  all: destruct (re_search_returns "@|\d{3}[-.\s]?\d{3}[-.\s]?\d{4}|call|email"
                   (str_lower text)) as [b2 ->]; [vm_compute; eexists; reflexivity|].
  all: cbn [bind]; destruct b2.
  all: destruct (re_search_returns "nigeria|ukraine|ghana|philippines"
                   (str_lower text)) as [b3 ->]; [vm_compute; eexists; reflexivity|].
  all: cbn [bind]; destruct b3.
  all: rewrite built_model_confidence.
  all: change (getitem _ "entity_extraction") with (@Return Q 0.80); cbn [bind].
  all: eexists; split; reflexivity.
Qed.

(** The confidence of an ensemble of four models whose confidences lie
    between 0.5 and 0.95. *)
Lemma ensemble_confidence_range (outs : list (string * ModelOutput)) :
  outs <> [] ->
  Forall (fun e => 0.5 <= out_confidence e.2 /\ out_confidence e.2 <= 0.95) outs ->
  0.1 <= _calculate_ensemble_confidence outs /\
  _calculate_ensemble_confidence outs <= 0.95.
Proof.
  intros Hne Hall. destruct outs as [|o outs]; [congruence|].
  unfold _calculate_ensemble_confidence.
  assert (Hm : 0.5 <= Np.mean (map (fun e => out_confidence e.2) (o :: outs)) /\
               Np.mean (map (fun e => out_confidence e.2) (o :: outs)) <= 0.95).
  { apply RiskScoreFacts.mean_bounds; [discriminate | now apply Forall_map]. }
  destruct Hm as [M0 M1].
  destruct (1 <? length _)%nat; [|split; lra].
  split; [apply Q.le_max_l|]. apply Q.max_lub; [discriminate|].
  assert (Hv : 0 <= Np.var (map (fun e => out_scam_probability e.2) (o :: outs)))
    by (apply WeightFacts.var_nonneg; discriminate).
  assert (Hp : 0 <= Qmin 0.3 (Np.var (map (fun e => out_scam_probability e.2) (o :: outs)) * 2))
    by (apply Q.min_glb; lra).
  lra.
Qed.

(** X15. The simulated ensemble on the constructed simulator, for any
    text, either mode and any generator state: it never ends in its error
    handler; the final score lies in [0, 1] and the confidence in
    [0.1, 0.95] (exactly 0.5 without the individual predictions); the
    verdict is [scam] exactly when the final score exceeds 0.5; and the
    call draws from the generator what one BERT simulation draws. *)
Theorem simulated_ensemble_ranges :
  forall (g0 : rng) (text : string) (include_individual : bool) (now : Z) (g : rng),
    let r := simulate_ensemble_prediction (built g0) text include_individual now g in
    r.2 = (simulate_bert_prediction (built g0) text g).2 /\
    exists e,
      r.1 = EnsembleDict e /\
      0 <= es_final_score e /\ es_final_score e <= 1 /\
      0.1 <= es_confidence e /\ es_confidence e <= 0.95 /\
      (include_individual = false -> es_confidence e = 0.5) /\
      es_risk_level e = risk_level_of (es_final_score e) /\
      (es_prediction e = "scam"%string <-> 0.5 < es_final_score e) /\
      length (es_individual_predictions e) = (if include_individual then 4 else 0)%nat.
Proof.
  intros g0 text incl now g. cbn zeta. unfold simulate_ensemble_prediction.
  pose proof (bert_simulation_confidence g0 text g) as (B0 & B1).
  destruct (simulate_bert_prediction (built g0) text g) as [bert g'].
  cbn [fst snd] in *. split; [reflexivity|].
  assert (Hpred : forall fs : Q,
            (if Np.Qltb 0.5 fs then "scam"%string else "not_scam"%string) = "scam"%string
            <-> 0.5 < fs).
  { intros fs. destruct (Np.Qltb 0.5 fs) eqn:B.
    - apply EnsembleFacts.Qltb_spec in B. tauto.
    - split; [discriminate|]. intros Hlt. apply EnsembleFacts.Qltb_spec in Hlt. congruence. }
  destruct incl.
  - destruct (pattern_model_returns g0 text) as (po & -> & P0 & P1).
    destruct (sentiment_model_returns g0 text) as (so & -> & S0).
    destruct (entity_model_returns g0 text) as (eo & -> & E0).
    cbn [bind try_except]. eexists. split; [reflexivity|].
    cbn [es_final_score es_confidence es_risk_level es_prediction
         es_individual_predictions length].
    split; [apply SimulatorFacts.clip_bounds|].
    split; [apply SimulatorFacts.clip_bounds|].
    assert (Hc : 0.1 <= _calculate_ensemble_confidence
                          [("bert"%string, bert_output bert); ("pattern"%string, po);
                           ("sentiment"%string, so); ("entity"%string, eo)] /\
                 _calculate_ensemble_confidence
                   [("bert"%string, bert_output bert); ("pattern"%string, po);
                    ("sentiment"%string, so); ("entity"%string, eo)] <= 0.95).
    { apply ensemble_confidence_range; [discriminate|].
      repeat constructor; cbn [snd fst bert_output out_confidence];
        rewrite ?S0, ?E0; try assumption; try discriminate; lra. }
    destruct Hc as [C0 C1].
    split; [exact C0|]. split; [exact C1|]. split; [discriminate|].
    split; [reflexivity|]. split; [apply Hpred | reflexivity].
  - cbn [bind try_except]. eexists. split; [reflexivity|].
    cbn [es_final_score es_confidence es_risk_level es_prediction
         es_individual_predictions length _calculate_ensemble_confidence].
    split; [apply SimulatorFacts.clip_bounds|].
    split; [apply SimulatorFacts.clip_bounds|].
    split; [discriminate|]. split; [discriminate|]. split; [reflexivity|].
    split; [reflexivity|]. split; [apply Hpred | reflexivity].
Qed.

Lemma advance_succ (n : nat) (g : rng) :
  advance (S n) g = advance n (standard_normal g).2.
Proof.
  unfold advance. induction n as [|n IH]; [reflexivity|].
  change (Nat.iter (S (S n)) (fun g => (standard_normal g).2) g)
    with ((standard_normal (Nat.iter (S n) (fun g => (standard_normal g).2) g)).2).
  now rewrite IH.
Qed.

(** One BERT simulation on the constructed simulator draws once for a
    text that passes the guard, and not at all for a shorter one. *)
Lemma simulate_draws (g0 : rng) (text : string) (g : rng) :
  (simulate_bert_prediction (built g0) text g).2
  = advance (if too_short text then 0 else 1) g.
Proof.
  destruct (too_short text) eqn:Hshort.
  - now rewrite (SimulatorFacts.simulate_short _ g text Hshort).
  - destruct (SimulatorFacts.text_scores_returns g0 text) as (md & matched & E).
    now destruct (simulate_fields (built g0) text g md matched Hshort E)
      as (_ & _ & _ & _ & ->).
Qed.

(** The ensemble simulation leaves the generator where its BERT
    simulation leaves it. *)
Lemma ensemble_simulation_draws (self : ScamModelSimulator) (text : string)
    (include_individual : bool) (now_ : Z) (g : rng) :
  (simulate_ensemble_prediction self text include_individual now_ g).2
  = (simulate_bert_prediction self text g).2.
Proof.
  unfold simulate_ensemble_prediction.
  now destruct (simulate_bert_prediction self text g) as [bert g'].
Qed.

Lemma batch_step_draws (g0 : rng) (include_individual : bool) (now_ : Z)
    (text : string) (g1 : rng) :
  (if include_individual
   then simulate_ensemble_prediction (built g0) text true now_ g1
   else let '(p, g') := simulate_bert_prediction (built g0) text g1 in
        (PredictionDict p, g')).2
  = advance (if too_short text then 0 else 1) g1.
Proof.
  destruct include_individual.
  - rewrite ensemble_simulation_draws. apply simulate_draws.
  - pose proof (simulate_draws g0 text g1) as Hd.
    destruct (simulate_bert_prediction (built g0) text g1) as [p g']. exact Hd.
Qed.

Lemma batch_loop_spec (g0 : rng) (include_individual : bool) (now : nat -> Z)
    (texts : list string) :
  forall (i : nat) (g : rng) (results : list BatchResult) (g' : rng),
    batch_loop (built g0) include_individual now i texts g = (results, g') ->
    length results = length texts /\
    (forall k item, results !! k = Some item ->
       batch_index item = (i + k)%nat /\ 0.05 <= estimated_processing_time item) /\
    g' = advance (length texts + length (long_enough texts)) g.
Proof.
  induction texts as [|text texts IH]; intros i g results g' E.
  - injection E as <- <-. split; [reflexivity|]. split; [|reflexivity].
    intros k item Hk. discriminate.
  - cbn [batch_loop] in E. unfold normal in E.
    destruct (standard_normal g) as [z g1] eqn:Eg.
    pose proof (batch_step_draws g0 include_individual (now i) text g1) as Hstep.
    destruct (if include_individual then _ else _) as [result g2].
    cbn [snd] in Hstep.
    destruct (batch_loop (built g0) include_individual now (S i) texts g2)
      as [results' g3] eqn:E'.
    injection E as <- <-.
    destruct (IH (S i) g2 results' g3 E') as (IHlen & IHidx & IHg).
    split; [cbn [length]; now rewrite IHlen|]. split.
    + intros [|k] item Hk.
      * injection Hk as <-. cbn [batch_index estimated_processing_time].
        split; [lia | apply Q.le_max_l].
      * destruct (IHidx k item Hk) as [Hi Ht]. split; [lia | exact Ht].
    + rewrite IHg, Hstep. unfold long_enough. cbn [List.filter].
      assert (Eg1 : g1 = (standard_normal g).2) by now rewrite Eg.
      destruct (too_short text); cbn [negb length].
      * cbn [Nat.add]. rewrite advance_succ, <- Eg1. reflexivity.
      * rewrite Nat.add_succ_r. cbn [Nat.add].
        rewrite !advance_succ, <- Eg1. reflexivity.
Qed.

(** X16. A simulated batch on the constructed simulator, in either mode:
    one result per text, in order, the [i]-th with [batch_index] i and an
    estimated processing time of at least 0.05; the batch advances the
    generator by one draw per text (the delay) plus one draw per text
    that passes the length guard (the noise), so the prediction of an item
    is not the one a single call would make from the same state. *)
Theorem batch_results_and_draws :
  forall (g0 : rng) (texts : list string) (include_individual : bool)
         (now : nat -> Z) (g : rng),
    let r := simulate_batch_predictions (built g0) texts include_individual now g in
    length r.1 = length texts /\
    (forall i item, r.1 !! i = Some item ->
       batch_index item = i /\ 0.05 <= estimated_processing_time item) /\
    r.2 = advance (length texts + length (long_enough texts)) g.
Proof.
  intros g0 texts incl now g. cbn zeta. unfold simulate_batch_predictions.
  destruct (batch_loop (built g0) incl now 0 texts g) as [results g'] eqn:E.
  destruct (batch_loop_spec g0 incl now texts 0 g results g' E) as (H1 & H2 & H3).
  cbn [fst snd]. split; [exact H1|]. split; [|exact H3].
  intros i item Hi. exact (H2 i item Hi).
Qed.

End WithNumpy.

Lemma prediction_ignores_case_witness :
  @simulate_bert_prediction listed_numpy (@built listed_numpy O)
    "GUARANTEED Returns, ACT NOW" O
  = @simulate_bert_prediction listed_numpy (@built listed_numpy O)
      "guaranteed returns, act now" O /\
  count_upper (str_lower "GUARANTEED Returns, ACT NOW") = 0%nat.
Proof.
  apply (@prediction_ignores_case listed_numpy (@built listed_numpy O)
           "GUARANTEED Returns, ACT NOW" "guaranteed returns, act now" O);
    reflexivity.
Defined.

End SimulationFacts.

(** ** The detection service: cache and metrics *)

Module ServiceFacts.
Import Py ScanProcessor DetectionService ServiceSpec.
Local Open Scope Q_scope.

Lemma cache_entry_truthy (result : gmap string pyval) (stored_at : Z) :
  truthy (Some (cache_entry result stored_at)) = Some (cache_entry result stored_at).
Proof.
  unfold truthy, cache_entry.
  rewrite bool_decide_eq_false_2; [reflexivity|].
  apply insert_non_empty.
Qed.

Lemma update_metrics_counted (m : Metrics) (t : Q) :
  (0 <= total_requests m)%Z ->
  _update_performance_metrics (count_request m) t
  = Return {| total_requests := total_requests m + 1;
              cache_hits := cache_hits m;
              cache_misses := cache_misses m;
              avg_response_time :=
                (avg_response_time m * inject_Z (total_requests m + 1 - 1) + t)
                / inject_Z (total_requests m + 1);
              metrics_error_count := metrics_error_count m |}.
Proof.
  intros Hn. unfold _update_performance_metrics, count_request.
  cbn [total_requests avg_response_time cache_hits cache_misses metrics_error_count].
  destruct (Z.eqb_spec (total_requests m + 1) 0) as [E|_]; [lia|reflexivity].
Qed.

(** One request that goes through the analysis. *)
Lemma analysed_step (r : Request) (m : Metrics) (w : World) :
  analysed r -> (0 <= total_requests m)%Z ->
  exists result m',
    analyze_text r m w = (result, m', w) /\
    perform_analysis r = Return result /\
    total_requests m' = (total_requests m + 1)%Z /\
    cache_hits m' = cache_hits m /\
    cache_misses m' = cache_misses m /\
    metrics_error_count m' = metrics_error_count m /\
    avg_response_time m' * inject_Z (total_requests m')
    == avg_response_time m * inject_Z (total_requests m) + elapsed r.
Proof.
  intros [Hu [result Hp]] Hn. unfold analyze_text.
  rewrite Hu, Hp. cbn [andb].
  rewrite update_metrics_counted by exact Hn.
  eexists _, _. split; [reflexivity|].
  cbn [total_requests cache_hits cache_misses metrics_error_count avg_response_time].
  repeat (split; [reflexivity|]).
  replace (total_requests m + 1 - 1)%Z with (total_requests m) by lia.
  assert (Hpos : 0 < inject_Z (total_requests m + 1)).
  { change 0 with (inject_Z 0). rewrite <- Zlt_Qlt. lia. }
  field. lra.
Qed.

Lemma serve_analysed (requests : list Request) :
  forall (m : Metrics) (w : World),
    Forall analysed requests -> (0 <= total_requests m)%Z ->
    total_requests (serve requests m w).1
    = (total_requests m + Z.of_nat (length requests))%Z /\
    cache_hits (serve requests m w).1 = cache_hits m /\
    cache_misses (serve requests m w).1 = cache_misses m /\
    metrics_error_count (serve requests m w).1 = metrics_error_count m /\
    avg_response_time (serve requests m w).1
      * inject_Z (total_requests (serve requests m w).1)
    == avg_response_time m * inject_Z (total_requests m)
       + EnsembleSpec.Qsum (map elapsed requests) /\
    (serve requests m w).2 = w.
Proof.
  induction requests as [|r rest IH]; intros m w Hall Hn.
  - unfold serve. cbn [fold_left fst snd length map].
    change (EnsembleSpec.Qsum []) with 0.
    repeat split; try reflexivity; try lia. ring.
  - apply Forall_cons in Hall as [Hr Hrest].
    destruct (analysed_step r m w Hr Hn)
      as (result & m' & Hstep & _ & Ht & Hh & Hm & He & Havg).
    assert (Hserve : serve (r :: rest) m w = serve rest m' w).
    { unfold serve. cbn [fold_left fst snd]. now rewrite Hstep. }
    rewrite Hserve.
    destruct (IH m' w Hrest ltac:(lia)) as (T & H & M & E & A & W).
    rewrite T, H, M, E, W in *. cbn [length map].
    change (EnsembleSpec.Qsum (elapsed r :: map elapsed rest))
      with (elapsed r + EnsembleSpec.Qsum (map elapsed rest)).
    repeat split; try congruence; try lia.
    rewrite A, Havg. ring.
Qed.

(** X23. A result the service analysed with success and cached is what a
    later request for the same text gets while the entry is in the store:
    the first result with the keys [cached_at], [expires_at] and
    [retrieved_at] added, whatever the second request's own analysis (its
    options, its user context) would have returned.  The hit is counted as
    a request and as a cache hit, and leaves the average response time and
    the store as they were. *)
Theorem cached_result_is_served :
  forall (r1 r2 : Request) (result : gmap string pyval) (m : Metrics) (w : World),
    is_connected w = true ->
    use_cache r1 = true -> use_cache r2 = true ->
    text_hash r2 = text_hash r1 ->
    get_cached_analysis (text_hash r1) w = None ->
    perform_analysis r1 = Return result ->
    is_success result = true ->
    (0 <= total_requests m)%Z ->
    exists (m1 m2 : Metrics) (w1 : World),
      analyze_text r1 m w = (result, m1, w1) /\
      analyze_text r2 m1 w1
      = (<["retrieved_at"%string := VTime (now r2)]> (cache_entry result (now r1)),
         m2, w1) /\
      total_requests m2 = (total_requests m + 2)%Z /\
      cache_hits m2 = (cache_hits m + 1)%Z /\
      cache_misses m2 = (cache_misses m + 1)%Z /\
      metrics_error_count m2 = metrics_error_count m /\
      avg_response_time m2 = avg_response_time m1.
Proof.
  intros r1 r2 result m w Hc Hu1 Hu2 Hh Hnone Hp Hs Hn.
  unfold analyze_text at 1.
  rewrite Hu1, Hnone, Hp, Hs. cbn [truthy andb].
  assert (Hupd := update_metrics_counted (count_miss m) (elapsed r1)).
  cbn [count_miss total_requests cache_hits cache_misses metrics_error_count
       avg_response_time] in Hupd.
  change (count_miss (count_request m)) with (count_request (count_miss m)).
  rewrite (Hupd Hn). clear Hupd.
  unfold cache_analysis_result, set_cache. rewrite Hc. cbn [fst].
  eexists _, _, _. split; [reflexivity|].
  unfold analyze_text. rewrite Hu2, Hh.
  unfold get_cached_analysis, get_cache. cbn [is_connected store].
  rewrite lookup_insert_eq. cbn [fmap option_fmap option_map fst].
  fold (cache_entry result (now r1)).
  rewrite cache_entry_truthy.
  split; [reflexivity|].
  cbn [count_hit count_request total_requests cache_hits cache_misses
       metrics_error_count avg_response_time].
  repeat split; try reflexivity; lia.
Qed.

Lemma cached_result_is_served_witness :
  exists (m1 m2 : Metrics) (w1 : World),
    analyze_text first_request __init__ QueueSpec.empty_world = (QueueOrderSpec.sample_result, m1, w1) /\
    analyze_text second_request m1 w1
    = (<["retrieved_at"%string := VTime (now second_request)]>
         (cache_entry QueueOrderSpec.sample_result (now first_request)),
       m2, w1) /\
    total_requests m2 = (total_requests __init__ + 2)%Z /\
    cache_hits m2 = (cache_hits __init__ + 1)%Z /\
    cache_misses m2 = (cache_misses __init__ + 1)%Z /\
    metrics_error_count m2 = metrics_error_count __init__ /\
    avg_response_time m2 = avg_response_time m1.
Proof.
  apply (cached_result_is_served first_request second_request
           QueueOrderSpec.sample_result __init__ QueueSpec.empty_world);
    first [reflexivity | cbn; lia].
Defined.

(** X24. While every request goes through the analysis and succeeds
    (the cache not used), the average response time of the metrics is the
    arithmetic mean of the processing times: after a non-empty sequence of
    such requests on a new service, [total_requests] is their number,
    [avg_response_time] is the mean of their times, no error is counted
    and the store is untouched. *)
Theorem average_is_mean_of_analysed :
  forall (requests : list Request) (w : World),
    requests <> [] ->
    Forall analysed requests ->
    total_requests (serve requests __init__ w).1 = Z.of_nat (length requests) /\
    avg_response_time (serve requests __init__ w).1
    == Np.mean (map elapsed requests) /\
    metrics_error_count (serve requests __init__ w).1 = 0%Z /\
    (serve requests __init__ w).2 = w.
Proof.
  intros requests w Hne Hall.
  destruct (serve_analysed requests __init__ w Hall ltac:(cbn; lia))
    as (T & _ & _ & E & A & W).
  cbn [__init__ total_requests metrics_error_count avg_response_time] in T, E, A.
  rewrite T in A. rewrite Z.add_0_l in T.
  split; [exact T|]. split; [|split; [exact E | exact W]].
  rewrite EnsembleFacts.mean_Qsum, length_map.
  assert (Hpos : 0 < inject_Z (Z.of_nat (length requests))).
  { change 0 with (inject_Z 0). rewrite <- Zlt_Qlt.
    destruct requests; [congruence | cbn [length]; lia]. }
  rewrite Z.add_0_l in A.
  apply Qmult_inj_r with (z := inject_Z (Z.of_nat (length requests))); [lra|].
  rewrite A. field. lra.
Qed.

Lemma average_is_mean_of_analysed_witness :
  total_requests (serve uncached_requests __init__ QueueOrderSpec.offline_world).1
  = Z.of_nat (length uncached_requests) /\
  avg_response_time (serve uncached_requests __init__ QueueOrderSpec.offline_world).1
  == Np.mean (map elapsed uncached_requests) /\
  metrics_error_count (serve uncached_requests __init__ QueueOrderSpec.offline_world).1 = 0%Z /\
  (serve uncached_requests __init__ QueueOrderSpec.offline_world).2 = QueueOrderSpec.offline_world.
Proof.
  apply (average_is_mean_of_analysed uncached_requests QueueOrderSpec.offline_world).
  - discriminate.
  - repeat constructor; eexists; reflexivity.
Defined.

End ServiceFacts.

(** ** The scan queue: order, storage, connection loss *)

Module QueueOrderFacts.
Import Py ScanProcessor ScanWorker QueueSpec QueueOrderSpec WorkerSpec.

Lemma add_to_queue_connected (q : string) (item : ScanItem) (w : World) :
  is_connected (add_to_queue q item w).1 = is_connected w.
Proof. unfold add_to_queue. destruct (is_connected w) eqn:E; [reflexivity | exact E]. Qed.

Lemma push_all_queue (q : string) (items : list ScanItem) :
  forall w : World,
    is_connected w = true ->
    is_connected (push_all q items w) = true /\
    queue_of (push_all q items w) q = reverse items ++ queue_of w q.
Proof.
  induction items as [|item items IH]; intros w Hc.
  - split; [exact Hc | reflexivity].
  - unfold push_all. cbn [fold_left]. fold (push_all q items (add_to_queue q item w).1).
    destruct (IH (add_to_queue q item w).1) as [IHc IHq].
    { now rewrite add_to_queue_connected. }
    split; [exact IHc|].
    rewrite IHq, (QueueFacts.queue_of_push q item w Hc), reverse_cons, <- app_assoc.
    reflexivity.
Qed.

Lemma pop_oldest (q : string) (w : World) (item : ScanItem) (rest : list ScanItem) :
  is_connected w = true ->
  reverse (queue_of w q) = item :: rest ->
  (get_from_queue q w).1 = Some item /\
  is_connected (get_from_queue q w).2 = true /\
  reverse (queue_of (get_from_queue q w).2 q) = rest.
Proof.
  intros Hc Hq. unfold get_from_queue. rewrite Hc, Hq. cbn [fst snd is_connected].
  split; [reflexivity|]. split; [reflexivity|].
  unfold queue_of. cbn [queues]. rewrite lookup_insert_eq. cbn.
  apply reverse_involutive.
Qed.

Lemma pop_empty (q : string) (w : World) :
  queue_of w q = [] -> get_from_queue q w = (None, w).
Proof.
  intros Hq. unfold get_from_queue. rewrite Hq. destruct (is_connected w); reflexivity.
Qed.

Lemma drain_oldest_first (q : string) (oldest_first : list ScanItem) :
  forall w : World,
    is_connected w = true ->
    reverse (queue_of w q) = oldest_first ->
    (drain q (length oldest_first) w).1 = map Some oldest_first /\
    queue_of (drain q (length oldest_first) w).2 q = [].
Proof.
  induction oldest_first as [|item rest IH]; intros w Hc Hq.
  - cbn. split; [reflexivity|].
    apply (f_equal reverse) in Hq. now rewrite reverse_involutive in Hq.
  - destruct (pop_oldest q w item rest Hc Hq) as (Hp & Hc' & Hq').
    cbn [length drain].
    destruct (get_from_queue q w) as [popped w']. cbn [fst snd] in Hp, Hc', Hq'.
    destruct (IH w' Hc' Hq') as [IH1 IH2].
    destruct (drain q (length rest) w') as [items w'']. cbn [fst snd] in *.
    split; [now rewrite Hp, IH1 | exact IH2].
Qed.

(** X17. The queue is first in, first out: when the items that wait in a
    queue and then the newly added ones are fetched, they come out oldest
    first, the new ones in the order they were added ([add_to_queue]
    pushes at the left, [get_from_queue] pops at the right); after that
    the queue is empty and a further fetch returns nothing. *)
Theorem queue_is_fifo :
  forall (queue_name : string) (items : list ScanItem) (w : World),
    is_connected w = true ->
    let waiting := reverse (queue_of w queue_name) in
    let r := drain queue_name (length (waiting ++ items))
                   (push_all queue_name items w) in
    r.1 = map Some (waiting ++ items) /\
    queue_of r.2 queue_name = [] /\
    get_from_queue queue_name r.2 = (None, r.2).
Proof.
  intros q items w Hc waiting r.
  destruct (push_all_queue q items w Hc) as [Hc' Hq'].
  assert (Hrev : reverse (queue_of (push_all q items w) q) = waiting ++ items).
  { rewrite Hq', reverse_app, reverse_involutive. reflexivity. }
  destruct (drain_oldest_first q (waiting ++ items) (push_all q items w) Hc' Hrev)
    as [H1 H2].
  fold r in H1, H2. split; [exact H1|]. split; [exact H2|].
  now apply pop_empty.
Qed.

Lemma queue_is_fifo_witness :
  let waiting := reverse (queue_of empty_world scan_queue) in
  let r := drain scan_queue
             (length (waiting ++ [sample_item; requeued sample_item "late" 5]))
             (push_all scan_queue [sample_item; requeued sample_item "late" 5]
                       empty_world) in
  r.1 = map Some (waiting ++ [sample_item; requeued sample_item "late" 5]) /\
  queue_of r.2 scan_queue = [] /\
  get_from_queue scan_queue r.2 = (None, r.2).
Proof.
  apply (queue_is_fifo scan_queue [sample_item; requeued sample_item "late" 5]
           empty_world).
  reflexivity.
Defined.

Lemma nonempty_eqb (txt : string) : txt <> ""%string -> String.eqb txt "" = false.
Proof. intros Hne. now apply String.eqb_neq. Qed.

Lemma result_key_is_not_analysis_key (rid h : string) :
  result_key rid <> analysis_key h.
Proof. unfold result_key, analysis_key. cbn. discriminate. Qed.

(** The post to the callback URL changes the list of callbacks only. *)
Lemma posted_world (item : ScanItem) (w : World) :
  is_connected (posted item w) = is_connected w /\
  queues (posted item w) = queues w /\
  store (posted item w) = store w /\
  writes (posted item w) = writes w /\
  callbacks (posted item w) = callbacks w ++ callback_of item /\
  processed_count (posted item w) = processed_count w /\
  error_count (posted item w) = error_count w.
Proof.
  unfold posted, callback_of.
  destruct (callback_url item) as [url|]; [destruct (String.eqb url "")|];
    cbn; rewrite ?app_nil_r; repeat split.
Qed.

(** With the connection down the detection service leaves the world. *)
Lemma analyze_text_offline (r : DetectionService.Request)
    (m : DetectionService.Metrics) (w : World) :
  is_connected w = false -> (DetectionService.analyze_text r m w).2 = w.
Proof.
  intros Hc. unfold DetectionService.analyze_text.
  destruct (if DetectionService.use_cache r then _ else None) as [cached|];
    [reflexivity|].
  destruct (DetectionService.perform_analysis r) as [result|e]; [|reflexivity].
  unfold DetectionService.cache_analysis_result, set_cache. rewrite Hc. cbn [fst].
  destruct (DetectionService.use_cache r && DetectionService.is_success result);
    destruct (DetectionService._update_performance_metrics _ _); reflexivity.
Qed.

Section WithHashlib.
Context `{DetectionService.Hashlib}.

(** What processing an item with a text leaves behind, in terms of what
    the detection service returned and left. *)
Lemma processed_world (item : ScanItem) (txt : string) (ev : Round)
    (m : DetectionService.Metrics) (w : World) :
  text item = Some txt -> txt <> ""%string ->
  let r := DetectionService.analyze_text (analyze_request txt ev) m w in
  let key := result_key (default "unknown"%string (request_id item)) in
  let w' := (_process_scan_item item ev (m, w)).2 in
  is_connected w' = is_connected w /\
  queues w' = queues w /\
  callbacks w' = callbacks w ++ callback_of item /\
  processed_count w' = (processed_count w + 1)%Z /\
  error_count w' = error_count w /\
  (is_connected w = true ->
     store w' = <[key := (r.1.1, 3600%Z)]> (store r.2) /\
     writes w' = writes r.2 ++ [key]) /\
  (is_connected w = false -> store w' = store w /\ writes w' = writes w).
Proof.
  intros Ht Hne r key w'. subst w'.
  rewrite (QueueFacts.process_scan_item_body item txt ev m w Ht Hne).
  cbn zeta. cbn [snd]. fold r.
  destruct (QueueFacts.analyze_text_world (analyze_request txt ev) m w)
    as (Hc & Hq & Hcb & Hp & He). cbn zeta in Hc, Hq, Hcb, Hp, He.
  fold r in Hc, Hq, Hcb, Hp, He.
  pose proof (analyze_text_offline (analyze_request txt ev) m w) as Hoff.
  fold r in Hoff.
  set (w2 := _store_scan_result (default "unknown"%string (request_id item)) r.1.1 r.2).
  destruct (posted_world item w2) as (P1 & P2 & P3 & P4 & P5 & P6 & P7).
  unfold count_processed.
  cbn [is_connected queues callbacks processed_count error_count store writes].
  rewrite P1, P2, P3, P4, P5, P6, P7.
  unfold w2, _store_scan_result, set_cache. fold key.
  destruct (is_connected r.2) eqn:Hc2; cbn [fst];
    cbn [is_connected queues callbacks processed_count error_count store writes];
    rewrite ?Hc2, Hq, Hcb, Hp, He.
  - rewrite <- Hc. repeat split; try reflexivity; intros; discriminate.
  - rewrite <- Hc. rewrite (Hoff (eq_sym Hc)).
    repeat split; try reflexivity; intros; discriminate.
Qed.

(** X18. A submitted request is processed once, whatever its analysis
    does: [add_scan_request] puts the request, with the priority given,
    the submission time and a retry count of 0 (whatever the request data
    carried), into the priority queue for [high] and into the scan queue
    otherwise; one round of the worker of that queue takes it, leaves the
    queue empty, stores an answer under [scan_result:<id>] and counts the
    request as processed, never as an error; no later round finds
    anything to do. *)
Theorem request_is_processed_once :
  forall (request_data : ScanItem) (prio txt : string) (now : Z)
         (ev : Round) (later : list Round)
         (m : DetectionService.Metrics) (w : World),
    is_connected w = true ->
    queue_of w (submit_queue prio) = [] ->
    text request_data = Some txt -> txt <> ""%string ->
    let q := submit_queue prio in
    let item := submitted request_data prio now in
    let rid := default "unknown"%string (request_id request_data) in
    let w1 := (add_scan_request request_data prio now w).1 in
    let s2 := worker_round q ev (m, w1) in
    (add_scan_request request_data prio now w).2 = true /\
    queue_of w1 q = [item] /\
    priority item = Some prio /\ retry_count item = Some 0%Z /\
    queue_of s2.2 q = [] /\
    is_Some (get_cache (result_key rid) s2.2) /\
    processed_count s2.2 = (processed_count w + 1)%Z /\
    error_count s2.2 = error_count w /\
    worker_run q later s2 = s2.
Proof.
  intros req prio txt now ev later m w Hc Hempty Ht Hne q item rid w1 s2.
  assert (Hadd : add_scan_request req prio now w = add_to_queue q item w) by reflexivity.
  assert (Hw1 : w1 = (add_to_queue q item w).1) by (subst w1; now rewrite Hadd).
  assert (Hc1 : is_connected w1 = true) by (rewrite Hw1; now rewrite add_to_queue_connected).
  assert (Hq1 : queue_of w1 q = [item]).
  { rewrite Hw1, (QueueFacts.queue_of_push q item w Hc). subst q. now rewrite Hempty. }
  assert (Hn1 : processed_count w1 = processed_count w /\ error_count w1 = error_count w).
  { rewrite Hw1. unfold add_to_queue. rewrite Hc. now split. }
  destruct Hn1 as [Hp1 He1].
  destruct (QueueFacts.single_round q item ev m w1 Hc1 Hq1)
    as (w0 & Hround & Hc0 & Hq0 & _ & _ & _ & Hp0 & He0).
  assert (Hti : text item = Some txt) by exact Ht.
  destruct (processed_world item txt ev m w0 Hti Hne)
    as (Hc2 & Hq2 & _ & Hp2 & He2 & Hon & _).
  cbn zeta in Hc2, Hq2, Hp2, He2, Hon.
  destruct (Hon Hc0) as [Hstore _].
  change (request_id item) with (request_id req) in Hstore. fold rid in Hstore.
  assert (Hs2 : s2 = _process_scan_item item ev (m, w0)) by exact Hround.
  assert (Hqe : queue_of s2.2 q = []).
  { rewrite Hs2. unfold queue_of. rewrite Hq2. exact Hq0. }
  split; [rewrite Hadd; unfold add_to_queue; now rewrite Hc|].
  split; [exact Hq1|]. split; [reflexivity|]. split; [reflexivity|].
  split; [exact Hqe|]. split; [|split; [|split]].
  - rewrite Hs2. unfold get_cache. rewrite Hc2, Hc0, Hstore, lookup_insert_eq.
    cbn. eexists. reflexivity.
  - rewrite Hs2, Hp2, Hp0, Hp1. reflexivity.
  - rewrite Hs2, He2, He0, He1. reflexivity.
  - apply QueueFacts.idle_run. exact Hqe.
Qed.

(** The detection service on a request whose analysis returns, the cache
    holding nothing for its text. *)
Lemma analyze_text_success (txt : string) (result : gmap string pyval) (ev : Round)
    (m : DetectionService.Metrics) (w : World) :
  round_analysis ev = Return result ->
  DetectionService.get_cached_analysis (DetectionService._generate_text_hash txt) w
  = None ->
  (0 <= DetectionService.total_requests m)%Z ->
  let r := DetectionService.analyze_text (analyze_request txt ev) m w in
  r.1.1 = result /\
  r.2 = if DetectionService.is_success result
        then (DetectionService.cache_analysis_result
                (DetectionService._generate_text_hash txt) result
                DetectionService.MODEL_UPDATE_INTERVAL (round_now ev) w).1
        else w.
Proof.
  intros He Hmiss Hn. cbn zeta.
  unfold DetectionService.analyze_text, analyze_request.
  cbn [DetectionService.use_cache DetectionService.text_hash
       DetectionService.perform_analysis DetectionService.now
       DetectionService.elapsed].
  rewrite Hmiss, He. cbn [DetectionService.truthy andb].
  change (DetectionService.count_miss (DetectionService.count_request m))
    with (DetectionService.count_request (DetectionService.count_miss m)).
  rewrite (ServiceFacts.update_metrics_counted (DetectionService.count_miss m)
             (round_elapsed ev) Hn).
  now split.
Qed.

(** X19. A scan that succeeds is stored where it can be fetched: with the
    store connected and nothing cached for the text, [_process_scan_item]
    puts the result under [scan_result:<request_id>]
    ([scan_result:unknown] for a request without an id) with an expiry of
    3600 seconds, so that [get_cache] returns it; a result with status
    [success] is also cached by the detection service under
    [analysis:<hash of the text>], with the keys [cached_at] and
    [expires_at] added; no other key and no queue changes, the callback
    URL (if one is given) is posted to, [processed_count] grows by one and
    [error_count] stays. *)
Theorem successful_scan_is_stored :
  forall (item : ScanItem) (txt : string) (result : gmap string pyval) (ev : Round)
         (m : DetectionService.Metrics) (w : World),
    is_connected w = true ->
    text item = Some txt -> txt <> ""%string ->
    round_analysis ev = Return result ->
    DetectionService.get_cached_analysis (DetectionService._generate_text_hash txt) w
    = None ->
    (0 <= DetectionService.total_requests m)%Z ->
    let key := result_key (default "unknown"%string (request_id item)) in
    let cached := analysis_key (DetectionService._generate_text_hash txt) in
    let w' := (_process_scan_item item ev (m, w)).2 in
    get_cache key w' = Some result /\
    store w' !! key = Some (result, 3600%Z) /\
    (DetectionService.is_success result = true ->
       store w' !! cached
       = Some (ServiceSpec.cache_entry result (round_now ev),
               DetectionService.MODEL_UPDATE_INTERVAL) /\
       writes w' = writes w ++ [cached; key]) /\
    (DetectionService.is_success result = false ->
       store w' !! cached = store w !! cached /\
       writes w' = writes w ++ [key]) /\
    (forall k, k <> key -> k <> cached -> store w' !! k = store w !! k) /\
    queues w' = queues w /\
    callbacks w' = callbacks w ++ callback_of item /\
    processed_count w' = (processed_count w + 1)%Z /\
    error_count w' = error_count w.
Proof.
  intros item txt result ev m w Hc Ht Hne He Hmiss Hn key cached w'.
  destruct (processed_world item txt ev m w Ht Hne)
    as (Hc' & Hq' & Hcb' & Hp' & He' & Hon & _).
  cbn zeta in Hc', Hq', Hcb', Hp', He', Hon. fold key w' in Hc', Hq', Hcb', Hp', He', Hon.
  destruct (Hon Hc) as [Hstore Hwrites]. clear Hon.
  destruct (analyze_text_success txt result ev m w He Hmiss Hn) as [Hres Hworld].
  cbn zeta in Hres, Hworld. rewrite Hres in Hstore. rewrite Hworld in Hstore, Hwrites.
  clear Hres Hworld.
  assert (Hkeys : key <> cached) by apply result_key_is_not_analysis_key.
  unfold DetectionService.cache_analysis_result, set_cache in Hstore, Hwrites.
  rewrite Hc in Hstore, Hwrites.
  fold (analysis_key (DetectionService._generate_text_hash txt)) in Hstore, Hwrites.
  fold cached in Hstore, Hwrites.
  fold (ServiceSpec.cache_entry result (round_now ev)) in Hstore.
  split; [unfold get_cache; rewrite Hc', Hc, Hstore, lookup_insert_eq; reflexivity|].
  split; [rewrite Hstore, lookup_insert_eq; reflexivity|].
  split; [|split; [|split]].
  - intros Hs. rewrite Hs in Hstore, Hwrites. cbn [fst store writes] in Hstore, Hwrites.
    split.
    + rewrite Hstore, lookup_insert_ne by exact Hkeys. now rewrite lookup_insert_eq.
    + rewrite Hwrites, <- app_assoc. reflexivity.
  - intros Hs. rewrite Hs in Hstore, Hwrites.
    split; [rewrite Hstore; now rewrite lookup_insert_ne by exact Hkeys | exact Hwrites].
  - intros k Hk1 Hk2. rewrite Hstore, lookup_insert_ne by congruence.
    destruct (DetectionService.is_success result); [|reflexivity].
    cbn [fst store]. now rewrite lookup_insert_ne by congruence.
  - repeat split; assumption.
Qed.

(** X20. With the Redis connection down nothing is kept: a submission is
    refused and a fetch returns nothing; a scan, whether its analysis
    returns or raises, is counted as processed and its callback is posted
    although neither its result nor the analysis is stored, and no lookup
    finds anything. *)
Theorem disconnected_store_keeps_nothing :
  forall (item : ScanItem) (txt : string) (ev : Round)
         (m : DetectionService.Metrics) (w : World),
    is_connected w = false ->
    text item = Some txt -> txt <> ""%string ->
    (forall request_data prio t, add_scan_request request_data prio t w = (w, false)) /\
    (forall q, get_from_queue q w = (None, w)) /\
    (let w' := (_process_scan_item item ev (m, w)).2 in
     store w' = store w /\ queues w' = queues w /\ writes w' = writes w /\
     (forall key, get_cache key w' = None) /\
     callbacks w' = callbacks w ++ callback_of item /\
     processed_count w' = (processed_count w + 1)%Z /\
     error_count w' = error_count w).
Proof.
  intros item txt ev m w Hc Ht Hne.
  split; [|split].
  - intros req prio t. unfold add_scan_request, add_to_queue. now rewrite Hc.
  - intros q. unfold get_from_queue. now rewrite Hc.
  - destruct (processed_world item txt ev m w Ht Hne)
      as (Hc' & Hq' & Hcb' & Hp' & He' & _ & Hoff).
    cbn zeta in Hc', Hq', Hcb', Hp', He', Hoff. cbn zeta.
    destruct (Hoff Hc) as [Hs Hw].
    repeat split; try assumption.
    intros key. unfold get_cache. now rewrite Hc', Hc.
Qed.

Lemma reverse_tail_take {A : Type} (l rest : list A) (x : A) :
  reverse l = x :: rest -> reverse rest = take (length l - 1) l.
Proof.
  intros E. apply (f_equal reverse) in E.
  rewrite reverse_involutive, reverse_cons in E. subst l.
  rewrite length_app. cbn [length].
  replace (length (reverse rest) + 1 - 1)%nat with (length (reverse rest)) by lia.
  now rewrite take_app_length.
Qed.

(** One round of a worker: the connection, every other queue and
    [error_count] stay, and with the connection up the queue loses the
    item at its right end, if it has one. *)
Lemma worker_round_removes (q : string) (ev : Round)
    (s : DetectionService.Metrics * World) :
  let s' := worker_round q ev s in
  is_connected s'.2 = is_connected s.2 /\
  error_count s'.2 = error_count s.2 /\
  (forall q', q' <> q -> queue_of s'.2 q' = queue_of s.2 q') /\
  queue_of s'.2 q
  = take (length (queue_of s.2 q) - (if is_connected s.2 then 1 else 0))
         (queue_of s.2 q).
Proof.
  destruct s as [m w]. cbn zeta. cbn [snd]. unfold worker_round, get_from_queue.
  cbn [fst snd].
  destruct (is_connected w) eqn:Hc.
  - destruct (reverse (queue_of w q)) as [|item rest] eqn:Hrev.
    + cbn [snd]. rewrite Hc.
      apply (f_equal reverse) in Hrev. rewrite reverse_involutive in Hrev.
      rewrite Hrev. repeat split.
    + match goal with
      | |- context [_process_scan_item item ev (m, ?w0)] =>
          destruct (QueueFacts.process_scan_item_keeps item ev m w0) as (K1 & K2 & K3)
      end.
      cbn zeta in K1, K2, K3. cbn [is_connected queues error_count] in K1, K2, K3.
      rewrite K1, K3. unfold queue_of at 1 3. rewrite K2. cbn [queues].
      split; [first [exact Hc | reflexivity]|]. split; [reflexivity|]. split.
      * intros q' Hq'. now rewrite lookup_insert_ne by congruence.
      * rewrite lookup_insert_eq. cbn [default from_option id].
        now apply reverse_tail_take with item.
  - cbn [snd]. rewrite Hc, Nat.sub_0_r, firstn_all. repeat split.
Qed.

(** X21. The workers never put an item back: whatever the analyses do
    over any number of rounds, [error_count] stays, every other queue is
    untouched, and the queue of the worker is what it was without the
    items taken from its right end, one per round while there are any (all
    of it when the connection is down).  So no item is ever retried, and
    no [retry_count], [last_error] or [retry_at] is ever written. *)
Theorem worker_only_removes :
  forall (q : string) (evs : list Round) (m : DetectionService.Metrics) (w : World),
    let s' := worker_run q evs (m, w) in
    is_connected s'.2 = is_connected w /\
    error_count s'.2 = error_count w /\
    (forall q', q' <> q -> queue_of s'.2 q' = queue_of w q') /\
    queue_of s'.2 q
    = take (length (queue_of w q) - (if is_connected w then length evs else 0))
           (queue_of w q).
Proof.
  intros q evs. induction evs as [|ev evs IH]; intros m w; cbn zeta.
  - unfold worker_run. cbn [fold_left snd length].
    destruct (is_connected w); rewrite Nat.sub_0_r, firstn_all; repeat split.
  - unfold worker_run. cbn [fold_left].
    fold (worker_run q evs (worker_round q ev (m, w))).
    destruct (worker_round_removes q ev (m, w)) as (R1 & R2 & R3 & R4).
    cbn zeta in R1, R2, R3, R4. cbn [snd] in R1, R2, R3, R4.
    destruct (worker_round q ev (m, w)) as [m1 w1]. cbn [snd] in R1, R2, R3, R4.
    destruct (IH m1 w1) as (I1 & I2 & I3 & I4). cbn zeta in I1, I2, I3, I4.
    split; [congruence|]. split; [congruence|]. split.
    + intros q' Hq'. rewrite (I3 q' Hq'). now apply R3.
    + rewrite I4, R1, R4. cbn [length].
      destruct (is_connected w).
      * rewrite length_take, take_take. f_equal. lia.
      * rewrite !Nat.sub_0_r, !firstn_all. reflexivity.
Qed.

End WithHashlib.

Lemma request_is_processed_once_witness :
  let q := submit_queue "high" in
  let item := submitted sample_item "high" 7 in
  let rid := default "unknown"%string (request_id sample_item) in
  let w1 := (add_scan_request sample_item "high" 7 empty_world).1 in
  let s2 := @worker_round sample_hashlib q failing (DetectionService.__init__, w1) in
  (add_scan_request sample_item "high" 7 empty_world).2 = true /\
  queue_of w1 q = [item] /\
  priority item = Some "high"%string /\ retry_count item = Some 0%Z /\
  queue_of s2.2 q = [] /\
  is_Some (get_cache (result_key rid) s2.2) /\
  processed_count s2.2 = (processed_count empty_world + 1)%Z /\
  error_count s2.2 = error_count empty_world /\
  @worker_run sample_hashlib q [succeeding; failing] s2 = s2.
Proof.
  apply (@request_is_processed_once sample_hashlib sample_item "high"
           "guaranteed 500% returns on your investment! act now!" 7
           failing [succeeding; failing] DetectionService.__init__ empty_world);
    first [reflexivity | discriminate].
Defined.

Lemma successful_scan_is_stored_witness :
  let key := result_key (default "unknown"%string (request_id sample_item)) in
  let cached :=
    analysis_key
      (@DetectionService._generate_text_hash sample_hashlib
         "guaranteed 500% returns on your investment! act now!") in
  let w' :=
    (@_process_scan_item sample_hashlib sample_item succeeding
       (DetectionService.__init__, empty_world)).2 in
  get_cache key w' = Some sample_result /\
  store w' !! key = Some (sample_result, 3600%Z) /\
  (DetectionService.is_success sample_result = true ->
     store w' !! cached
     = Some (ServiceSpec.cache_entry sample_result (round_now succeeding),
             DetectionService.MODEL_UPDATE_INTERVAL) /\
     writes w' = writes empty_world ++ [cached; key]) /\
  (DetectionService.is_success sample_result = false ->
     store w' !! cached = store empty_world !! cached /\
     writes w' = writes empty_world ++ [key]) /\
  (forall k, k <> key -> k <> cached -> store w' !! k = store empty_world !! k) /\
  queues w' = queues empty_world /\
  callbacks w' = callbacks empty_world ++ callback_of sample_item /\
  processed_count w' = (processed_count empty_world + 1)%Z /\
  error_count w' = error_count empty_world.
Proof.
  apply (@successful_scan_is_stored sample_hashlib sample_item
           "guaranteed 500% returns on your investment! act now!"
           sample_result succeeding DetectionService.__init__ empty_world);
    first [reflexivity | discriminate | (cbn; lia)].
Defined.

Lemma disconnected_store_keeps_nothing_witness :
  (forall request_data prio t,
     add_scan_request request_data prio t offline_world = (offline_world, false)) /\
  (forall q, get_from_queue q offline_world = (None, offline_world)) /\
  (let w' :=
     (@_process_scan_item sample_hashlib sample_item failing
        (DetectionService.__init__, offline_world)).2 in
   store w' = store offline_world /\ queues w' = queues offline_world /\
   writes w' = writes offline_world /\
   (forall key, get_cache key w' = None) /\
   callbacks w' = callbacks offline_world ++ callback_of sample_item /\
   processed_count w' = (processed_count offline_world + 1)%Z /\
   error_count w' = error_count offline_world).
Proof.
  apply (@disconnected_store_keeps_nothing sample_hashlib sample_item
           "guaranteed 500% returns on your investment! act now!" failing
           DetectionService.__init__ offline_world);
    first [reflexivity | discriminate].
Defined.

End QueueOrderFacts.

(** ** The quick scan *)

Module QuickScanFacts.
Import Py PatternMatcher ScanRoutes QuickScanSpec.
Local Open Scope Q_scope.

(** The risk level of an analysis is the tier of its risk score. *)
Lemma risk_level_is_tier (ms : list PatternMatch) :
  ra_risk_level (calculate_risk_score ms)
  = pattern_tier (ra_risk_score (calculate_risk_score ms)).
Proof.
  destruct ms as [|pm0 ms0]; [reflexivity|].
  unfold calculate_risk_score.
  destruct (fold_left risk_step (pm0 :: ms0) (0.0, 0.0, [])) as [[tw ts] cm].
  reflexivity.
Qed.

Lemma make_response_ok (rs : Q) (level : string) (c elapsed : Q) :
  0 <= rs -> rs <= 1 -> 0 <= c -> c <= 1 ->
  make_response rs level c elapsed
  = Return {| risk_score := rs;
              risk_level := level;
              is_suspicious := Np.Qltb 0.5 rs;
              confidence := c;
              processing_time := elapsed |}.
Proof.
  intros H0 H1 H2 H3. unfold make_response.
  assert (E0 : Qle_bool 0.0 rs = true) by (apply Qle_bool_iff; lra).
  assert (E1 : Qle_bool rs 1.0 = true) by (apply Qle_bool_iff; lra).
  assert (E2 : Qle_bool 0.0 c = true) by (apply Qle_bool_iff; lra).
  assert (E3 : Qle_bool c 1.0 = true) by (apply Qle_bool_iff; lra).
  now rewrite E0, E1, E2, E3.
Qed.

(** X22. The route of the quick scan while the BERT model is not loaded
    (the fallback object as its constructor leaves it).  A body that is
    empty or longer than 5000 characters is answered with 422, and the
    handler's own 413 is never returned.  Any other body gets a response:
    for a pattern risk of at most 0.59 the risk score is that risk; for a
    pattern risk of at least 0.61 the "boost" returns 0.7 * risk + 0.03,
    which is lower than the pattern risk and below 0.7; and for a pattern
    risk between 0.61 and 0.67 the response has risk level [high] and
    [is_suspicious = False]. *)
Theorem quick_scan_boost_lowers :
  forall (uniform : nat -> Q) (pattern_simulator : BertClassifier.object)
         (body : string) (elapsed : Q),
    BertClassifier.__init__ uniform = Return pattern_simulator ->
    ((String.length body < 1)%nat \/ (5000 < String.length body)%nat ->
       post_quick_scan pattern_simulator body elapsed = HTTPException 422) /\
    ((1 <= String.length body)%nat /\ (String.length body <= 5000)%nat ->
       exists response,
         post_quick_scan pattern_simulator body elapsed = Ok response /\
         (pattern_risk body <= 0.59 -> risk_score response = pattern_risk body) /\
         (0.61 <= pattern_risk body ->
            risk_score response == 0.7 * pattern_risk body + 0.03 /\
            risk_score response < pattern_risk body /\
            risk_score response < 0.7) /\
         (0.61 <= pattern_risk body -> pattern_risk body <= 0.67 ->
            risk_level response = "high"%string /\ is_suspicious response = false)).
Proof.
  intros uniform sim body elapsed Hsim. split.
  - intros Hlen. unfold post_quick_scan, validate.
    destruct Hlen as [Hlen|Hlen].
    + assert (E : (1 <=? String.length body)%nat = false) by (apply Nat.leb_gt; lia).
      now rewrite E.
    + assert (E : (String.length body <=? 5000)%nat = false) by (apply Nat.leb_gt; lia).
      rewrite E. now rewrite andb_false_r.
  - intros [Hlen1 Hlen2]. unfold post_quick_scan, validate.
    assert (E1 : (1 <=? String.length body)%nat = true) by (apply Nat.leb_le; lia).
    assert (E2 : (String.length body <=? 5000)%nat = true) by (apply Nat.leb_le; lia).
    rewrite E1, E2. cbn [andb]. unfold quick_scan. cbn [text].
    assert (Hl : (5000 <? String.length body)%nat = false) by (apply Nat.ltb_ge; lia).
    rewrite Hl.
    pose proof (RiskScoreFacts.risk_analysis_range pattern_matcher body)
      as (R0 & R1 & C0 & C1). cbn zeta in R0, R1, C0, C1.
    assert (Hlevel : ra_risk_level (risk_analysis (analyze_text pattern_matcher body))
                     = pattern_tier (pattern_risk body)).
    { unfold pattern_risk, analyze_text. cbn [risk_analysis]. apply risk_level_is_tier. }
    rewrite Hlevel. fold (pattern_risk body) in *.
    set (r0 := pattern_risk body) in *.
    set (c0 := ra_confidence (risk_analysis (analyze_text pattern_matcher body))) in *.
    rewrite (BertFacts.simulate_without_attribute sim body
               (BertFacts.init_has_no_advanced_simulator uniform sim Hsim)).
    change (getitem EnsembleSpec.fallback_result "scam_probability")
      with (@Return pyval (VFloat 0.1)).
    change (getitem EnsembleSpec.fallback_result "confidence")
      with (@Return pyval (VFloat 0.5)).
    cbn [bind number as_float].
    destruct (Np.Qltb 0.6 r0) eqn:B.
    + apply EnsembleFacts.Qltb_spec in B. cbn [bind].
      assert (Hc : 0 <= py_max2 c0 0.5 /\ py_max2 c0 0.5 <= 1).
      { unfold py_max2. destruct (Np.Qltb c0 0.5); split; lra. }
      destruct Hc as [Hc0 Hc1].
      rewrite make_response_ok by (try assumption; lra).
      eexists. split; [reflexivity|].
      cbn [risk_level is_suspicious risk_score].
      split; [intros Hle; exfalso; lra|].
      split; [intros _; repeat split; lra|].
      intros _ Hup. split.
      * unfold pattern_tier.
        assert (E8 : Qle_bool 0.8 r0 = false)
          by (apply EnsembleFacts.Qle_bool_false; lra).
        assert (E6 : Qle_bool 0.6 r0 = true) by (apply Qle_bool_iff; lra).
        now rewrite E8, E6.
      * destruct (Np.Qltb 0.5 (r0 * 0.7 + 0.1 * 0.3)) eqn:S5; [|reflexivity].
        apply EnsembleFacts.Qltb_spec in S5. exfalso. lra.
    + cbn [bind].
      assert (Hle : r0 <= 0.6).
      { destruct (Qlt_le_dec 0.6 r0) as [Hgt|Hle]; [|exact Hle].
        apply EnsembleFacts.Qltb_spec in Hgt. congruence. }
      rewrite make_response_ok by lra.
      eexists. split; [reflexivity|].
      cbn [risk_level is_suspicious risk_score].
      split; [reflexivity|].
      split; intros Hgt; exfalso; lra.
Qed.

Lemma quick_scan_boost_lowers_witness :
  ((String.length pressing_reply < 1)%nat \/ (5000 < String.length pressing_reply)%nat ->
     post_quick_scan EnsembleSpec.built_simulator pressing_reply 0 = HTTPException 422) /\
  ((1 <= String.length pressing_reply)%nat /\ (String.length pressing_reply <= 5000)%nat ->
     exists response,
       post_quick_scan EnsembleSpec.built_simulator pressing_reply 0 = Ok response /\
       (pattern_risk pressing_reply <= 0.59 ->
          risk_score response = pattern_risk pressing_reply) /\
       (0.61 <= pattern_risk pressing_reply ->
          risk_score response == 0.7 * pattern_risk pressing_reply + 0.03 /\
          risk_score response < pattern_risk pressing_reply /\
          risk_score response < 0.7) /\
       (0.61 <= pattern_risk pressing_reply -> pattern_risk pressing_reply <= 0.67 ->
          risk_level response = "high"%string /\ is_suspicious response = false)).
Proof.
  apply (quick_scan_boost_lowers (fun _ => 0.5) EnsembleSpec.built_simulator
           pressing_reply 0).
  apply BertFacts.built_simulator_ok.
Defined.

(** The text [pressing_reply] is such a text: its pattern risk is 0.65,
    and the quick scan answers [high] with a risk score of 0.485. *)
Example pressing_reply_is_high_but_not_suspicious :
  pattern_risk pressing_reply == 0.65 /\
  exists response,
    post_quick_scan EnsembleSpec.built_simulator pressing_reply 0 = Ok response /\
    risk_score response == 0.485 /\
    risk_level response = "high"%string /\
    is_suspicious response = false.
Proof.
  split; [vm_compute; reflexivity|].
  eexists. split; [vm_compute; reflexivity|].
  split; [vm_compute; reflexivity|].
  split; reflexivity.
Qed.

End QuickScanFacts.


(** ** The sentiment analysis *)

Module SentimentFacts.
Import Py SentimentAnalyzer.
Local Open Scope Q_scope.

Section WithTextBlob.
Context `{TextBlob}.

(** The keyword analyses read the keyword lists of the analyzer and
    nothing else of it. *)
Lemma analyze_urgency_keywords (s1 s2 : SentimentAnalyzer.SentimentAnalyzer)
    (text : string) :
  urgency_keywords s1 = urgency_keywords s2 ->
  analyze_urgency s1 text = analyze_urgency s2 text.
Proof. unfold analyze_urgency. now intros ->. Qed.

Lemma analyze_manipulation_keywords (s1 s2 : SentimentAnalyzer.SentimentAnalyzer)
    (text : string) :
  fear_keywords s1 = fear_keywords s2 ->
  greed_keywords s1 = greed_keywords s2 ->
  trust_keywords s1 = trust_keywords s2 ->
  analyze_emotional_manipulation s1 text = analyze_emotional_manipulation s2 text.
Proof. unfold analyze_emotional_manipulation. now intros -> -> ->. Qed.

(** The explanations read the predictions through their names, scores and
    confidences and through what the two loops make of each. *)
Lemma generate_explanations_ext (self : Ensemble.EnsembleScorer)
    (ps ps' : list EnsemblePipeline.Prediction) (fs : Q) :
  map fst ps = map fst ps' ->
  map EnsemblePipeline.explain_contribution ps
  = map EnsemblePipeline.explain_contribution ps' ->
  map EnsemblePipeline.explain_categories ps
  = map EnsemblePipeline.explain_categories ps' ->
  EnsemblePipeline._generate_explanations self ps fs
  = EnsemblePipeline._generate_explanations self ps' fs.
Proof.
  intros H1 H2 H3. unfold EnsemblePipeline._generate_explanations.
  rewrite !flat_map_concat_map, H2, H3.
  rewrite <- !(map_map fst Ensemble.confidence).
  now rewrite H1.
Qed.

(** X25. The transformer sentiment model has no part in the sentiment
    risk nor in the result of the ensemble: for any two outcomes of
    loading its pipeline (any model, or a failed load) the complete
    analysis of a text has the same basic sentiment, urgency and
    manipulation analyses and the same composite risk score, a fraction
    between 0 and 1; and [predict_single] returns the same final score,
    risk level, confidence and explanation.  Of what the transformer
    returns only the [transformer_sentiment] entry is kept, in the
    metadata of the sentiment prediction. *)
Theorem sentiment_risk_ignores_transformer :
  forall (pipeline1 pipeline2 : outcome (string -> outcome (list (string * Q))))
         (self : Ensemble.EnsembleScorer)
         (bert : string -> gmap string pyval) (simulator : BertClassifier.object)
         (text : string) (explain : bool) (clock : EnsemblePipeline.Clock),
    let a := analyze_complete_sentiment (__init__ pipeline1) text in
    let b := analyze_complete_sentiment (__init__ pipeline2) text in
    let models pipeline_ :=
      {| EnsemblePipeline.bert_predict_single := bert;
         EnsemblePipeline.pattern_simulator := simulator;
         EnsemblePipeline.sentiment_analyzer := __init__ pipeline_ |} in
    let r1 := EnsemblePipeline.predict_single self (models pipeline1) text explain clock in
    let r2 := EnsemblePipeline.predict_single self (models pipeline2) text explain clock in
    basic_sentiment a = basic_sentiment b /\
    urgency_analysis a = urgency_analysis b /\
    manipulation_analysis a = manipulation_analysis b /\
    composite_risk_score a = composite_risk_score b /\
    0 <= composite_risk_score a /\ composite_risk_score a <= 1 /\
    EnsemblePipeline.final_score r1 = EnsemblePipeline.final_score r2 /\
    EnsemblePipeline.risk_level r1 = EnsemblePipeline.risk_level r2 /\
    EnsemblePipeline.result_confidence r1 = EnsemblePipeline.result_confidence r2 /\
    EnsemblePipeline.explanation r1 = EnsemblePipeline.explanation r2.
Proof.
  intros p1 p2 self bert simulator text explain clock. cbn zeta.
  assert (U : analyze_urgency (__init__ p1) text = analyze_urgency (__init__ p2) text)
    by (apply analyze_urgency_keywords; reflexivity).
  assert (M : analyze_emotional_manipulation (__init__ p1) text
              = analyze_emotional_manipulation (__init__ p2) text)
    by (apply analyze_manipulation_keywords; reflexivity).
  set (m1 := {| EnsemblePipeline.bert_predict_single := bert;
                EnsemblePipeline.pattern_simulator := simulator;
                EnsemblePipeline.sentiment_analyzer := __init__ p1 |}).
  set (m2 := {| EnsemblePipeline.bert_predict_single := bert;
                EnsemblePipeline.pattern_simulator := simulator;
                EnsemblePipeline.sentiment_analyzer := __init__ p2 |}).
  set (sp1 := EnsemblePipeline._get_sentiment_prediction m1 text
                (EnsemblePipeline.sentiment_seconds clock)).
  set (sp2 := EnsemblePipeline._get_sentiment_prediction m2 text
                (EnsemblePipeline.sentiment_seconds clock)).
  assert (Hs : sp1.1 = sp2.1).
  { unfold sp1, sp2, EnsemblePipeline._get_sentiment_prediction.
    cbn [fst EnsemblePipeline.sentiment_analyzer m1 m2].
    unfold analyze_complete_sentiment.
    cbn [urgency_analysis manipulation_analysis composite_risk_score
         processing_successful].
    now rewrite U, M. }
  assert (Hu : EnsemblePipeline.metadata_urgency_level sp1.2
               = EnsemblePipeline.metadata_urgency_level sp2.2).
  { unfold sp1, sp2, EnsemblePipeline._get_sentiment_prediction.
    cbn [snd EnsemblePipeline.metadata_urgency_level
         EnsemblePipeline.sentiment_analyzer m1 m2].
    unfold analyze_complete_sentiment. cbn [urgency_analysis]. now rewrite U. }
  assert (Hc : EnsemblePipeline.explain_contribution sp1
               = EnsemblePipeline.explain_contribution sp2).
  { unfold EnsemblePipeline.explain_contribution. rewrite Hs, Hu. reflexivity. }
  assert (Hk : EnsemblePipeline.explain_categories sp1
               = EnsemblePipeline.explain_categories sp2).
  { unfold EnsemblePipeline.explain_categories. rewrite Hs. reflexivity. }
  unfold analyze_complete_sentiment.
  cbn [basic_sentiment urgency_analysis manipulation_analysis composite_risk_score].
  rewrite U, M.
  split; [reflexivity|]. split; [reflexivity|]. split; [reflexivity|].
  split; [reflexivity|].
  split; [|split].
  - unfold _calculate_sentiment_risk.
    apply Q.min_glb; [lra | apply PipelineFacts.Qmax_zero_ge].
  - unfold _calculate_sentiment_risk. apply PipelineFacts.Qmin_one_le.
  - unfold EnsemblePipeline.predict_single. fold sp1 sp2.
    change (EnsemblePipeline.get_bert_prediction self m2 text
              (EnsemblePipeline.bert_seconds clock))
      with (EnsemblePipeline.get_bert_prediction self m1 text
              (EnsemblePipeline.bert_seconds clock)).
    set (bp := EnsemblePipeline.get_bert_prediction self m1 text
                 (EnsemblePipeline.bert_seconds clock)).
    set (pp := EnsemblePipeline._get_pattern_prediction text
                 (EnsemblePipeline.pattern_seconds clock)).
    assert (Hmap : map fst [bp; pp; sp1] = map fst [bp; pp; sp2])
      by (cbn [map]; now rewrite Hs).
    assert (He : forall fs,
              EnsemblePipeline._generate_explanations self [bp; pp; sp1] fs
              = EnsemblePipeline._generate_explanations self [bp; pp; sp2] fs).
    { intros fs. apply generate_explanations_ext;
        [exact Hmap | cbn [map]; now rewrite Hc | cbn [map]; now rewrite Hk]. }
    rewrite Hmap.
    destruct (Ensemble._calculate_ensemble_score self (map fst [bp; pp; sp2]))
      as [fs c].
    rewrite (He fs).
    destruct (Ensemble._determine_risk_level self fs) as [level|e];
      cbn [bind try_except EnsemblePipeline.final_score EnsemblePipeline.risk_level
           EnsemblePipeline.result_confidence EnsemblePipeline.explanation];
      repeat split.
Qed.

End WithTextBlob.

End SentimentFacts.
